(** * Continuum Intelligence: the automated narrative-analysis runners

    A shallow embedding of the three runner scripts of the repository:

    - the "Simplified" runner, which simulates prices with [Math.random]
      (module [Simulated]);
    - the "Using Real Prices" runner, which reads a hard-coded [STOCK_DATA]
      table overlaid with the live-price snapshot (module [RealPrices]);
    - [scripts/run-automated-analysis.js], which builds price data and hands
      it to the price-narrative engine (module [Runner]).

    JavaScript numbers are modelled as exact rationals ([Q]): the scripts
    only add, subtract, multiply, divide and compare prices, and every
    value that is compared with a threshold has first been rounded by
    [toFixed].  The scripts compute in IEEE doubles, which round every
    operation, overflow to an infinity for very large prices, lose digits
    for very small ones and answer a division by zero with [NaN] or an
    infinity; the rationals do none of this.  A statement that fixes the
    rounded value computed from an arbitrary price is therefore made for
    prices of ordinary magnitude ([inPriceRange]), where the exact value is
    far from a rounding boundary, and the bounds on the simulated values are
    closed and leave a margin.  Console output and the writing of the report
    file are left out. *)

From Stdlib Require Import QArith Qround Qminmax Qabs ZArith Lia Lqa Ascii.
From stdpp Require Import base gmap strings list.

(** ** The JavaScript operations the scripts use *)

Module JS.

Local Open Scope Q_scope.

(** [x < y] and [x > y] on numbers. *)
Definition ltb (x y : Q) : bool := negb (Qle_bool y x).
Definition gtb (x y : Q) : bool := ltb y x.

(** The string [x.toFixed(d)] is kept as its number of digits and the
    signed count of units of [10^-d] it spells. *)
Record Fixed : Type := mkFixed { digits : nat; units : Z }.

Definition pow10 (d : nat) : Z := (10 ^ Z.of_nat d)%Z.

(** Nearest integer, the larger one on a tie (for a non-negative [x]). *)
Definition nearest (x : Q) : Z := Qfloor (x + (1 # 2)).

(** [Number.prototype.toFixed]: a negative number is printed as the sign
    followed by the digits of its absolute value.  The model rounds the
    exact rational, a tie away from zero; the script rounds the double it
    has computed, which may lie an ulp to either side of a tie (and prints
    [NaN] and the infinities, which the model does not have). *)
Definition toFixed (x : Q) (d : nat) : Fixed :=
  let scale := inject_Z (pow10 d) in
  mkFixed d (if ltb x 0 then (- nearest (- x * scale))%Z
             else nearest (x * scale)).

(** [parseFloat] of such a string (also the coercion applied by
    [Math.abs] to a string). *)
Definition parseFloat (s : Fixed) : Q :=
  Qred (units s # Z.to_pos (pow10 (digits s))).

Definition Math_abs (x : Q) : Q := Qabs x.

(** [Math.max(...xs, x)] and [Math.min(...xs, x)]. *)
Definition Math_max (xs : list Q) (x : Q) : Q := foldr Qmax x xs.
Definition Math_min (xs : list Q) (x : Q) : Q := foldr Qmin x xs.

(** A property that may be absent or hold a number: [None] is
    [undefined].  Zero and [undefined] are falsy. *)
Definition truthy (v : option Q) : bool :=
  match v with
  | Some q => negb (Qeq_bool q 0)
  | None => false
  end.

(** [v || w] where [w] may be [undefined] too. *)
Definition or_opt (v w : option Q) : option Q :=
  if truthy v then v else w.

(** [v || d] where [d] is a number. *)
Definition or_num (v : option Q) (d : Q) : Q :=
  match v with
  | Some q => if Qeq_bool q 0 then d else q
  | None => d
  end.

(** [xs[i]] for a possibly negative index. *)
Definition index (xs : list Q) (i : Z) : option Q :=
  if (i <? 0)%Z then None else xs !! Z.to_nat i.

End JS.

(** ** The ambient state of a run *)

(** What a script can read besides its inputs: the successive results of
    [Math.random()] and of [new Date().toISOString()]. *)
Record World : Type := mkWorld {
  randomDraws : nat -> Q;
  clockReadings : nat -> string
}.

(** ** Enumerations shared by the scripts *)

Inductive Severity : Type := NORMAL | MODERATE | HIGH | CRITICAL.
Inductive Pattern : Type := P_NORMAL | GAP_DOWN | DISTRIBUTION.
Inductive Confidence : Type := C_LOW | C_MEDIUM | C_HIGH.
Inductive Tag : Type := T1 | T2 | T3 | T4.

Record WeightRecord : Type := mkWeight {
  longTerm : Q;
  shortTerm : Q;
  blended : Q;
  confidence : Confidence
}.

(** The object [{ T1: .., T2: .., T3: .., T4: .. }]. *)
Record Weights : Type := mkWeights {
  wT1 : WeightRecord;
  wT2 : WeightRecord;
  wT3 : WeightRecord;
  wT4 : WeightRecord
}.

Definition weightOf (t : Tag) (w : Weights) : WeightRecord :=
  match t with
  | T1 => wT1 w
  | T2 => wT2 w
  | T3 => wT3 w
  | T4 => wT4 w
  end.

(** ** The runner "Using Real Prices" *)

Module RealPrices.

Local Open Scope Q_scope.

(** An entry of [livePrices.prices]: current price and previous close. *)
Record LivePrice : Type := mkLive { p : Q; pc : option Q }.

(** An entry of [STOCK_DATA]; [previousPrice] exists only after the
    live-price overlay. *)
Record StockEntry : Type := mkStock {
  price : Q;
  previousPrice : option Q;
  priceHistory : list Q
}.

(** [Array(100).fill(280).map((p, i) => 280 - i * 1.5)] *)
Definition pmeHistory : list Q :=
  map (fun i : nat => 280 - inject_Z (Z.of_nat i) * 1.5) (seq 0 100).

Definition STOCK_DATA : list (string * StockEntry) :=
  [ ("PME", mkStock 118.22 None pmeHistory);
    ("XRO", mkStock 73.49 None []);
    ("CSL", mkStock 150.01 None []);
    ("WOW", mkStock 31.94 None []);
    ("WTC", mkStock 42.62 None []);
    ("DRO", mkStock 3.03 None []);
    ("GYG", mkStock 19.31 None []);
    ("MQG", mkStock 216.17 None []);
    ("GMG", mkStock 31.02 None []);
    ("WDS", mkStock 25.78 None []);
    ("SIG", mkStock 3.03 None []);
    ("FMG", mkStock 21.21 None []) ]%string.

(** "Update with live prices": an entry with a live quote takes its
    price and previous close from the quote. *)
Definition overlay (live : gmap string LivePrice)
    (entry : string * StockEntry) : string * StockEntry :=
  let (ticker, data) := entry in
  match live !! ticker with
  | Some quote => (ticker, mkStock (p quote) (pc quote) (priceHistory data))
  | None => (ticker, data)
  end.

Definition updateWithLivePrices (live : gmap string LivePrice)
    (table : list (string * StockEntry)) : list (string * StockEntry) :=
  map (overlay live) table.

(** The three constants at the head of the loop body. *)
Record PriceFacts : Type := mkFacts {
  currentPrice : Q;
  previousPriceOf : Q;
  peakPrice : Q
}.

(** The products [currentPrice * 1.1] and [currentPrice * 2.5] are exact
    here; in the script they are rounded, and overflow to an infinity for
    prices near the largest double. *)
Definition priceFacts (data : StockEntry) : PriceFacts :=
  let currentPrice := price data in
  let previousPrice := JS.or_num (previousPrice data) (currentPrice * 1.1) in
  let peakPrice := JS.Math_max (priceHistory data) (currentPrice * 2.5) in
  mkFacts currentPrice previousPrice peakPrice.

(** The two percentages.  A quotient by zero is 0 in [Q], where the script
    gets [NaN] or an infinity; the properties below that fix a value of
    these percentages are stated for non-zero divisors. *)
Definition change (f : PriceFacts) : JS.Fixed :=
  JS.toFixed ((currentPrice f - previousPriceOf f) / previousPriceOf f * 100) 2.

Definition drawdown (f : PriceFacts) : JS.Fixed :=
  JS.toFixed ((currentPrice f - peakPrice f) / peakPrice f * 100) 1.

(** "Detect dislocation", on the two parsed percentages. *)
Definition classify (todayReturn drawdownFromPeak : Q) : Severity :=
  if JS.gtb (JS.Math_abs todayReturn) 8 || JS.ltb drawdownFromPeak (-40)
  then CRITICAL
  else if JS.gtb (JS.Math_abs todayReturn) 5 || JS.ltb drawdownFromPeak (-25)
  then HIGH
  else NORMAL.

Definition severityOf (f : PriceFacts) : Severity :=
  classify (JS.parseFloat (change f)) (JS.parseFloat (drawdown f)).

Definition isCritical (s : Severity) : bool :=
  match s with CRITICAL => true | _ => false end.

(** "Generate weights based on severity". *)
Definition weights (severity : Severity) : Weights :=
  let c := isCritical severity in
  mkWeights
    (mkWeight 60 (if c then 40 else 55) (if c then 52 else 58) C_MEDIUM)
    (mkWeight 35 (if c then 75 else 40) (if c then 51 else 37)
              (if c then C_HIGH else C_MEDIUM))
    (mkWeight 20 (if c then 65 else 25) (if c then 38 else 22)
              (if c then C_HIGH else C_MEDIUM))
    (mkWeight 50 (if c then 15 else 45) (if c then 36 else 48)
              (if c then C_LOW else C_MEDIUM)).

Record Metrics : Type := mkMetrics {
  m_currentPrice : Q;
  todayReturn : Q;
  drawdownFromPeak : Q;
  zScore : Q;
  volumeRatio : Q
}.

Record Dislocation : Type := mkDislocation {
  severity : Severity;
  metrics : Metrics;
  pattern : Pattern
}.

Record Inference : Type := mkInference {
  primaryHypothesis : Tag;
  secondaryHypothesis : option Tag;
  contradictedHypothesis : option Tag;
  inf_confidence : Q
}.

Record TickerResult : Type := mkResult {
  r_ticker : string;
  dislocation : Dislocation;
  r_weights : Weights;
  inference : Inference
}.

Definition inferenceOf (severity : Severity) : Inference :=
  let c := isCritical severity in
  mkInference (if c then T2 else T1)
              (if c then Some T3 else None)
              (if c then Some T4 else None)
              (if c then 0.85 else 0.6).

(** The value stored in [results[ticker]], from the three constants. *)
Definition resultOf (ticker : string) (f : PriceFacts) : TickerResult :=
  let severity := severityOf f in
  let c := isCritical severity in
  mkResult ticker
    (mkDislocation severity
       (mkMetrics (currentPrice f)
                  (JS.parseFloat (change f))
                  (JS.parseFloat (drawdown f))
                  (if c then -2.5 else -0.5)
                  (if c then 2.2 else 1.0))
       (if c then DISTRIBUTION else P_NORMAL))
    (weights severity)
    (inferenceOf severity).

Definition analyzeTicker (ticker : string) (data : StockEntry) : TickerResult :=
  resultOf ticker (priceFacts data).

Record Summary : Type := mkSummary {
  runAt : string;
  tickersAnalyzed : nat;
  criticalDislocations : nat;
  highDislocations : nat;
  normal : nat
}.

(** The counter the classification increments. *)
Definition count (s : Severity) (sm : Summary) : Summary :=
  match s with
  | CRITICAL =>
      mkSummary (runAt sm) (tickersAnalyzed sm)
                (S (criticalDislocations sm)) (highDislocations sm) (normal sm)
  | HIGH =>
      mkSummary (runAt sm) (tickersAnalyzed sm)
                (criticalDislocations sm) (S (highDislocations sm)) (normal sm)
  | _ =>
      mkSummary (runAt sm) (tickersAnalyzed sm)
                (criticalDislocations sm) (highDislocations sm) (S (normal sm))
  end.

Record State : Type := mkState {
  summary : Summary;
  results : gmap string TickerResult
}.

(** One turn of "Analyze each ticker". *)
Definition step (st : State) (entry : string * StockEntry) : State :=
  let (ticker, data) := entry in
  let r := analyzeTicker ticker data in
  mkState (count (severity (dislocation r)) (summary st))
          (<[ticker := r]> (results st)).

Definition initial (w : World) : State :=
  mkState (mkSummary (clockReadings w 0) 12 0 0 0) ∅.

Definition analyzeAll (w : World) (table : list (string * StockEntry)) : State :=
  foldl step (initial w) table.

Record Output : Type := mkOutput {
  o_summary : Summary;
  o_results : gmap string TickerResult;
  generatedAt : string
}.

(** The whole script: the report it writes and its exit code.  [live] is
    the content of [data/live-prices.json], [None] when it cannot be
    read. *)
Definition run (w : World) (live : option (gmap string LivePrice))
    : Output * Z :=
  let prices := default ∅ live in
  let st := analyzeAll w (updateWithLivePrices prices STOCK_DATA) in
  (mkOutput (summary st) (results st) (clockReadings w 1),
   if (0 <? criticalDislocations (summary st))%nat then 1%Z else 0%Z).

End RealPrices.

(** ** The "Simplified" runner, on simulated prices *)

Module Simulated.

Local Open Scope Q_scope.

(** A computation that may call [Math.random()]: it reads the world's
    draws from a position and returns the position it reached. *)
Definition Rand (A : Type) : Type := World -> nat -> A * nat.

#[global] Instance Rand_ret : MRet Rand := fun A x _ n => (x, n).
#[global] Instance Rand_bind : MBind Rand :=
  fun A B k m w n => let (a, n') := m w n in k a w n'.

Definition Math_random : Rand Q := fun w n => (randomDraws w n, S n).

Record Metrics : Type := mkMetrics {
  todayReturn : Q;
  zScore : JS.Fixed;
  volumeRatio : JS.Fixed
}.

Record Dislocation : Type := mkDislocation {
  severity : Severity;
  metrics : Metrics;
  pattern : Pattern
}.

Record Inference : Type := mkInference {
  primaryHypothesis : Tag;
  inf_confidence : Q
}.

Record TickerResult : Type := mkResult {
  r_ticker : string;
  dislocation : Dislocation;
  r_weights : Weights;
  inference : Inference
}.

Record Summary : Type := mkSummary {
  runAt : string;
  tickersAnalyzed : nat;
  criticalDislocations : nat;
  highDislocations : nat;
  normal : nat
}.

Definition tickers : list string :=
  [ "PME"; "XRO"; "CSL"; "WOW"; "WTC"; "DRO";
    "GYG"; "MQG"; "GMG"; "WDS"; "SIG"; "FMG" ]%string.

(** "Simulate price data": [currentPrice] and [previousPrice], computed
    exactly here; the script rounds each operation, so for a draw next to 1
    its values can reach the ends of the exact ranges. *)
Definition simulatePrices : Rand (Q * Q) :=
  r ← Math_random;
  let currentPrice := 100 + r * 200 in
  r' ← Math_random;
  let previousPrice := currentPrice * (1 + (r' - 0.5) * 0.1) in
  mret (currentPrice, previousPrice).

Definition change (prices : Q * Q) : JS.Fixed :=
  let (currentPrice, previousPrice) := prices in
  JS.toFixed ((currentPrice - previousPrice) / previousPrice * 100) 2.

(** "Simple dislocation detection". *)
Definition classify (change : JS.Fixed) : Severity :=
  if JS.gtb (JS.Math_abs (JS.parseFloat change)) 8 then CRITICAL
  else if JS.gtb (JS.Math_abs (JS.parseFloat change)) 5 then HIGH
  else NORMAL.

Definition count (s : Severity) (sm : Summary) : Summary :=
  match s with
  | CRITICAL =>
      mkSummary (runAt sm) (tickersAnalyzed sm)
                (S (criticalDislocations sm)) (highDislocations sm) (normal sm)
  | HIGH =>
      mkSummary (runAt sm) (tickersAnalyzed sm)
                (criticalDislocations sm) (S (highDislocations sm)) (normal sm)
  | _ =>
      mkSummary (runAt sm) (tickersAnalyzed sm)
                (criticalDislocations sm) (highDislocations sm) (S (normal sm))
  end.

(** The value stored in [results[ticker]]; the six draws are taken in
    the order in which the object literal is evaluated. *)
Definition resultOf (ticker : string) (prices : Q * Q) : Rand TickerResult :=
  let change := change prices in
  let severity := classify change in
  z ← Math_random;
  v ← Math_random;
  s1 ← Math_random;
  s2 ← Math_random;
  s3 ← Math_random;
  s4 ← Math_random;
  mret (mkResult ticker
    (mkDislocation severity
       (mkMetrics (JS.parseFloat change)
                  (JS.toFixed (z * 3) 2)
                  (JS.toFixed (1 + v * 2) 2))
       (if JS.gtb (JS.Math_abs (JS.parseFloat change)) 5
        then GAP_DOWN else P_NORMAL))
    (mkWeights
       (mkWeight 50 (45 + s1 * 20) 50 C_HIGH)
       (mkWeight 30 (30 + s2 * 30) 40 C_MEDIUM)
       (mkWeight 20 (20 + s3 * 40) 35
                 (match severity with CRITICAL => C_LOW | _ => C_MEDIUM end))
       (mkWeight 40 (30 + s4 * 20) 38 C_MEDIUM))
    (mkInference (match severity with CRITICAL => T2 | _ => T1 end) 0.75)).

Definition analyzeTicker (ticker : string) : Rand TickerResult :=
  prices ← simulatePrices;
  resultOf ticker prices.

Record State : Type := mkState {
  summary : Summary;
  results : gmap string TickerResult
}.

Definition step (st : State) (ticker : string) : Rand State :=
  r ← analyzeTicker ticker;
  mret (mkState (count (severity (dislocation r)) (summary st))
                (<[ticker := r]> (results st))).

Fixpoint loop (ts : list string) (st : State) : Rand State :=
  match ts with
  | [] => mret st
  | t :: ts' => st' ← step st t; loop ts' st'
  end.

Definition initial (w : World) : State :=
  mkState (mkSummary (clockReadings w 0) 12 0 0 0) ∅.

Record Output : Type := mkOutput {
  o_summary : Summary;
  o_results : gmap string TickerResult;
  generatedAt : string
}.

(** The whole script: the report it writes and its exit code. *)
Definition run (w : World) : Output * Z :=
  let st := fst (loop tickers (initial w) w 0%nat) in
  (mkOutput (summary st) (results st) (clockReadings w 1),
   if (0 <? criticalDislocations (summary st))%nat then 1%Z else 0%Z).

End Simulated.

(** ** [scripts/run-automated-analysis.js] *)

Module Runner.

Local Open Scope Q_scope.

(** An entry of [livePrices.prices]; each field may be missing. *)
Record LivePrice : Type := mkLive {
  p : option Q;
  pc : option Q;
  v : option Q
}.

(** What the runner reads of a [STOCK_DATA] entry. *)
Record StockData : Type := mkStock {
  price : option Q;
  priceHistory : option (list Q)
}.

Record PriceData : Type := mkPriceData {
  currentPrice : Q;
  previousPrice : Q;
  priceAtReview : Q;
  peakPrice : Q;
  low52Week : Q;
  high52Week : Q;
  todayVolume : Q;
  avgVolume20d : Q;
  historicalReturns : list Q;
  consecutiveDownDays : nat
}.

(** The first loop of [buildPriceData]: day-on-day returns. *)
Fixpoint returnsOf (h : list Q) : list Q :=
  match h with
  | a :: (b :: _) as rest => (b - a) / a :: returnsOf rest
  | _ => []
  end.

(** The second loop, on the history read from its end: it stops at the
    first day that did not close lower than the day before. *)
Fixpoint downRun (r : list Q) : nat :=
  match r with
  | last :: (prev :: _) as rest =>
      if JS.ltb last prev then S (downRun rest) else O
  | _ => O
  end.

Definition buildPriceData (livePrices : gmap string LivePrice)
    (ticker : string) (stockData : StockData) : PriceData :=
  let livePrice := livePrices !! ticker in
  let priceHistory := default [] (priceHistory stockData) in
  let len := Z.of_nat (length priceHistory) in
  let currentPrice :=
    JS.or_num
      (JS.or_opt (JS.or_opt (livePrice ≫= p) (price stockData))
                 (JS.index priceHistory (len - 1)))
      100 in
  let previousPrice :=
    JS.or_num
      (JS.or_opt (livePrice ≫= pc) (JS.index priceHistory (len - 2)))
      currentPrice in
  let priceAtReview := JS.or_num (price stockData) currentPrice in
  let peakPrice := JS.Math_max priceHistory currentPrice in
  let low52Week := JS.Math_min priceHistory currentPrice in
  let returns := returnsOf priceHistory in
  mkPriceData currentPrice previousPrice priceAtReview
    peakPrice low52Week peakPrice
    (JS.or_num (livePrice ≫= v) 1000000)
    (if JS.truthy (livePrice ≫= v)
     then default 0 (livePrice ≫= v) / 1.5 else 800000)
    (match returns with [] => [0; 0; 0; 0; 0] | _ => returns end)
    (downRun (rev priceHistory)).

(** A call that either returns or throws an error with a message. *)
Inductive Throws (A : Type) : Type :=
| Threw (message : string)
| Returned (a : A).
Arguments Threw {A} message.
Arguments Returned {A} a.

#[global] Instance Throws_ret : MRet Throws := fun A x => Returned x.
#[global] Instance Throws_bind : MBind Throws :=
  fun A B k m =>
    match m with
    | Threw msg => Threw msg
    | Returned a => k a
    end.

(** Modelled from the spec: the [dislocation] and [inference] parts of an
    analysis, as the spec's data model lists them; the engine that builds
    them is not part of the sources under study. *)
Record Dislocation : Type := mkDislocation {
  severity : Severity;
  pattern : Pattern
}.

Record Inference : Type := mkInference {
  primaryHypothesis : Tag;
  secondaryHypothesis : option Tag;
  contradictedHypothesis : option Tag;
  inf_confidence : Q
}.

(** Modelled from the spec: the object returned by
    [PriceNarrativeEngine.analyze], whose module is not part of the
    sources under study; the fields are those the runner reads and the
    spec's data model names. *)
Record Analysis (Commentary : Type) : Type := mkAnalysis {
  shouldUpdate : bool;
  dislocation : Dislocation;
  weights : Weights;
  inference : Inference;
  institutionalCommentary : option Commentary
}.
Arguments mkAnalysis {Commentary}.
Arguments shouldUpdate {Commentary}.
Arguments dislocation {Commentary}.
Arguments weights {Commentary}.
Arguments inference {Commentary}.
Arguments institutionalCommentary {Commentary}.

(** The property names every plain object inherits from
    [Object.prototype]: looking one of them up in an object literal finds a
    function (for [__proto__], the prototype object). *)
Definition Object_prototype : list string :=
  [ "constructor"; "hasOwnProperty"; "isPrototypeOf"; "propertyIsEnumerable";
    "toLocaleString"; "toString"; "valueOf"; "__proto__";
    "__defineGetter__"; "__defineSetter__";
    "__lookupGetter__"; "__lookupSetter__" ]%string.

(** The value of a property lookup in [SEVERITY_LEVELS]: the level of one
    of its four own properties, an inherited function or object, or
    [undefined]. *)
Inductive Lookup : Type :=
| Own (level : Z)
| Inherited
| Missing.

Definition SEVERITY_LEVELS (name : string) : Lookup :=
  if decide (name = "NORMAL"%string) then Own 0%Z
  else if decide (name = "MODERATE"%string) then Own 1%Z
  else if decide (name = "HIGH"%string) then Own 2%Z
  else if decide (name = "CRITICAL"%string) then Own 3%Z
  else if bool_decide (name ∈ Object_prototype) then Inherited
  else Missing.

Definition severityName (s : Severity) : string :=
  match s with
  | NORMAL => "NORMAL"
  | MODERATE => "MODERATE"
  | HIGH => "HIGH"
  | CRITICAL => "CRITICAL"
  end.

(** The value of [thresholdLevel]: a number, or an inherited function or
    object. *)
Inductive Threshold : Type :=
| Level (l : Z)
| NotANumber.

(** [SEVERITY_LEVELS[THRESHOLD] || 1]: the level 0 and [undefined] are
    falsy, an inherited function or object is truthy. *)
Definition thresholdLevel (THRESHOLD : string) : Threshold :=
  match SEVERITY_LEVELS THRESHOLD with
  | Own l => if (l =? 0)%Z then Level 1 else Level l
  | Inherited => NotANumber
  | Missing => Level 1
  end.

(** [SEVERITY_LEVELS[severity] >= thresholdLevel]: a function or an object
    is converted to [NaN] by the comparison, which is then false. *)
Definition reachesThreshold (s : Severity) (threshold : Threshold) : bool :=
  match SEVERITY_LEVELS (severityName s), threshold with
  | Own l, Level t => (t <=? l)%Z
  | _, _ => false
  end.

Record ErrorEntry : Type := mkError { e_ticker : string; e_error : string }.

Record Summary : Type := mkSummary {
  runAt : string;
  tickersAnalyzed : nat;
  criticalDislocations : nat;
  highDislocations : nat;
  moderateDislocations : nat;
  normal : nat;
  errors : list ErrorEntry
}.

(** [summary.errors.push({ ticker, error })] *)
Definition pushError (sm : Summary) (ticker error : string) : Summary :=
  mkSummary (runAt sm) (tickersAnalyzed sm) (criticalDislocations sm)
    (highDislocations sm) (moderateDislocations sm) (normal sm)
    (errors sm ++ [mkError ticker error]).

(** "Update summary": the [switch] on the severity. *)
Definition count (s : Severity) (sm : Summary) : Summary :=
  match s with
  | CRITICAL =>
      mkSummary (runAt sm) (tickersAnalyzed sm) (S (criticalDislocations sm))
        (highDislocations sm) (moderateDislocations sm) (normal sm) (errors sm)
  | HIGH =>
      mkSummary (runAt sm) (tickersAnalyzed sm) (criticalDislocations sm)
        (S (highDislocations sm)) (moderateDislocations sm) (normal sm) (errors sm)
  | MODERATE =>
      mkSummary (runAt sm) (tickersAnalyzed sm) (criticalDislocations sm)
        (highDislocations sm) (S (moderateDislocations sm)) (normal sm) (errors sm)
  | NORMAL =>
      mkSummary (runAt sm) (tickersAnalyzed sm) (criticalDislocations sm)
        (highDislocations sm) (moderateDislocations sm) (S (normal sm)) (errors sm)
  end.

Section Engine.

(** The two engines the runner loads; their modules are not part of
    the sources under study, so they are parameters here.  Either may
    throw. *)
Variable Commentary : Type.
Variable analyze :
  string -> StockData -> PriceData -> Throws (Analysis Commentary).
Variable generateReport :
  string -> StockData -> PriceData -> Weights -> Dislocation -> Inference ->
  Throws Commentary.

(** The globals of the script.  The tickers looked up in [STOCK_DATA] and
    in the live prices are upper-case (the list of the script, or the
    arguments passed through [toUpperCase]), so these lookups never find a
    property inherited from [Object.prototype]. *)
Variable STOCK_DATA : gmap string StockData.
Variable livePrices : gmap string LivePrice.
Variable THRESHOLD : string.

Record State : Type := mkState {
  summary : Summary;
  results : gmap string (Analysis Commentary)
}.

(** The statements of the [try] block after the missing-data check;
    nothing is written to [results] or [summary] before the last call
    that can throw has returned. *)
Definition analyzeTicker (ticker : string) (stockData : StockData)
    : Throws (Analysis Commentary) :=
  let priceData := buildPriceData livePrices ticker stockData in
  analysis ← analyze ticker stockData priceData;
  if shouldUpdate analysis
     || reachesThreshold (severity (dislocation analysis))
          (thresholdLevel THRESHOLD)
  then
    report ← generateReport ticker stockData priceData (weights analysis)
               (dislocation analysis) (inference analysis);
    mret (mkAnalysis (shouldUpdate analysis) (dislocation analysis)
            (weights analysis) (inference analysis) (Some report))
  else mret analysis.

(** One turn of the main loop, [try] and [catch] included.  The line
    logged after the summary update reads [analysis.inference] and
    [analysis.weights], which every [Analysis] has, so it cannot throw. *)
Definition step (st : State) (ticker : string) : State :=
  match STOCK_DATA !! ticker with
  | None =>
      mkState (pushError (summary st) ticker "No data found") (results st)
  | Some stockData =>
      match analyzeTicker ticker stockData with
      | Returned analysis =>
          mkState (count (severity (dislocation analysis)) (summary st))
                  (<[ticker := analysis]> (results st))
      | Threw message =>
          mkState (pushError (summary st) ticker message) (results st)
      end
  end.

(** What a turn of the loop makes of a ticker: no [STOCK_DATA] entry, an
    error thrown inside the [try] block, or an analysis. *)
Inductive Outcome : Type :=
| NoData
| Failed (message : string)
| Analysed (analysis : Analysis Commentary).

Definition outcome (ticker : string) : Outcome :=
  match STOCK_DATA !! ticker with
  | None => NoData
  | Some stockData =>
      match analyzeTicker ticker stockData with
      | Threw message => Failed message
      | Returned analysis => Analysed analysis
      end
  end.

(** The number of tickers the summary accounts for. *)
Definition accounted (sm : Summary) : nat :=
  criticalDislocations sm + highDislocations sm + moderateDislocations sm
  + normal sm + length (errors sm).

Definition initial (w : World) (TICKERS : list string) : State :=
  mkState (mkSummary (clockReadings w 0) (length TICKERS) 0 0 0 0 []) ∅.

Definition analyzeAll (w : World) (TICKERS : list string) : State :=
  foldl step (initial w TICKERS) TICKERS.

Record Output : Type := mkOutput {
  o_summary : Summary;
  o_results : gmap string (Analysis Commentary);
  generatedAt : string
}.

(** "Exit with error code if critical dislocations found"; a script
    that reaches its end exits with code 0. *)
Definition exitCode (sm : Summary) : Z :=
  if (0 <? criticalDislocations sm)%nat then 1%Z else 0%Z.

Definition run (w : World) (TICKERS : list string) : Output * Z :=
  let st := analyzeAll w TICKERS in
  (mkOutput (summary st) (results st) (clockReadings w 1),
   exitCode (summary st)).

End Engine.

End Runner.

(** ** Prices of ordinary magnitude *)

(** A price between a millionth and a million millions.  For such prices
    the doubles of the scripts neither overflow nor lose digits, and the
    percentages they compute agree with the exact ones to the digits that
    [toFixed] keeps. *)
Definition inPriceRange (x : Q) : Prop :=
  ((1 # 1000000) <= x /\ x <= 1000000000000)%Q.

(** Modelled from the spec: the drawdown of the price data handed to the
    price-narrative engine, step 2 of the classifier of the spec,
    [(currentPrice - peakPrice) / peakPrice * 100] rounded to one decimal.
    The engine that computes it for [run-automated-analysis.js] is not part
    of the sources under study. *)
Definition specDrawdownPct (pd : Runner.PriceData) : Q :=
  JS.parseFloat
    (JS.toFixed
       ((Runner.currentPrice pd - Runner.peakPrice pd) / Runner.peakPrice pd * 100)
       1).

(** ** The invariant on weight records *)

(** [blended] lies between [longTerm] and [shortTerm], ends included. *)
Definition blendedBetween (w : WeightRecord) : Prop :=
  (Qmin (longTerm w) (shortTerm w) <= blended w
   /\ blended w <= Qmax (longTerm w) (shortTerm w))%Q.

(** ** Sample worlds *)

(** A world whose first draws of [Math.random()] are those listed (all
    later draws are 0.5) and whose clock reads the same instant twice. *)
Definition worldWithDraws (draws : list Q) : World :=
  mkWorld (fun n => nth n draws 0.5%Q)
          (fun _ => "2026-02-01T00:00:00.000Z"%string).

(** Prices 200 and 190.2 (a return of +5.15), then the six draws of the
    result. *)
Definition sampleWorld : World :=
  worldWithDraws [0.5; 0.01; 0.5; 0.5; 0.1; 0.1; 0.1; 0.9]%Q.

(** The same prices, another third draw. *)
Definition otherWorld : World :=
  worldWithDraws [0.5; 0.01; 0.25; 0.5; 0.1; 0.1; 0.1; 0.9]%Q.

(** ** A sample engine and sample data *)

(** A stand-in for the price-narrative engine: it throws for the ticker
    BAD and otherwise classifies the price data as the real-prices runner
    would. *)
Definition sampleAnalyze (ticker : string) (stockData : Runner.StockData)
    (priceData : Runner.PriceData) : Runner.Throws (Runner.Analysis unit) :=
  if decide (ticker = "BAD"%string) then Runner.Threw "engine failure"
  else
    let f := RealPrices.mkFacts (Runner.currentPrice priceData)
               (Runner.previousPrice priceData) (Runner.peakPrice priceData) in
    let s := RealPrices.severityOf f in
    Runner.Returned
      (Runner.mkAnalysis false
         (Runner.mkDislocation s
            (if RealPrices.isCritical s then DISTRIBUTION else P_NORMAL))
         (RealPrices.weights s)
         (Runner.mkInference (if RealPrices.isCritical s then T2 else T1)
            None None 0.6%Q)
         None).

Definition sampleReport (ticker : string) (stockData : Runner.StockData)
    (priceData : Runner.PriceData) (w : Weights) (d : Runner.Dislocation)
    (i : Runner.Inference) : Runner.Throws unit :=
  Runner.Returned tt.

(** XRO has a price only, DRO has a history that ends 10 % lower, BAD makes
    the engine throw, and any other ticker has no entry. *)
Definition sampleStockData : gmap string Runner.StockData :=
  {[ "XRO"%string := Runner.mkStock (Some 73.49%Q) (Some []);
     "DRO"%string := Runner.mkStock None (Some [4%Q; 3.6%Q]);
     "BAD"%string := Runner.mkStock None None ]}.

Definition sampleTickers : list string := [ "XRO"; "GHOST"; "BAD"; "DRO" ]%string.

(** ** The command line of [run-automated-analysis.js] *)

Module Cli.

(** [s.split(sep)] for a one-character separator: the pieces between the
    separators, at least one piece. *)
Fixpoint split (sep : ascii) (s : string) : list string :=
  match s with
  | EmptyString => [EmptyString]
  | String c rest =>
      if decide (c = sep) then EmptyString :: split sep rest
      else match split sep rest with
           | piece :: pieces => String c piece :: pieces
           | [] => [String c EmptyString]
           end
  end.

(** Whether the character occurs in the string. *)
Fixpoint contains (c : ascii) (s : string) : bool :=
  match s with
  | EmptyString => false
  | String x rest => bool_decide (x = c) || contains c rest
  end.

(** [key.replace(/^--/, '')] *)
Definition stripDashes (key : string) : string :=
  match key with
  | String "-" (String "-" rest) => rest
  | _ => key
  end.

(** A string is truthy when it is not empty. *)
Definition nonEmpty (s : string) : bool :=
  match s with
  | EmptyString => false
  | String _ _ => true
  end.

(** The callback of [forEach]: [const [key, value] = arg.split('=')], a
    missing [value] being [undefined].  [args] is a plain object, modelled
    as a map; the key [__proto__], which an assignment to a plain object
    does not store, is outside the model. *)
Definition parseArg (args : gmap string string) (arg : string)
    : gmap string string :=
  match split "=" arg with
  | key :: value :: _ =>
      if nonEmpty key && nonEmpty value
      then <[stripDashes key := value]> args
      else args
  | _ => args
  end.

(** [parseArgs], reading [process.argv]. *)
Definition parseArgs (argv : list string) : gmap string string :=
  foldl parseArg ∅ (drop 2 argv).

(** [args.threshold || 'MODERATE'] *)
Definition THRESHOLD (args : gmap string string) : string :=
  match args !! "threshold"%string with
  | Some s => if nonEmpty s then s else "MODERATE"%string
  | None => "MODERATE"%string
  end.

(** [args.output || 'data/narrative-analysis.json'] *)
Definition OUTPUT_FILE (args : gmap string string) : string :=
  match args !! "output"%string with
  | Some s => if nonEmpty s then s else "data/narrative-analysis.json"%string
  | None => "data/narrative-analysis.json"%string
  end.

End Cli.

(** ** The extraction of [STOCK_DATA] objects from [index.html] *)

(** The loop that finds the end of an object literal.  The loop compares
    characters with the three quotes, the two braces and the backslash only,
    so the content is taken as a list of one-byte characters; the regular
    expressions that find [startIdx] and the evaluation of the extracted
    text are left out. *)

Module Loader.

Definition isQuote (char : ascii) : bool :=
  bool_decide (char = "034"%char) || bool_decide (char = "'"%char)
  || bool_decide (char = "`"%char).

(** The brace-matching loop from index [i] on: [text] is the content from
    [i] to its end, [prev] is [indexContent[i-1]], and [stringChar] is
    [None] exactly when [inString] is false (the two variables are always
    set together).  The result is the [endIdx] set before [break], or
    [None] when the loop reaches the end of the content. *)
Fixpoint scanFrom (text : list ascii) (i : nat) (prev : option ascii)
    (braceCount : Z) (stringChar : option ascii) : option nat :=
  match text with
  | [] => None
  | char :: rest =>
      match stringChar with
      | None =>
          if isQuote char
          then scanFrom rest (S i) (Some char) braceCount (Some char)
          else if bool_decide (char = "{"%char)
          then scanFrom rest (S i) (Some char) (braceCount + 1)%Z None
          else if bool_decide (char = "}"%char)
          then if (braceCount - 1 =? 0)%Z then Some (S i)
               else scanFrom rest (S i) (Some char) (braceCount - 1)%Z None
          else scanFrom rest (S i) (Some char) braceCount None
      | Some quote =>
          if bool_decide (char = quote)
             && negb (bool_decide (prev = Some "\"%char))
          then scanFrom rest (S i) (Some char) braceCount None
          else scanFrom rest (S i) (Some char) braceCount (Some quote)
      end
  end.

(** [indexContent[i - 1]] at the start of the loop. *)
Definition charBefore (indexContent : list ascii) (i : nat) : option ascii :=
  match i with
  | O => None
  | S j => indexContent !! j
  end.

(** [endIdx] after the loop; it starts as [startIdx]. *)
Definition endIdx (indexContent : list ascii) (startIdx : nat) : nat :=
  default startIdx
    (scanFrom (drop startIdx indexContent) startIdx
       (charBefore indexContent startIdx) 0%Z None).

(** [indexContent.substring(startIdx, endIdx)] *)
Definition objectStr (indexContent : list ascii) (startIdx : nat) : list ascii :=
  take (endIdx indexContent startIdx - startIdx) (drop startIdx indexContent).

(** The number of [{] minus the number of [}] in a text. *)
Fixpoint braceBalance (text : list ascii) : Z :=
  match text with
  | [] => 0
  | char :: rest =>
      ((if bool_decide (char = "{"%char) then 1
        else if bool_decide (char = "}"%char) then -1 else 0)
       + braceBalance rest)%Z
  end.

End Loader.

(** ** Counting the outcomes of a batch *)

#[global] Instance Severity_eq_dec : EqDecision Severity.
Proof. solve_decision. Defined.

Section Outcomes.

Variable Commentary : Type.
Variable analyze :
  string -> Runner.StockData -> Runner.PriceData ->
  Runner.Throws (Runner.Analysis Commentary).
Variable generateReport :
  string -> Runner.StockData -> Runner.PriceData -> Weights ->
  Runner.Dislocation -> Runner.Inference -> Runner.Throws Commentary.
Variable STOCK_DATA : gmap string Runner.StockData.
Variable livePrices : gmap string Runner.LivePrice.
Variable THRESHOLD : string.

(** The ticker is analysed and its severity is [s]. *)
Definition analysedWith (s : Severity) (t : string) : bool :=
  match Runner.outcome Commentary analyze generateReport STOCK_DATA livePrices
          THRESHOLD t with
  | Runner.Analysed _ a =>
      bool_decide (Runner.severity (Runner.dislocation a) = s)
  | _ => false
  end.

(** The error entry the ticker causes, if it causes one. *)
Definition errorOf (t : string) : option Runner.ErrorEntry :=
  match Runner.outcome Commentary analyze generateReport STOCK_DATA livePrices
          THRESHOLD t with
  | Runner.NoData _ => Some (Runner.mkError t "No data found")
  | Runner.Failed _ message => Some (Runner.mkError t message)
  | Runner.Analysed _ _ => None
  end.

End Outcomes.

(** ** Worlds whose random draws are in the range of [Math.random] *)

Definition validDraws (w : World) : Prop :=
  forall n : nat, (0 <= randomDraws w n /\ randomDraws w n < 1)%Q.

(** ** More sample inputs *)

(** The draws of [sampleWorld] preceded by one more draw. *)
Definition shiftedWorld : World :=
  worldWithDraws [0.3; 0.5; 0.01; 0.5; 0.5; 0.1; 0.1; 0.1; 0.9]%Q.

(** A snapshot with one quote. *)
Definition sampleLive : gmap string RealPrices.LivePrice :=
  {[ "XRO"%string := RealPrices.mkLive 70 (Some 71%Q) ]}.

(** An entry with a history that rose and then fell for two days. *)
Definition sampleHistoryData : Runner.StockData :=
  Runner.mkStock (Some 9%Q) (Some [8; 10; 9.5; 9]%Q).

Definition sampleArgv : list string :=
  [ "node"; "run-automated-analysis.js"; "--tickers=all"; "--threshold=HIGH" ]%string.

(** The text [{a{b}}x}]. *)
Definition sampleObject : list ascii :=
  [ "{"; "a"; "{"; "b"; "}"; "}"; "x"; "}" ]%char.

(** * Properties *)

(** ** Comparisons and rounding *)

Lemma ltb_lt (x y : Q) : JS.ltb x y = true <-> (x < y)%Q.
Proof.
  unfold JS.ltb. rewrite negb_true_iff, <- not_true_iff_false, Qle_bool_iff.
  split; [apply Qnot_le_lt | apply Qlt_not_le].
Qed.

Lemma gtb_lt (x y : Q) : JS.gtb x y = true <-> (y < x)%Q.
Proof. unfold JS.gtb. apply ltb_lt. Qed.

Lemma ltb_comp (x x' y y' : Q) :
  (x == x')%Q -> (y == y')%Q -> JS.ltb x y = JS.ltb x' y'.
Proof. intros Hx Hy. unfold JS.ltb. now rewrite Hx, Hy. Qed.

(** [toFixed] depends on the value of its argument only, not on the
    fraction that represents it. *)
Lemma toFixed_comp (x y : Q) (d : nat) :
  (x == y)%Q -> JS.toFixed x d = JS.toFixed y d.
Proof.
  intros H. unfold JS.toFixed, JS.nearest.
  rewrite (ltb_comp x y 0 0 H (Qeq_refl 0)).
  assert (H1 : (- x * inject_Z (JS.pow10 d) + (1 # 2)
                == - y * inject_Z (JS.pow10 d) + (1 # 2))%Q) by now rewrite H.
  assert (H2 : (x * inject_Z (JS.pow10 d) + (1 # 2)
                == y * inject_Z (JS.pow10 d) + (1 # 2))%Q) by now rewrite H.
  now rewrite (Qfloor_comp _ _ H1), (Qfloor_comp _ _ H2).
Qed.


(** ** The classification of the runner on real prices *)

Section RealPricesFacts.

Import RealPrices.
Local Open Scope Q_scope.

Lemma classify_CRITICAL (r d : Q) :
  classify r d = CRITICAL <-> 8 < Qabs r \/ d < -40.
Proof.
  unfold classify, JS.Math_abs.
  rewrite <- (gtb_lt (Qabs r) 8), <- (ltb_lt d (-40)), <- orb_true_iff.
  destruct (JS.gtb (Qabs r) 8 || JS.ltb d (-40)) eqn:E1; [tauto|].
  destruct (JS.gtb (Qabs r) 5 || JS.ltb d (-25)); split; congruence.
Qed.

Lemma classify_HIGH (r d : Q) :
  classify r d = HIGH <->
  ~ (8 < Qabs r \/ d < -40) /\ (5 < Qabs r \/ d < -25).
Proof.
  unfold classify, JS.Math_abs.
  rewrite <- (gtb_lt (Qabs r) 8), <- (ltb_lt d (-40)), <- orb_true_iff.
  rewrite <- (gtb_lt (Qabs r) 5), <- (ltb_lt d (-25)), <- orb_true_iff.
  destruct (JS.gtb (Qabs r) 8 || JS.ltb d (-40));
    destruct (JS.gtb (Qabs r) 5 || JS.ltb d (-25));
    intuition congruence.
Qed.

Lemma classify_NORMAL (r d : Q) :
  classify r d = NORMAL <->
  ~ (8 < Qabs r \/ d < -40) /\ ~ (5 < Qabs r \/ d < -25).
Proof.
  unfold classify, JS.Math_abs.
  rewrite <- (gtb_lt (Qabs r) 8), <- (ltb_lt d (-40)), <- orb_true_iff.
  rewrite <- (gtb_lt (Qabs r) 5), <- (ltb_lt d (-25)), <- orb_true_iff.
  destruct (JS.gtb (Qabs r) 8 || JS.ltb d (-40));
    destruct (JS.gtb (Qabs r) 5 || JS.ltb d (-25));
    intuition congruence.
Qed.

Lemma classify_not_MODERATE (r d : Q) : classify r d <> MODERATE.
Proof.
  unfold classify.
  destruct (_ || _); [congruence|]. destruct (_ || _); congruence.
Qed.

End RealPricesFacts.

(** C1. For every PriceFacts input of the real-prices runner the severity
    is classified in order, first match winning: CRITICAL when
    abs(todayReturnPct) > 8 or drawdownPct < -40; HIGH when
    abs(todayReturnPct) > 5 or drawdownPct < -25; otherwise NORMAL (MODERATE
    is never produced).  Both comparisons on the return are strict: a
    return of absolute value exactly 8 does not make the severity CRITICAL
    and one of exactly 5 does not make it HIGH. *)
Theorem C1_severity_classification (ticker : string) (f : RealPrices.PriceFacts) :
  let dis := RealPrices.dislocation (RealPrices.resultOf ticker f) in
  let r := RealPrices.todayReturn (RealPrices.metrics dis) in
  let d := RealPrices.drawdownFromPeak (RealPrices.metrics dis) in
  (r = JS.parseFloat (RealPrices.change f) /\
   d = JS.parseFloat (RealPrices.drawdown f)) /\
  (RealPrices.severity dis = CRITICAL <-> (8 < Qabs r \/ d < -40)%Q) /\
  (RealPrices.severity dis = HIGH <->
     ~ (8 < Qabs r \/ d < -40)%Q /\ (5 < Qabs r \/ d < -25)%Q) /\
  (RealPrices.severity dis = NORMAL <->
     ~ (8 < Qabs r \/ d < -40)%Q /\ ~ (5 < Qabs r \/ d < -25)%Q) /\
  RealPrices.severity dis <> MODERATE /\
  ((Qabs r == 8)%Q -> ~ (d < -40)%Q -> RealPrices.severity dis <> CRITICAL) /\
  ((Qabs r == 5)%Q -> ~ (d < -25)%Q -> RealPrices.severity dis <> HIGH).
Proof.
  cbn zeta. simpl RealPrices.dislocation. simpl RealPrices.severity.
  simpl RealPrices.metrics. simpl RealPrices.todayReturn.
  simpl RealPrices.drawdownFromPeak. unfold RealPrices.severityOf.
  set (r := JS.parseFloat (RealPrices.change f)).
  set (d := JS.parseFloat (RealPrices.drawdown f)).
  split; [split; reflexivity|].
  split; [apply classify_CRITICAL|].
  split; [apply classify_HIGH|].
  split; [apply classify_NORMAL|].
  split; [apply classify_not_MODERATE|].
  split.
  - intros Hr Hd Hc. apply classify_CRITICAL in Hc.
    destruct Hc as [Hc|Hc]; [|contradiction].
    rewrite Hr in Hc. now apply Qlt_irrefl in Hc.
  - intros Hr Hd Hc. apply classify_HIGH in Hc.
    destruct Hc as [_ [Hc|Hc]]; [|contradiction].
    rewrite Hr in Hc. now apply Qlt_irrefl in Hc.
Qed.

(** C1 at the two boundaries: 92 against 100 is a return of exactly -8 and
    classifies as HIGH; 95 against 100 is exactly -5 and classifies as
    NORMAL. *)
Lemma C1_severity_classification_witness :
  RealPrices.severity
    (RealPrices.dislocation
       (RealPrices.resultOf "PME" (RealPrices.mkFacts 92 100 100))) <> CRITICAL /\
  RealPrices.severity
    (RealPrices.dislocation
       (RealPrices.resultOf "PME" (RealPrices.mkFacts 95 100 100))) <> HIGH.
Proof.
  split.
  - apply (C1_severity_classification "PME" (RealPrices.mkFacts 92 100 100)).
    + vm_compute. reflexivity.
    + vm_compute. discriminate.
  - apply (C1_severity_classification "PME" (RealPrices.mkFacts 95 100 100)).
    + vm_compute. reflexivity.
    + vm_compute. discriminate.
Defined.

(** ** The fabricated previous close and peak of the runner on real prices *)


Lemma fallback_drawdown (c : Q) :
  ~ (c == 0)%Q -> ((c - c * 2.5) / (c * 2.5) * 100 == - 60)%Q.
Proof. intros Hc. field. exact Hc. Qed.

Lemma own_peak_drawdown (c : Q) : ((c - c) / c * 100 == 0)%Q.
Proof. unfold Qdiv. ring. Qed.


Lemma parseFloat_drawdown_fallback (c : Q) :
  ~ (c == 0)%Q ->
  JS.parseFloat (JS.toFixed ((c - c * 2.5) / (c * 2.5) * 100) 1) = (-60)%Q.
Proof.
  intros Hc. rewrite (toFixed_comp _ _ 1 (fallback_drawdown c Hc)).
  vm_compute. reflexivity.
Qed.

Lemma parseFloat_drawdown_own_peak (c : Q) :
  JS.parseFloat (JS.toFixed ((c - c) / c * 100) 1) = 0%Q.
Proof.
  rewrite (toFixed_comp _ _ 1 (own_peak_drawdown c)). vm_compute. reflexivity.
Qed.

(** A drawdown below -40 classifies as CRITICAL whatever the return. *)
Lemma classify_deep_drawdown (r d : Q) :
  (d < -40)%Q -> RealPrices.classify r d = CRITICAL.
Proof. intros H. apply classify_CRITICAL. now right. Qed.


(** C3 (as amended). For currentPrice=92, previousPrice=100, peakPrice=100
    the classifier computes todayReturnPct = -8.00 and returns severity
    HIGH, not CRITICAL: the CRITICAL threshold is a strict >, so a return
    whose absolute value is exactly 8 is not CRITICAL (unless the drawdown
    is below -40), while it is above the HIGH threshold 5. *)
Theorem C3_boundary_is_high :
  let f := RealPrices.mkFacts 92 100 100 in
  RealPrices.change f = JS.mkFixed 2 (-800) /\
  JS.parseFloat (RealPrices.change f) = (-8)%Q /\
  RealPrices.severityOf f = HIGH /\
  RealPrices.severity (RealPrices.dislocation (RealPrices.resultOf "PME" f)) = HIGH /\
  forall r d : Q, (Qabs r == 8)%Q -> ~ (d < -40)%Q ->
    RealPrices.classify r d = HIGH.
Proof.
  cbn zeta. repeat split; try (vm_compute; reflexivity).
  intros r d Hr Hd. apply classify_HIGH. split.
  - intros [H|H]; [|contradiction]. rewrite Hr in H. now apply Qlt_irrefl in H.
  - left. rewrite Hr. reflexivity.
Qed.

(** C3 as stated fails: at 92 against 100 with peak 100 the severity is not
    CRITICAL. *)
Lemma C3_counterexample :
  let f := RealPrices.mkFacts 92 100 100 in
  JS.parseFloat (RealPrices.change f) = (-8)%Q /\
  RealPrices.severity (RealPrices.dislocation (RealPrices.resultOf "PME" f))
    <> CRITICAL.
Proof. cbn zeta. split; [vm_compute; reflexivity | vm_compute; discriminate]. Qed.

(** C5. In the real-prices runner the inference is a function of the
    severity alone: CRITICAL gives primary T2, secondary T3, contradicted
    T4 and confidence 0.85; every other severity gives primary T1, no
    secondary, no contradicted hypothesis and confidence 0.6. *)
Theorem C5_inference_from_severity (ticker : string) (f : RealPrices.PriceFacts) :
  let res := RealPrices.resultOf ticker f in
  let sev := RealPrices.severity (RealPrices.dislocation res) in
  RealPrices.inference res = RealPrices.inferenceOf sev /\
  (sev = CRITICAL ->
     RealPrices.inference res = RealPrices.mkInference T2 (Some T3) (Some T4) 0.85) /\
  (sev <> CRITICAL ->
     RealPrices.inference res = RealPrices.mkInference T1 None None 0.6).
Proof.
  cbn zeta. simpl RealPrices.inference. simpl RealPrices.dislocation.
  simpl RealPrices.severity.
  split; [reflexivity|].
  destruct (RealPrices.severityOf f); split; intros H;
    try reflexivity; congruence.
Qed.

Lemma C5_inference_from_severity_witness :
  RealPrices.inference (RealPrices.resultOf "XRO" (RealPrices.mkFacts 55 55 100))
    = RealPrices.mkInference T2 (Some T3) (Some T4) 0.85 /\
  RealPrices.inference (RealPrices.resultOf "XRO" (RealPrices.mkFacts 94 100 100))
    = RealPrices.mkInference T1 None None 0.6.
Proof.
  split.
  - apply (C5_inference_from_severity "XRO" (RealPrices.mkFacts 55 55 100)).
    vm_compute. reflexivity.
  - apply (C5_inference_from_severity "XRO" (RealPrices.mkFacts 94 100 100)).
    vm_compute. discriminate.
Defined.

(** ** The result of one simulated ticker *)

Lemma simulated_pattern (ticker : string) (w : World) (n : nat) :
  let res := fst (Simulated.analyzeTicker ticker w n) in
  let dis := Simulated.dislocation res in
  Simulated.pattern dis =
    (if JS.gtb (JS.Math_abs (Simulated.todayReturn (Simulated.metrics dis))) 5
     then GAP_DOWN else P_NORMAL) /\
  Simulated.severity dis =
    (if JS.gtb (JS.Math_abs (Simulated.todayReturn (Simulated.metrics dis))) 8
     then CRITICAL
     else if JS.gtb (JS.Math_abs (Simulated.todayReturn (Simulated.metrics dis))) 5
     then HIGH else NORMAL).
Proof. split; reflexivity. Qed.

Lemma simulated_T1_weight (ticker : string) (w : World) (n : nat) :
  let res := fst (Simulated.analyzeTicker ticker w n) in
  longTerm (wT1 (Simulated.r_weights res)) = 50%Q /\
  blended (wT1 (Simulated.r_weights res)) = 50%Q.
Proof. split; reflexivity. Qed.

(** C4 (as amended). In the real-prices runner, for every hypothesis tag
    T1-T4 and every severity level, the WeightRecord produced satisfies
    min(longTerm, shortTerm) <= blended <= max(longTerm, shortTerm).  In the
    simulated runner the bound is kept by T1, whose blended weight equals
    its long-term weight. *)
Theorem C4_blended_between :
  (forall (t : Tag) (s : Severity),
     blendedBetween (weightOf t (RealPrices.weights s))) /\
  (forall (ticker : string) (f : RealPrices.PriceFacts) (t : Tag),
     blendedBetween (weightOf t (RealPrices.r_weights (RealPrices.resultOf ticker f)))) /\
  (forall (ticker : string) (w : World) (n : nat),
     blendedBetween (wT1 (Simulated.r_weights (fst (Simulated.analyzeTicker ticker w n))))).
Proof.
  assert (Hreal : forall (t : Tag) (s : Severity),
             blendedBetween (weightOf t (RealPrices.weights s))).
  { intros t s. unfold blendedBetween.
    destruct t, s; vm_compute; split; discriminate. }
  split; [exact Hreal|]. split.
  - intros ticker f t. apply Hreal.
  - intros ticker w n. unfold blendedBetween.
    destruct (simulated_T1_weight ticker w n) as [Hl Hb].
    cbv zeta in Hl, Hb. rewrite Hl, Hb. split.
    + apply Q.le_min_l.
    + apply Q.le_max_l.
Qed.

(** C4 as stated fails on the simulated runner: with a draw of 0.1 the T2
    record has longTerm 30, shortTerm 33 and blended 40. *)
Lemma C4_counterexample :
  let res := fst (Simulated.analyzeTicker "PME" sampleWorld 0) in
  Qmax (longTerm (wT2 (Simulated.r_weights res)))
       (shortTerm (wT2 (Simulated.r_weights res))) == 33 /\
  blended (wT2 (Simulated.r_weights res)) == 40 /\
  ~ blendedBetween (wT2 (Simulated.r_weights res)).
Proof.
  cbn zeta. split; [vm_compute; reflexivity|].
  split; [vm_compute; reflexivity|].
  intros [_ H]. vm_compute in H. apply H. reflexivity.
Qed.

(** C6 (as amended). In the real-prices runner the pattern is DISTRIBUTION
    exactly when the severity is CRITICAL and NORMAL in every other case;
    GAP_DOWN is never produced there.  In the simulated runner the pattern
    is GAP_DOWN exactly when abs(todayReturn) > 5, that is when the severity
    is HIGH or CRITICAL, whatever the sign of the return, and NORMAL
    otherwise. *)
Theorem C6_pattern_by_runner :
  (forall (ticker : string) (f : RealPrices.PriceFacts),
     let dis := RealPrices.dislocation (RealPrices.resultOf ticker f) in
     (RealPrices.pattern dis = DISTRIBUTION <-> RealPrices.severity dis = CRITICAL) /\
     (RealPrices.pattern dis = P_NORMAL <-> RealPrices.severity dis <> CRITICAL) /\
     RealPrices.pattern dis <> GAP_DOWN) /\
  (forall (ticker : string) (w : World) (n : nat),
     let dis := Simulated.dislocation (fst (Simulated.analyzeTicker ticker w n)) in
     (Simulated.pattern dis = GAP_DOWN <->
        (5 < Qabs (Simulated.todayReturn (Simulated.metrics dis)))%Q) /\
     (Simulated.pattern dis = GAP_DOWN <->
        Simulated.severity dis = HIGH \/ Simulated.severity dis = CRITICAL) /\
     (Simulated.pattern dis = P_NORMAL <-> Simulated.severity dis = NORMAL) /\
     Simulated.pattern dis <> DISTRIBUTION).
Proof.
  split.
  - intros ticker f. cbn zeta. simpl RealPrices.dislocation.
    simpl RealPrices.pattern. simpl RealPrices.severity.
    destruct (RealPrices.severityOf f); simpl;
      repeat split; intros; congruence.
  - intros ticker w n. cbn zeta.
    destruct (simulated_pattern ticker w n) as [Hp Hs]. cbv zeta in Hp, Hs.
    set (dis := Simulated.dislocation (fst (Simulated.analyzeTicker ticker w n))) in *.
    set (r := Simulated.todayReturn (Simulated.metrics dis)) in *.
    rewrite Hp, Hs. clear Hp Hs.
    assert (H85 : JS.gtb (JS.Math_abs r) 8 = true -> JS.gtb (JS.Math_abs r) 5 = true).
    { rewrite !gtb_lt. intros H. apply Qlt_trans with 8%Q; [reflexivity|exact H]. }
    rewrite <- (gtb_lt (Qabs r) 5). fold (JS.Math_abs r).
    destruct (JS.gtb (JS.Math_abs r) 8), (JS.gtb (JS.Math_abs r) 5);
      try (specialize (H85 eq_refl); discriminate);
      repeat split; intros; try congruence; try tauto;
      try (intuition congruence).
Qed.

(** C6 as stated fails.  On the simulated runner, prices 200 against 190.2
    give a return of +5.15, severity HIGH and pattern GAP_DOWN although the
    return is not negative; on the real-prices classifier, 94 against 100
    with peak 100 gives a return of -6, severity HIGH and pattern NORMAL. *)
Lemma C6_counterexample :
  (let dis := Simulated.dislocation (fst (Simulated.analyzeTicker "PME" sampleWorld 0)) in
   (Simulated.todayReturn (Simulated.metrics dis) == 5.15)%Q /\
   ~ (Simulated.pattern dis = GAP_DOWN <->
        Simulated.severity dis = HIGH /\
        (Simulated.todayReturn (Simulated.metrics dis) < 0)%Q)) /\
  (let dis := RealPrices.dislocation
                (RealPrices.resultOf "PME" (RealPrices.mkFacts 94 100 100)) in
   RealPrices.todayReturn (RealPrices.metrics dis) = (-6)%Q /\
   ~ (RealPrices.pattern dis = GAP_DOWN <->
        RealPrices.severity dis = HIGH /\
        (RealPrices.todayReturn (RealPrices.metrics dis) < 0)%Q)).
Proof.
  split; cbn zeta.
  - split; [vm_compute; reflexivity|].
    intros [H _].
    assert (Hp : Simulated.pattern
                   (Simulated.dislocation
                      (fst (Simulated.analyzeTicker "PME" sampleWorld 0))) = GAP_DOWN)
      by (vm_compute; reflexivity).
    destruct (H Hp) as [_ Hneg]. vm_compute in Hneg. discriminate.
  - split; [vm_compute; reflexivity|].
    intros [_ H].
    assert (Hp : RealPrices.pattern
                   (RealPrices.dislocation
                      (RealPrices.resultOf "PME" (RealPrices.mkFacts 94 100 100)))
                 = GAP_DOWN).
    { apply H. split; vm_compute; reflexivity. }
    vm_compute in Hp. discriminate.
Qed.

(** ** Empty price histories and missing previous closes *)



Lemma classify_without_drawdown (r : Q) :
  RealPrices.classify r 0 =
    if JS.gtb (JS.Math_abs r) 8 then CRITICAL
    else if JS.gtb (JS.Math_abs r) 5 then HIGH else NORMAL.
Proof.
  unfold RealPrices.classify.
  replace (JS.ltb 0 (-40)) with false by reflexivity.
  replace (JS.ltb 0 (-25)) with false by reflexivity.
  now rewrite !orb_false_r.
Qed.

Lemma inPriceRange_pos (x : Q) : inPriceRange x -> (0 < x)%Q.
Proof. intros [H _]. lra. Qed.

Lemma inPriceRange_nonzero (x : Q) : inPriceRange x -> ~ (x == 0)%Q.
Proof. intros [H _]. lra. Qed.

(** C2 (as amended). For every ticker whose priceHistory is empty,
    buildPriceData of run-automated-analysis.js sets peakPrice to
    currentPrice, so the drawdown of the spec's formula is 0 and neither
    drawdown threshold (-40, -25) is crossed.  The real-prices runner
    instead takes currentPrice * 2.5 as the peak, so for a price of ordinary
    magnitude (between 10^-6 and 10^12) the drawdown is -60.0 and the
    drawdown condition makes the severity CRITICAL. *)
Theorem C2_empty_history_peak :
  (forall (live : gmap string Runner.LivePrice) (t : string)
          (sd : Runner.StockData),
     default [] (Runner.priceHistory sd) = [] ->
     let pd := Runner.buildPriceData live t sd in
     Runner.peakPrice pd = Runner.currentPrice pd /\
     specDrawdownPct pd = 0%Q /\
     ~ (specDrawdownPct pd < -40)%Q /\
     ~ (specDrawdownPct pd < -25)%Q) /\
  (forall data : RealPrices.StockEntry,
     RealPrices.priceHistory data = [] ->
     inPriceRange (RealPrices.price data) ->
     let f := RealPrices.priceFacts data in
     RealPrices.peakPrice f = (RealPrices.price data * 2.5)%Q /\
     JS.parseFloat (RealPrices.drawdown f) = (-60)%Q /\
     RealPrices.severityOf f = CRITICAL).
Proof.
  split.
  - intros live t sd Hh. cbn zeta.
    assert (Hpeak : Runner.peakPrice (Runner.buildPriceData live t sd)
                    = Runner.currentPrice (Runner.buildPriceData live t sd)).
    { unfold Runner.buildPriceData. rewrite Hh. reflexivity. }
    remember (Runner.buildPriceData live t sd) as pd eqn:Epd.
    assert (Hd : specDrawdownPct pd = 0%Q).
    { unfold specDrawdownPct. rewrite Hpeak.
      apply parseFloat_drawdown_own_peak. }
    split; [exact Hpeak|]. split; [exact Hd|].
    rewrite Hd. split; intros H; discriminate H.
  - intros data Hh Hrange. cbn zeta.
    pose proof (inPriceRange_nonzero _ Hrange) as Hc.
    assert (Hpeak : RealPrices.peakPrice (RealPrices.priceFacts data)
                    = (RealPrices.price data * 2.5)%Q).
    { unfold RealPrices.priceFacts. rewrite Hh. reflexivity. }
    assert (Hd : JS.parseFloat (RealPrices.drawdown (RealPrices.priceFacts data))
                 = (-60)%Q).
    { unfold RealPrices.drawdown. rewrite Hpeak.
      simpl RealPrices.currentPrice.
      now apply parseFloat_drawdown_fallback. }
    split; [exact Hpeak|]. split; [exact Hd|].
    unfold RealPrices.severityOf. rewrite Hd.
    apply classify_deep_drawdown. reflexivity.
Qed.

Lemma C2_empty_history_peak_witness :
  (let pd := Runner.buildPriceData ∅ "XRO"
               (Runner.mkStock (Some 73.49%Q) (Some [])) in
   Runner.peakPrice pd = Runner.currentPrice pd) /\
  RealPrices.severityOf
    (RealPrices.priceFacts (RealPrices.mkStock 73.49 (Some 73.49%Q) [])) = CRITICAL.
Proof.
  split.
  - apply (proj1 C2_empty_history_peak ∅ "XRO"%string
             (Runner.mkStock (Some 73.49%Q) (Some []))).
    reflexivity.
  - apply (proj2 C2_empty_history_peak
             (RealPrices.mkStock 73.49 (Some 73.49%Q) [])).
    + reflexivity.
    + unfold inPriceRange. cbn [RealPrices.price]. lra.
Defined.

(** C2 as stated fails on the real-prices runner: XRO at 73.49 with an
    unchanged previous close and an empty history has peak 183.725, not
    73.49; its return is 0, its drawdown -60 and its severity CRITICAL. *)
Lemma C2_counterexample :
  let data := RealPrices.mkStock 73.49 (Some 73.49%Q) [] in
  let f := RealPrices.priceFacts data in
  RealPrices.priceHistory data = [] /\
  ~ (RealPrices.peakPrice f == RealPrices.currentPrice f)%Q /\
  JS.parseFloat (RealPrices.change f) = 0%Q /\
  JS.parseFloat (RealPrices.drawdown f) = (-60)%Q /\
  RealPrices.severity
    (RealPrices.dislocation (RealPrices.analyzeTicker "XRO" data)) = CRITICAL.
Proof.
  cbn zeta. split; [reflexivity|].
  split; [vm_compute; discriminate|].
  repeat split; vm_compute; reflexivity.
Qed.

(** ** Dependence on the world *)

(** The loop of the real-prices runner reads the world only for the
    [runAt] stamp of its initial summary. *)
Lemma real_step_runAt (st1 st2 : RealPrices.State) (entry : string * RealPrices.StockEntry) :
  RealPrices.results st1 = RealPrices.results st2 ->
  RealPrices.criticalDislocations (RealPrices.summary st1)
    = RealPrices.criticalDislocations (RealPrices.summary st2) ->
  RealPrices.highDislocations (RealPrices.summary st1)
    = RealPrices.highDislocations (RealPrices.summary st2) ->
  RealPrices.normal (RealPrices.summary st1)
    = RealPrices.normal (RealPrices.summary st2) ->
  RealPrices.results (RealPrices.step st1 entry)
    = RealPrices.results (RealPrices.step st2 entry) /\
  RealPrices.criticalDislocations (RealPrices.summary (RealPrices.step st1 entry))
    = RealPrices.criticalDislocations (RealPrices.summary (RealPrices.step st2 entry)) /\
  RealPrices.highDislocations (RealPrices.summary (RealPrices.step st1 entry))
    = RealPrices.highDislocations (RealPrices.summary (RealPrices.step st2 entry)) /\
  RealPrices.normal (RealPrices.summary (RealPrices.step st1 entry))
    = RealPrices.normal (RealPrices.summary (RealPrices.step st2 entry)).
Proof.
  intros Hr Hc Hh Hn. destruct entry as [ticker data].
  unfold RealPrices.step. cbn [RealPrices.results RealPrices.summary].
  rewrite Hr. split; [reflexivity|].
  destruct (RealPrices.severity
              (RealPrices.dislocation (RealPrices.analyzeTicker ticker data)));
    cbn; rewrite ?Hc, ?Hh, ?Hn; auto.
Qed.

Lemma real_loop_runAt (table : list (string * RealPrices.StockEntry)) :
  forall st1 st2 : RealPrices.State,
  RealPrices.results st1 = RealPrices.results st2 ->
  RealPrices.criticalDislocations (RealPrices.summary st1)
    = RealPrices.criticalDislocations (RealPrices.summary st2) ->
  RealPrices.highDislocations (RealPrices.summary st1)
    = RealPrices.highDislocations (RealPrices.summary st2) ->
  RealPrices.normal (RealPrices.summary st1)
    = RealPrices.normal (RealPrices.summary st2) ->
  RealPrices.results (foldl RealPrices.step st1 table)
    = RealPrices.results (foldl RealPrices.step st2 table) /\
  RealPrices.criticalDislocations (RealPrices.summary (foldl RealPrices.step st1 table))
    = RealPrices.criticalDislocations (RealPrices.summary (foldl RealPrices.step st2 table)) /\
  RealPrices.highDislocations (RealPrices.summary (foldl RealPrices.step st1 table))
    = RealPrices.highDislocations (RealPrices.summary (foldl RealPrices.step st2 table)) /\
  RealPrices.normal (RealPrices.summary (foldl RealPrices.step st1 table))
    = RealPrices.normal (RealPrices.summary (foldl RealPrices.step st2 table)).
Proof.
  induction table as [|entry table IH]; intros st1 st2 Hr Hc Hh Hn.
  - simpl. auto.
  - simpl.
    destruct (real_step_runAt st1 st2 entry Hr Hc Hh Hn) as (Hr' & Hc' & Hh' & Hn').
    now apply IH.
Qed.

(** C7 (as amended). The real-prices runner is deterministic: two runs on
    the same live-price snapshot produce the same results (severity,
    metrics, pattern, weights and inference of every ticker), the same
    counts and the same exit code, whatever the random draws and the clock
    of the two worlds; only the time stamps depend on the world.  The
    simulated runner is left out: its results depend on Math.random. *)
Theorem C7_real_prices_deterministic
    (w1 w2 : World) (live : option (gmap string RealPrices.LivePrice)) :
  let o1 := fst (RealPrices.run w1 live) in
  let o2 := fst (RealPrices.run w2 live) in
  RealPrices.o_results o1 = RealPrices.o_results o2 /\
  RealPrices.criticalDislocations (RealPrices.o_summary o1)
    = RealPrices.criticalDislocations (RealPrices.o_summary o2) /\
  RealPrices.highDislocations (RealPrices.o_summary o1)
    = RealPrices.highDislocations (RealPrices.o_summary o2) /\
  RealPrices.normal (RealPrices.o_summary o1)
    = RealPrices.normal (RealPrices.o_summary o2) /\
  snd (RealPrices.run w1 live) = snd (RealPrices.run w2 live).
Proof.
  cbn zeta. unfold RealPrices.run, RealPrices.analyzeAll.
  cbn [fst snd RealPrices.o_results RealPrices.o_summary].
  set (table := RealPrices.updateWithLivePrices (default ∅ live) RealPrices.STOCK_DATA).
  destruct (real_loop_runAt table (RealPrices.initial w1) (RealPrices.initial w2))
    as (Hr & Hc & Hh & Hn); try reflexivity.
  repeat split; try assumption. now rewrite Hc.
Qed.

(** C7 as stated fails on the simulated runner: two runs that simulate the
    same prices for PME (200 and 190.2) store different results, the z-score
    being 1.50 in one and 0.75 in the other. *)
Lemma C7_counterexample :
  fst (Simulated.simulatePrices sampleWorld 0)
    = fst (Simulated.simulatePrices otherWorld 0) /\
  fst (Simulated.analyzeTicker "PME" sampleWorld 0)
    <> fst (Simulated.analyzeTicker "PME" otherWorld 0) /\
  Simulated.o_results (fst (Simulated.run sampleWorld)) !! "PME"%string
    <> Simulated.o_results (fst (Simulated.run otherWorld)) !! "PME"%string.
Proof.
  split; [vm_compute; reflexivity|]. split.
  - intros H.
    apply (f_equal (fun r => Simulated.zScore
                               (Simulated.metrics (Simulated.dislocation r)))) in H.
    vm_compute in H. discriminate.
  - intros H.
    apply (f_equal (fun o => Simulated.zScore <$>
                     (Simulated.metrics <$> (Simulated.dislocation <$> o)))) in H.
    vm_compute in H. discriminate.
Qed.

(** ** The loop of the runner on real prices *)

Lemma real_critical_count (sm : RealPrices.Summary) (s : Severity) :
  (0 < RealPrices.criticalDislocations (RealPrices.count s sm))%nat <->
  (0 < RealPrices.criticalDislocations sm)%nat \/ s = CRITICAL.
Proof.
  destruct s; simpl; split; try lia; try tauto;
    intros [H|H]; try exact H; try discriminate; lia.
Qed.

Lemma overlay_keys (live : gmap string RealPrices.LivePrice)
    (table : list (string * RealPrices.StockEntry)) :
  (RealPrices.updateWithLivePrices live table).*1 = table.*1.
Proof.
  unfold RealPrices.updateWithLivePrices.
  induction table as [|[t d] table IH]; simpl; [reflexivity|].
  f_equal; [|exact IH].
  unfold RealPrices.overlay. now destruct (live !! t).
Qed.

Lemma STOCK_DATA_keys_NoDup : NoDup (RealPrices.STOCK_DATA.*1).
Proof. apply (bool_decide_unpack _). vm_compute. reflexivity. Qed.

(** After the entries [table], whose tickers are pairwise distinct, the
    results hold exactly the analyses of those entries and the critical
    counter is positive exactly when one of them is CRITICAL. *)
Lemma real_loop_invariant (w : World) (table : list (string * RealPrices.StockEntry)) :
  NoDup (table.*1) ->
  let st := foldl RealPrices.step (RealPrices.initial w) table in
  (forall t r, RealPrices.results st !! t = Some r <->
     exists d, (t, d) ∈ table /\ r = RealPrices.analyzeTicker t d) /\
  ((0 < RealPrices.criticalDislocations (RealPrices.summary st))%nat <->
   exists t d, (t, d) ∈ table /\
     RealPrices.severity (RealPrices.dislocation (RealPrices.analyzeTicker t d))
       = CRITICAL).
Proof.
  induction table as [|[t d] table IH] using rev_ind; intros Hnd; cbn zeta.
  - simpl. split.
    + intros t r. rewrite lookup_empty. split; [discriminate|].
      intros (d & H & _). now apply elem_of_nil in H.
    + split; [lia|]. intros (t & d & H & _). now apply elem_of_nil in H.
  - rewrite fmap_app in Hnd. apply NoDup_app in Hnd.
    destruct Hnd as (Hnd & Hfresh & _).
    specialize (IH Hnd). cbn zeta in IH. destruct IH as [IHr IHc].
    rewrite foldl_app. simpl.
    set (st := foldl RealPrices.step (RealPrices.initial w) table) in *.
    split.
    + intros t' r. destruct (decide (t = t')) as [<-|Hne].
      * rewrite lookup_insert_eq. split.
        -- intros [= <-]. exists d. rewrite elem_of_app, list_elem_of_singleton.
           tauto.
        -- intros (d' & H & ->).
           rewrite elem_of_app, list_elem_of_singleton in H.
           destruct H as [H|[= <-]]; [|reflexivity].
           exfalso. apply (Hfresh t).
           ++ apply list_elem_of_fmap. exists (t, d'). tauto.
           ++ simpl. apply list_elem_of_singleton. reflexivity.
      * rewrite lookup_insert_ne by exact Hne. rewrite IHr. split.
        -- intros (d' & H & ->). exists d'. rewrite elem_of_app. tauto.
        -- intros (d' & H & ->). exists d'.
           rewrite elem_of_app, list_elem_of_singleton in H.
           destruct H as [H|[= ? ?]]; [tauto|congruence].
    + rewrite real_critical_count, IHc. split.
      * intros [(t' & d' & H & Hs)|Hs].
        -- exists t', d'. rewrite elem_of_app. tauto.
        -- exists t, d. rewrite elem_of_app, list_elem_of_singleton. tauto.
      * intros (t' & d' & H & Hs).
        rewrite elem_of_app, list_elem_of_singleton in H.
        destruct H as [H|[= -> ->]].
        -- left. exists t', d'. tauto.
        -- right. exact Hs.
Qed.

Lemma real_exit_code (w : World) (live : option (gmap string RealPrices.LivePrice)) :
  snd (RealPrices.run w live) = 1%Z <->
  exists t r, RealPrices.o_results (fst (RealPrices.run w live)) !! t = Some r /\
    RealPrices.severity (RealPrices.dislocation r) = CRITICAL.
Proof.
  unfold RealPrices.run, RealPrices.analyzeAll.
  cbn [fst snd RealPrices.o_results].
  set (table := RealPrices.updateWithLivePrices (default ∅ live) RealPrices.STOCK_DATA).
  assert (Hnd : NoDup (table.*1)).
  { unfold table. rewrite overlay_keys. apply STOCK_DATA_keys_NoDup. }
  destruct (real_loop_invariant w table Hnd) as [Hr Hc]. cbn zeta in Hr, Hc.
  set (st := foldl RealPrices.step (RealPrices.initial w) table) in *.
  destruct (0 <? RealPrices.criticalDislocations (RealPrices.summary st))%nat eqn:E.
  - apply Nat.ltb_lt in E. split; [intros _|reflexivity].
    apply Hc in E. destruct E as (t & d & H & Hs).
    exists t, (RealPrices.analyzeTicker t d). split; [|exact Hs].
    apply Hr. eauto.
  - apply Nat.ltb_ge in E. split; [discriminate|].
    intros (t & r & H & Hs). apply Hr in H. destruct H as (d & H & ->).
    assert (0 < RealPrices.criticalDislocations (RealPrices.summary st))%nat; [|lia].
    apply Hc. eauto.
Qed.

(** ** The main loop of [run-automated-analysis.js] *)

Section RunnerFacts.

Variable Commentary : Type.
Variable analyze :
  string -> Runner.StockData -> Runner.PriceData ->
  Runner.Throws (Runner.Analysis Commentary).
Variable generateReport :
  string -> Runner.StockData -> Runner.PriceData -> Weights ->
  Runner.Dislocation -> Runner.Inference -> Runner.Throws Commentary.
Variable STOCK_DATA : gmap string Runner.StockData.
Variable livePrices : gmap string Runner.LivePrice.
Variable THRESHOLD : string.

Local Abbreviation step :=
  (Runner.step Commentary analyze generateReport STOCK_DATA livePrices THRESHOLD).
Local Abbreviation outcome :=
  (Runner.outcome Commentary analyze generateReport STOCK_DATA livePrices THRESHOLD).
Local Abbreviation State := (Runner.State Commentary).
Local Abbreviation sevOf a := (Runner.severity (Runner.dislocation a)).

(** The three ways a turn can end, by the outcome for its ticker. *)
Lemma step_NoData (st : State) (t : string) :
  outcome t = Runner.NoData Commentary ->
  step st t = Runner.mkState Commentary
                (Runner.pushError (Runner.summary _ st) t "No data found")
                (Runner.results _ st).
Proof.
  unfold Runner.outcome, Runner.step.
  destruct (STOCK_DATA !! t) as [sd|]; [|reflexivity].
  destruct (Runner.analyzeTicker _ _ _ _ _ t sd); discriminate.
Qed.

Lemma step_Failed (st : State) (t message : string) :
  outcome t = Runner.Failed Commentary message ->
  step st t = Runner.mkState Commentary
                (Runner.pushError (Runner.summary _ st) t message)
                (Runner.results _ st).
Proof.
  unfold Runner.outcome, Runner.step.
  destruct (STOCK_DATA !! t) as [sd|]; [|discriminate].
  destruct (Runner.analyzeTicker _ _ _ _ _ t sd); [|discriminate].
  intros [= ->]. reflexivity.
Qed.

Lemma step_Analysed (st : State) (t : string) (a : Runner.Analysis Commentary) :
  outcome t = Runner.Analysed Commentary a ->
  step st t = Runner.mkState Commentary
                (Runner.count (sevOf a) (Runner.summary _ st))
                (<[t := a]> (Runner.results _ st)).
Proof.
  unfold Runner.outcome, Runner.step.
  destruct (STOCK_DATA !! t) as [sd|]; [|discriminate].
  destruct (Runner.analyzeTicker _ _ _ _ _ t sd); [discriminate|].
  intros [= ->]. reflexivity.
Qed.

Lemma accounted_pushError (sm : Runner.Summary) (t e : string) :
  Runner.accounted (Runner.pushError sm t e) = S (Runner.accounted sm).
Proof.
  unfold Runner.accounted, Runner.pushError. simpl.
  rewrite length_app. simpl. lia.
Qed.

Lemma accounted_count (sm : Runner.Summary) (s : Severity) :
  Runner.accounted (Runner.count s sm) = S (Runner.accounted sm).
Proof. unfold Runner.accounted. destruct s; simpl; lia. Qed.

Lemma critical_count (sm : Runner.Summary) (s : Severity) :
  (0 < Runner.criticalDislocations (Runner.count s sm))%nat <->
  (0 < Runner.criticalDislocations sm)%nat \/ s = CRITICAL.
Proof.
  destruct s; simpl; split; try lia; try tauto;
    intros [H|H]; try exact H; try discriminate; lia.
Qed.

(** The invariant of the loop: after the tickers [l], the results hold
    exactly the analyses of the tickers of [l] that were analysed, the
    critical counter is positive exactly when one of them is CRITICAL, and
    every ticker of [l] is accounted for once, by a counter or by an error
    entry. *)
Lemma loop_invariant (w : World) (TICKERS l : list string) :
  let st := foldl step (Runner.initial Commentary w TICKERS) l in
  (forall t a, Runner.results _ st !! t = Some a <->
               t ∈ l /\ outcome t = Runner.Analysed Commentary a) /\
  ((0 < Runner.criticalDislocations (Runner.summary _ st))%nat <->
   exists t a, t ∈ l /\ outcome t = Runner.Analysed Commentary a /\
               sevOf a = CRITICAL) /\
  Runner.accounted (Runner.summary _ st) = length l.
Proof.
  induction l as [|t l IH] using rev_ind; cbn zeta.
  - simpl. split; [|split].
    + intros t a. rewrite lookup_empty. split; [discriminate|].
      intros [H _]. now apply elem_of_nil in H.
    + split; [lia|]. intros (t & a & H & _). now apply elem_of_nil in H.
    + reflexivity.
  - rewrite foldl_app. simpl. cbn zeta in IH.
    set (st := foldl step (Runner.initial Commentary w TICKERS) l) in *.
    destruct IH as (IHr & IHc & IHa).
    destruct (outcome t) as [|message|a] eqn:E.
    + rewrite (step_NoData st t E). simpl. split; [|split].
      * intros t' a'. rewrite IHr, elem_of_app, list_elem_of_singleton.
        split; [tauto|]. intros [[H| ->] Ho]; [tauto|congruence].
      * rewrite IHc. split.
        -- intros (t' & a' & H & Ho & Hs). exists t', a'.
           rewrite elem_of_app. tauto.
        -- intros (t' & a' & H & Ho & Hs). exists t', a'.
           rewrite elem_of_app, list_elem_of_singleton in H.
           destruct H as [H| ->]; [tauto|congruence].
      * rewrite accounted_pushError, IHa, length_app. simpl. lia.
    + rewrite (step_Failed st t message E). simpl. split; [|split].
      * intros t' a'. rewrite IHr, elem_of_app, list_elem_of_singleton.
        split; [tauto|]. intros [[H| ->] Ho]; [tauto|congruence].
      * rewrite IHc. split.
        -- intros (t' & a' & H & Ho & Hs). exists t', a'.
           rewrite elem_of_app. tauto.
        -- intros (t' & a' & H & Ho & Hs). exists t', a'.
           rewrite elem_of_app, list_elem_of_singleton in H.
           destruct H as [H| ->]; [tauto|congruence].
      * rewrite accounted_pushError, IHa, length_app. simpl. lia.
    + rewrite (step_Analysed st t a E). simpl. split; [|split].
      * intros t' a'. rewrite elem_of_app, list_elem_of_singleton.
        destruct (decide (t = t')) as [<-|Hne].
        -- rewrite lookup_insert_eq. split.
           ++ intros [= <-]. tauto.
           ++ intros [_ Ho]. congruence.
        -- rewrite lookup_insert_ne by exact Hne. rewrite IHr.
           split; [tauto|]. intros [[H|H] Ho]; [tauto|congruence].
      * rewrite critical_count, IHc. split.
        -- intros [(t' & a' & H & Ho & Hs)|Hs].
           ++ exists t', a'. rewrite elem_of_app. tauto.
           ++ exists t, a. rewrite elem_of_app, list_elem_of_singleton. tauto.
        -- intros (t' & a' & H & Ho & Hs).
           rewrite elem_of_app, list_elem_of_singleton in H.
           destruct H as [H| ->].
           ++ left. exists t', a'. tauto.
           ++ right. congruence.
      * rewrite accounted_count, IHa, length_app. simpl. lia.
Qed.

Lemma outcome_NoData (t : string) :
  outcome t = Runner.NoData Commentary <-> STOCK_DATA !! t = None.
Proof.
  unfold Runner.outcome. destruct (STOCK_DATA !! t) as [sd|]; [|tauto].
  destruct (Runner.analyzeTicker _ _ _ _ _ t sd); split; discriminate.
Qed.

Lemma outcome_Failed (t message : string) :
  outcome t = Runner.Failed Commentary message <->
  exists sd, STOCK_DATA !! t = Some sd /\
    Runner.analyzeTicker Commentary analyze generateReport livePrices THRESHOLD t sd
      = Runner.Threw message.
Proof.
  unfold Runner.outcome. destruct (STOCK_DATA !! t) as [sd|].
  - destruct (Runner.analyzeTicker _ _ _ _ _ t sd) as [m|a] eqn:E; split.
    + intros [= ->]. eauto.
    + intros (sd' & [= <-] & H). congruence.
    + discriminate.
    + intros (sd' & [= <-] & H). congruence.
  - split; [discriminate|]. intros (sd & H & _). discriminate.
Qed.

Lemma outcome_Analysed (t : string) (a : Runner.Analysis Commentary) :
  outcome t = Runner.Analysed Commentary a <->
  exists sd, STOCK_DATA !! t = Some sd /\
    Runner.analyzeTicker Commentary analyze generateReport livePrices THRESHOLD t sd
      = Runner.Returned a.
Proof.
  unfold Runner.outcome. destruct (STOCK_DATA !! t) as [sd|].
  - destruct (Runner.analyzeTicker _ _ _ _ _ t sd) as [m|a'] eqn:E; split.
    + discriminate.
    + intros (sd' & [= <-] & H). congruence.
    + intros [= ->]. eauto.
    + intros (sd' & [= <-] & H). congruence.
  - split; [discriminate|]. intros (sd & H & _). discriminate.
Qed.

(** A turn never removes a result. *)
Lemma step_keeps_results (st : State) (t t' : string) :
  is_Some (Runner.results _ st !! t') ->
  is_Some (Runner.results _ (step st t) !! t').
Proof.
  intros H. destruct (outcome t) as [|message|a] eqn:E.
  - now rewrite (step_NoData st t E).
  - now rewrite (step_Failed st t message E).
  - rewrite (step_Analysed st t a E). simpl.
    destruct (decide (t = t')) as [<-|Hne].
    + rewrite lookup_insert_eq. eauto.
    + now rewrite lookup_insert_ne.
Qed.

Lemma loop_keeps_results (l : list string) :
  forall (st : State) (t' : string),
  is_Some (Runner.results _ st !! t') ->
  is_Some (Runner.results _ (foldl step st l) !! t').
Proof.
  induction l as [|t l IH]; intros st t' H; simpl; [exact H|].
  apply IH. now apply step_keeps_results.
Qed.

Lemma runner_exit_code (w : World) (TICKERS : list string) :
  let out := Runner.run Commentary analyze generateReport STOCK_DATA livePrices
               THRESHOLD w TICKERS in
  snd out = 1%Z <->
  exists t a, Runner.o_results _ (fst out) !! t = Some a /\ sevOf a = CRITICAL.
Proof.
  cbn zeta. unfold Runner.run, Runner.analyzeAll, Runner.exitCode.
  cbn [fst snd Runner.o_results].
  destruct (loop_invariant w TICKERS TICKERS) as (Hr & Hc & _).
  cbn zeta in Hr, Hc.
  set (st := foldl step (Runner.initial Commentary w TICKERS) TICKERS) in *.
  destruct (0 <? Runner.criticalDislocations (Runner.summary _ st))%nat eqn:E.
  - apply Nat.ltb_lt in E. split; [intros _|reflexivity].
    apply Hc in E. destruct E as (t & a & H & Ho & Hs).
    exists t, a. split; [|exact Hs]. apply Hr. tauto.
  - apply Nat.ltb_ge in E. split; [discriminate|].
    intros (t & a & H & Hs). apply Hr in H. destruct H as [H Ho].
    assert (0 < Runner.criticalDislocations (Runner.summary _ st))%nat; [|lia].
    apply Hc. eauto.
Qed.

Lemma exitCode_values (sm : Runner.Summary) :
  Runner.exitCode sm = 1%Z \/ Runner.exitCode sm = 0%Z.
Proof. unfold Runner.exitCode. destruct (0 <? _)%nat; tauto. Qed.

(** C8. For every batch run the process exits with code 1 if and only if
    at least one ticker's result has severity CRITICAL, which is when
    summary.criticalDislocations > 0; otherwise it exits with code 0.  The
    error entries play no part: recording one leaves the exit code as it
    was.  This holds for run-automated-analysis.js, with any engine, and for
    the real-prices runner. *)
Theorem C8_exit_code (w : World) (TICKERS : list string)
    (live : option (gmap string RealPrices.LivePrice)) :
  let out := Runner.run Commentary analyze generateReport STOCK_DATA livePrices
               THRESHOLD w TICKERS in
  let critical :=
    exists t a, Runner.o_results _ (fst out) !! t = Some a /\ sevOf a = CRITICAL in
  let out' := RealPrices.run w live in
  let critical' :=
    exists t r, RealPrices.o_results (fst out') !! t = Some r /\
      RealPrices.severity (RealPrices.dislocation r) = CRITICAL in
  (snd out = 1%Z <-> critical) /\
  (snd out = 0%Z <-> ~ critical) /\
  (critical <->
   (0 < Runner.criticalDislocations (Runner.o_summary _ (fst out)))%nat) /\
  (forall (sm : Runner.Summary) (t e : string),
     Runner.exitCode (Runner.pushError sm t e) = Runner.exitCode sm) /\
  (snd out' = 1%Z <-> critical') /\
  (snd out' = 0%Z <-> ~ critical').
Proof.
  cbn zeta.
  pose proof (runner_exit_code w TICKERS) as H1. cbn zeta in H1.
  pose proof (real_exit_code w live) as H2.
  split; [exact H1|]. split; [|split; [|split; [|split]]].
  - rewrite <- H1. unfold Runner.run. cbn [snd].
    destruct (exitCode_values
                (Runner.summary _
                   (Runner.analyzeAll Commentary analyze generateReport STOCK_DATA
                      livePrices THRESHOLD w TICKERS))) as [E|E];
      rewrite E; split; congruence.
  - rewrite <- H1. unfold Runner.run, Runner.exitCode.
    cbn [fst snd Runner.o_summary].
    destruct (0 <? _)%nat eqn:E.
    + apply Nat.ltb_lt in E. tauto.
    + apply Nat.ltb_ge in E. split; [discriminate|lia].
  - intros sm t e. reflexivity.
  - exact H2.
  - rewrite <- H2. unfold RealPrices.run. cbn [snd].
    destruct (0 <? _)%nat; split; congruence.
Qed.

(** C9. For every ticker of the batch that has no STOCK_DATA entry, or
    whose analysis throws, an entry {ticker, error} is appended to
    summary.errors, nothing else changes, and the loop goes on with the next
    ticker: a turn never removes a result, every ticker of the batch is
    accounted for by exactly one counter or error entry, and every ticker
    that can be analysed has its result in the report whatever failed before
    or after it. *)
Theorem C9_failures_do_not_abort (w : World) (TICKERS : list string) :
  (forall (st : State) (t : string),
     STOCK_DATA !! t = None ->
     step st t = Runner.mkState Commentary
                   (Runner.pushError (Runner.summary _ st) t "No data found")
                   (Runner.results _ st)) /\
  (forall (st : State) (t : string) (sd : Runner.StockData) (message : string),
     STOCK_DATA !! t = Some sd ->
     Runner.analyzeTicker Commentary analyze generateReport livePrices THRESHOLD t sd
       = Runner.Threw message ->
     step st t = Runner.mkState Commentary
                   (Runner.pushError (Runner.summary _ st) t message)
                   (Runner.results _ st)) /\
  (forall (pre post : list string) (t : string) (st : State),
     foldl step st (pre ++ t :: post) = foldl step (step (foldl step st pre) t) post) /\
  (forall (l : list string) (st : State) (t' : string),
     is_Some (Runner.results _ st !! t') ->
     is_Some (Runner.results _ (foldl step st l) !! t')) /\
  (let final := Runner.analyzeAll Commentary analyze generateReport STOCK_DATA
                  livePrices THRESHOLD w TICKERS in
   Runner.accounted (Runner.summary _ final) = length TICKERS /\
   forall (t : string) (sd : Runner.StockData) (a : Runner.Analysis Commentary),
     t ∈ TICKERS ->
     STOCK_DATA !! t = Some sd ->
     Runner.analyzeTicker Commentary analyze generateReport livePrices THRESHOLD t sd
       = Runner.Returned a ->
     Runner.results _ final !! t = Some a).
Proof.
  split; [|split; [|split; [|split]]].
  - intros st t H. apply step_NoData. now apply outcome_NoData.
  - intros st t sd message H1 H2. apply step_Failed.
    apply outcome_Failed. eauto.
  - intros pre post t st. now rewrite foldl_app.
  - exact loop_keeps_results.
  - cbn zeta. unfold Runner.analyzeAll.
    destruct (loop_invariant w TICKERS TICKERS) as (Hr & _ & Ha).
    split; [exact Ha|].
    intros t sd a Hin H1 H2. apply Hr. split; [exact Hin|].
    apply outcome_Analysed. eauto.
Qed.




End RunnerFacts.

(** ** The theorems at sample inputs *)

Lemma C3_boundary_is_high_witness :
  RealPrices.classify (-8) (-8) = HIGH.
Proof.
  apply (proj2 (proj2 (proj2 (proj2 C3_boundary_is_high)))).
  - vm_compute. reflexivity.
  - vm_compute. discriminate.
Defined.

(** The sample batch: XRO is NORMAL, GHOST has no data, the engine throws
    for BAD, DRO fell by 10 % and is CRITICAL; the exit code is 1. *)
Lemma C8_exit_code_witness :
  snd (Runner.run unit sampleAnalyze sampleReport sampleStockData ∅ "MODERATE"
         sampleWorld sampleTickers) = 1%Z /\
  snd (RealPrices.run sampleWorld None) = 1%Z.
Proof.
  pose proof (C8_exit_code unit sampleAnalyze sampleReport sampleStockData ∅
                "MODERATE" sampleWorld sampleTickers None) as (H1 & _ & _ & _ & H2 & _).
  split.
  - apply H1.
    eexists "DRO"%string, _. split; [vm_compute; reflexivity|].
    vm_compute. reflexivity.
  - apply H2.
    eexists "XRO"%string, _. split; [vm_compute; reflexivity|].
    vm_compute. reflexivity.
Defined.

Lemma C9_failures_do_not_abort_witness :
  let step := Runner.step unit sampleAnalyze sampleReport sampleStockData ∅ "MODERATE" in
  let st0 := Runner.initial unit sampleWorld sampleTickers in
  let final := Runner.analyzeAll unit sampleAnalyze sampleReport sampleStockData ∅
                 "MODERATE" sampleWorld sampleTickers in
  Runner.errors (Runner.summary _ (step st0 "GHOST"%string))
    = [Runner.mkError "GHOST" "No data found"] /\
  Runner.errors (Runner.summary _ (step st0 "BAD"%string))
    = [Runner.mkError "BAD" "engine failure"] /\
  Runner.errors (Runner.summary _ final)
    = [Runner.mkError "GHOST" "No data found"; Runner.mkError "BAD" "engine failure"] /\
  (exists a, Runner.results _ final !! "DRO"%string = Some a /\
             Runner.severity (Runner.dislocation a) = CRITICAL).
Proof.
  cbn zeta.
  pose proof (C9_failures_do_not_abort unit sampleAnalyze sampleReport
                sampleStockData ∅ "MODERATE" sampleWorld sampleTickers)
    as (H1 & H2 & _ & _ & _ & H5).
  split; [|split; [|split]].
  - rewrite H1; [reflexivity|]. vm_compute. reflexivity.
  - rewrite (H2 _ "BAD"%string (Runner.mkStock None None) "engine failure"%string);
      [reflexivity| |]; vm_compute; reflexivity.
  - vm_compute. reflexivity.
  - eexists. split.
    + apply (H5 "DRO"%string (Runner.mkStock None (Some [4%Q; 3.6%Q]))).
      * unfold sampleTickers. rewrite !elem_of_cons. tauto.
      * vm_compute. reflexivity.
      * vm_compute. reflexivity.
    + vm_compute. reflexivity.
Defined.



(** ** Rounding to a fixed number of digits *)

Lemma pow10_pos (d : nat) : (0 < JS.pow10 d)%Z.
Proof. unfold JS.pow10. apply Z.pow_pos_nonneg; lia. Qed.

Lemma scale_pos (d : nat) : (0 < inject_Z (JS.pow10 d))%Q.
Proof.
  replace 0%Q with (inject_Z 0) by reflexivity.
  rewrite <- Zlt_Qlt. apply pow10_pos.
Qed.

Lemma nearest_nonneg (x : Q) : (0 <= x)%Q -> (0 <= JS.nearest x)%Z.
Proof.
  intros H. unfold JS.nearest.
  replace 0%Z with (Qfloor 0) by reflexivity.
  apply Qfloor_resp_le. lra.
Qed.

Lemma nearest_mono (x y : Q) : (x <= y)%Q -> (JS.nearest x <= JS.nearest y)%Z.
Proof. intros H. unfold JS.nearest. apply Qfloor_resp_le. lra. Qed.

Lemma nearest_Z (n : Z) : JS.nearest (inject_Z n) = n.
Proof.
  unfold JS.nearest.
  pose proof (Qfloor_le (inject_Z n + (1 # 2))) as H1.
  pose proof (Qlt_floor (inject_Z n + (1 # 2))) as H2.
  remember (Qfloor (inject_Z n + (1 # 2))) as k eqn:Ek. clear Ek.
  rewrite inject_Z_plus in H2. change (inject_Z 1) with 1%Q in H2.
  assert (Hk1 : (k < n + 1)%Z).
  { rewrite Zlt_Qlt, inject_Z_plus. change (inject_Z 1) with 1%Q. lra. }
  assert (Hk2 : (n < k + 1)%Z).
  { rewrite Zlt_Qlt, inject_Z_plus. change (inject_Z 1) with 1%Q. lra. }
  lia.
Qed.

(** The units of [x.toFixed(d)] grow with [x]. *)
Lemma units_toFixed_mono (x y : Q) (d : nat) :
  (x <= y)%Q -> (JS.units (JS.toFixed x d) <= JS.units (JS.toFixed y d))%Z.
Proof.
  intros H. unfold JS.toFixed. cbn [JS.units].
  pose proof (scale_pos d) as Hs. set (s := inject_Z (JS.pow10 d)) in *.
  destruct (JS.ltb x 0) eqn:Ex; destruct (JS.ltb y 0) eqn:Ey.
  - apply ltb_lt in Ex, Ey.
    assert ((JS.nearest (- y * s) <= JS.nearest (- x * s))%Z); [|lia].
    apply nearest_mono. nra.
  - apply ltb_lt in Ex. apply not_true_iff_false in Ey. rewrite ltb_lt in Ey.
    apply Qnot_lt_le in Ey.
    assert (0 <= JS.nearest (- x * s))%Z by (apply nearest_nonneg; nra).
    assert (0 <= JS.nearest (y * s))%Z by (apply nearest_nonneg; nra).
    lia.
  - apply ltb_lt in Ey. apply not_true_iff_false in Ex. rewrite ltb_lt in Ex.
    apply Qnot_lt_le in Ex. lra.
  - apply not_true_iff_false in Ex, Ey. rewrite ltb_lt in Ex, Ey.
    apply Qnot_lt_le in Ex, Ey. apply nearest_mono. nra.
Qed.

(** A number with at most [d] decimals is printed as it is. *)
Lemma units_toFixed_exact (n : Z) (d : nat) (x : Q) :
  (x == inject_Z n / inject_Z (JS.pow10 d))%Q ->
  JS.units (JS.toFixed x d) = n.
Proof.
  intros H. rewrite (toFixed_comp _ _ d H).
  unfold JS.toFixed. cbn [JS.units].
  pose proof (scale_pos d) as Hs. set (s := inject_Z (JS.pow10 d)) in *.
  assert (Hne : ~ (s == 0)%Q) by lra.
  assert (E1 : (inject_Z n / s * s == inject_Z n)%Q) by (field; exact Hne).
  assert (E2 : (- (inject_Z n / s) * s == inject_Z (- n))%Q).
  { rewrite inject_Z_opp. field. exact Hne. }
  destruct (JS.ltb (inject_Z n / s) 0).
  - unfold JS.nearest.
    assert (E3 : (- (inject_Z n / s) * s + (1 # 2) == inject_Z (- n) + (1 # 2))%Q)
      by now rewrite E2.
    rewrite (Qfloor_comp _ _ E3). fold (JS.nearest (inject_Z (- n))).
    rewrite nearest_Z. lia.
  - unfold JS.nearest.
    assert (E3 : (inject_Z n / s * s + (1 # 2) == inject_Z n + (1 # 2))%Q)
      by now rewrite E1.
    rewrite (Qfloor_comp _ _ E3). fold (JS.nearest (inject_Z n)).
    apply nearest_Z.
Qed.

Lemma parseFloat_value (s : JS.Fixed) :
  (JS.parseFloat s == inject_Z (JS.units s) / inject_Z (JS.pow10 (JS.digits s)))%Q.
Proof.
  unfold JS.parseFloat. rewrite Qred_correct.
  pose proof (pow10_pos (JS.digits s)) as Hp.
  rewrite Qmake_Qdiv. rewrite Z2Pos.id by exact Hp. reflexivity.
Qed.

(** Bounds on a number carry over to its rounded value when the bounds
    themselves have at most [d] decimals. *)
Lemma parseFloat_toFixed_bounds (x : Q) (d : nat) (lo hi : Z) :
  (inject_Z lo / inject_Z (JS.pow10 d) <= x)%Q ->
  (x <= inject_Z hi / inject_Z (JS.pow10 d))%Q ->
  (inject_Z lo / inject_Z (JS.pow10 d) <= JS.parseFloat (JS.toFixed x d))%Q /\
  (JS.parseFloat (JS.toFixed x d) <= inject_Z hi / inject_Z (JS.pow10 d))%Q.
Proof.
  intros Hlo Hhi. rewrite parseFloat_value.
  replace (JS.digits (JS.toFixed x d)) with d by reflexivity.
  pose proof (scale_pos d) as Hs. set (s := inject_Z (JS.pow10 d)) in *.
  pose proof (units_toFixed_mono _ _ d Hlo) as H1.
  pose proof (units_toFixed_mono _ _ d Hhi) as H2.
  rewrite (units_toFixed_exact lo d (inject_Z lo / s) (Qeq_refl _)) in H1.
  rewrite (units_toFixed_exact hi d (inject_Z hi / s) (Qeq_refl _)) in H2.
  rewrite Zle_Qle in H1, H2.
  split.
  - apply Qle_shift_div_l; [exact Hs|].
    assert (E : (inject_Z lo / s * s == inject_Z lo)%Q) by (field; lra).
    rewrite E. exact H1.
  - apply Qle_shift_div_r; [exact Hs|].
    assert (E : (inject_Z hi / s * s == inject_Z hi)%Q) by (field; lra).
    rewrite E. exact H2.
Qed.

(** ** [Math.max] and [Math.min] over a history *)

Lemma Math_max_ge_last (xs : list Q) (x : Q) : (x <= JS.Math_max xs x)%Q.
Proof.
  unfold JS.Math_max. induction xs as [|a xs IH]; simpl.
  - apply Qle_refl.
  - eapply Qle_trans; [exact IH|]. apply Q.le_max_r.
Qed.

Lemma Math_max_ge_elem (xs : list Q) (x h : Q) :
  h ∈ xs -> (h <= JS.Math_max xs x)%Q.
Proof.
  unfold JS.Math_max. induction xs as [|a xs IH]; simpl; intros Hin.
  - now apply elem_of_nil in Hin.
  - apply elem_of_cons in Hin. destruct Hin as [->|Hin].
    + apply Q.le_max_l.
    + eapply Qle_trans; [apply IH; exact Hin|]. apply Q.le_max_r.
Qed.

Lemma Math_min_le_last (xs : list Q) (x : Q) : (JS.Math_min xs x <= x)%Q.
Proof.
  unfold JS.Math_min. induction xs as [|a xs IH]; simpl.
  - apply Qle_refl.
  - eapply Qle_trans; [|exact IH]. apply Q.le_min_r.
Qed.

Lemma Math_min_le_elem (xs : list Q) (x h : Q) :
  h ∈ xs -> (JS.Math_min xs x <= h)%Q.
Proof.
  unfold JS.Math_min. induction xs as [|a xs IH]; simpl; intros Hin.
  - now apply elem_of_nil in Hin.
  - apply elem_of_cons in Hin. destruct Hin as [->|Hin].
    + apply Q.le_min_l.
    + eapply Qle_trans; [|apply IH; exact Hin]. apply Q.le_min_r.
Qed.

(** ** The runner on real prices: every price of ordinary magnitude is CRITICAL *)

Lemma deep_drawdown_raw (c peak : Q) :
  (0 < c)%Q -> (c * 2.5 <= peak)%Q ->
  (-100 <= (c - peak) / peak * 100)%Q /\ ((c - peak) / peak * 100 <= -60)%Q.
Proof.
  intros Hc Hp.
  assert (Hpeak : (0 < peak)%Q) by lra.
  assert (H1 : (-1 <= (c - peak) / peak)%Q).
  { apply Qle_shift_div_l; [exact Hpeak|]. lra. }
  assert (H2 : ((c - peak) / peak <= -(3 # 5))%Q).
  { apply Qle_shift_div_r; [exact Hpeak|]. lra. }
  remember ((c - peak) / peak)%Q as q. lra.
Qed.

Lemma positive_price_drawdown (data : RealPrices.StockEntry) :
  (0 < RealPrices.price data)%Q ->
  (-100 <= JS.parseFloat (RealPrices.drawdown (RealPrices.priceFacts data))
   /\ JS.parseFloat (RealPrices.drawdown (RealPrices.priceFacts data)) <= -60)%Q.
Proof.
  intros Hc.
  assert (Hpeak : (RealPrices.price data * 2.5
                   <= RealPrices.peakPrice (RealPrices.priceFacts data))%Q).
  { unfold RealPrices.priceFacts. cbn [RealPrices.peakPrice].
    apply Math_max_ge_last. }
  unfold RealPrices.drawdown.
  destruct (deep_drawdown_raw (RealPrices.price data)
              (RealPrices.peakPrice (RealPrices.priceFacts data)) Hc Hpeak)
    as [H1 H2].
  change (RealPrices.currentPrice (RealPrices.priceFacts data))
    with (RealPrices.price data).
  assert (E1 : (inject_Z (-1000) / inject_Z (JS.pow10 1) == -100)%Q)
    by (vm_compute; reflexivity).
  assert (E2 : (inject_Z (-600) / inject_Z (JS.pow10 1) == -60)%Q)
    by (vm_compute; reflexivity).
  rewrite <- E1 in H1. rewrite <- E2 in H2.
  destruct (parseFloat_toFixed_bounds _ 1 (-1000) (-600) H1 H2) as [B1 B2].
  rewrite E1 in B1. rewrite E2 in B2. split; assumption.
Qed.

Lemma positive_price_severity (data : RealPrices.StockEntry) :
  (0 < RealPrices.price data)%Q ->
  RealPrices.severityOf (RealPrices.priceFacts data) = CRITICAL.
Proof.
  intros Hc. unfold RealPrices.severityOf. apply classify_deep_drawdown.
  destruct (positive_price_drawdown data Hc) as [_ Hd]. lra.
Qed.

(** X1. A price of ordinary magnitude is CRITICAL.  The peak of the
    real-prices runner is at least 2.5 times the current price, so for every
    entry with a price between 10^-6 and 10^12, whatever its previous close
    and its history, the drawdown lies between -100 and -60, the severity is
    CRITICAL and the pattern is DISTRIBUTION. *)
Theorem real_positive_price_is_critical (ticker : string) (data : RealPrices.StockEntry) :
  inPriceRange (RealPrices.price data) ->
  let f := RealPrices.priceFacts data in
  let dis := RealPrices.dislocation (RealPrices.analyzeTicker ticker data) in
  (RealPrices.price data * 2.5 <= RealPrices.peakPrice f)%Q /\
  (forall h, h ∈ RealPrices.priceHistory data -> (h <= RealPrices.peakPrice f)%Q) /\
  (-100 <= RealPrices.drawdownFromPeak (RealPrices.metrics dis))%Q /\
  (RealPrices.drawdownFromPeak (RealPrices.metrics dis) <= -60)%Q /\
  RealPrices.severity dis = CRITICAL /\
  RealPrices.pattern dis = DISTRIBUTION.
Proof.
  intros Hrange. pose proof (inPriceRange_pos _ Hrange) as Hc. cbn zeta.
  pose proof (positive_price_drawdown data Hc) as [Hd1 Hd2].
  pose proof (positive_price_severity data Hc) as Hs.
  split.
  { unfold RealPrices.priceFacts. cbn [RealPrices.peakPrice].
    apply Math_max_ge_last. }
  split.
  { intros h Hh. unfold RealPrices.priceFacts. cbn [RealPrices.peakPrice].
    now apply Math_max_ge_elem. }
  unfold RealPrices.analyzeTicker, RealPrices.resultOf.
  cbn [RealPrices.dislocation RealPrices.metrics RealPrices.drawdownFromPeak
       RealPrices.severity RealPrices.pattern].
  rewrite Hs. cbn [RealPrices.isCritical].
  repeat split; assumption.
Qed.

(** ** The whole run on real prices *)

Lemma real_count_total (s : Severity) (sm : RealPrices.Summary) :
  (RealPrices.criticalDislocations (RealPrices.count s sm)
   + RealPrices.highDislocations (RealPrices.count s sm)
   + RealPrices.normal (RealPrices.count s sm)
   = S (RealPrices.criticalDislocations sm + RealPrices.highDislocations sm
        + RealPrices.normal sm))%nat /\
  RealPrices.tickersAnalyzed (RealPrices.count s sm) = RealPrices.tickersAnalyzed sm.
Proof. destruct s; simpl; split; lia. Qed.

Lemma real_loop_total (table : list (string * RealPrices.StockEntry)) :
  forall st : RealPrices.State,
  let st' := foldl RealPrices.step st table in
  (RealPrices.criticalDislocations (RealPrices.summary st')
   + RealPrices.highDislocations (RealPrices.summary st')
   + RealPrices.normal (RealPrices.summary st')
   = RealPrices.criticalDislocations (RealPrices.summary st)
     + RealPrices.highDislocations (RealPrices.summary st)
     + RealPrices.normal (RealPrices.summary st) + length table)%nat /\
  RealPrices.tickersAnalyzed (RealPrices.summary st')
    = RealPrices.tickersAnalyzed (RealPrices.summary st).
Proof.
  induction table as [|[t d] table IH]; intros st; cbn zeta; cbn [foldl length].
  - split; [lia|reflexivity].
  - destruct (IH (RealPrices.step st (t, d))) as [H1 H2]. cbn zeta in H1, H2.
    rewrite H1, H2. unfold RealPrices.step. cbn [RealPrices.summary].
    destruct (real_count_total
                (RealPrices.severity
                   (RealPrices.dislocation (RealPrices.analyzeTicker t d)))
                (RealPrices.summary st)) as [H3 H4].
    rewrite H3, H4. split; [lia|reflexivity].
Qed.

Lemma real_loop_all_critical (table : list (string * RealPrices.StockEntry)) :
  Forall (fun e => RealPrices.severity
                     (RealPrices.dislocation (RealPrices.analyzeTicker e.1 e.2))
                   = CRITICAL) table ->
  forall st : RealPrices.State,
  let st' := foldl RealPrices.step st table in
  RealPrices.criticalDislocations (RealPrices.summary st')
    = (RealPrices.criticalDislocations (RealPrices.summary st) + length table)%nat /\
  RealPrices.highDislocations (RealPrices.summary st')
    = RealPrices.highDislocations (RealPrices.summary st) /\
  RealPrices.normal (RealPrices.summary st') = RealPrices.normal (RealPrices.summary st).
Proof.
  induction 1 as [|[t d] table Hc _ IH]; intros st; cbn zeta; cbn [foldl length].
  - repeat split; lia.
  - destruct (IH (RealPrices.step st (t, d))) as (H1 & H2 & H3).
    cbn zeta in H1, H2, H3. rewrite H1, H2, H3.
    unfold RealPrices.step. cbn [RealPrices.summary].
    cbn [fst snd] in Hc. rewrite Hc.
    cbn [RealPrices.count RealPrices.criticalDislocations
         RealPrices.highDislocations RealPrices.normal].
    repeat split; lia.
Qed.

Lemma STOCK_DATA_prices_inPriceRange :
  Forall (fun e : string * RealPrices.StockEntry => inPriceRange (RealPrices.price e.2))
         RealPrices.STOCK_DATA.
Proof.
  unfold RealPrices.STOCK_DATA.
  repeat (apply Forall_cons; split;
          [unfold inPriceRange; cbn [snd RealPrices.price]; lra|]).
  apply Forall_nil_2.
Qed.

Lemma overlay_price_positive (prices : gmap string RealPrices.LivePrice)
    (e : string * RealPrices.StockEntry) :
  (forall t q, prices !! t = Some q -> (0 < RealPrices.p q)%Q) ->
  (0 < RealPrices.price e.2)%Q ->
  (0 < RealPrices.price (RealPrices.overlay prices e).2)%Q.
Proof.
  intros Hlive He. destruct e as [t d]. unfold RealPrices.overlay.
  destruct (prices !! t) as [q|] eqn:E; simpl; [|exact He].
  now apply (Hlive t).
Qed.

Lemma overlay_ticker (prices : gmap string RealPrices.LivePrice)
    (e : string * RealPrices.StockEntry) :
  (RealPrices.overlay prices e).1 = e.1.
Proof. destruct e as [t d]. unfold RealPrices.overlay. now destruct (prices !! t). Qed.

(** X2. With quotes of ordinary magnitude the real-prices run is all
    CRITICAL.  Whatever the live-price snapshot, provided its prices lie
    between 10^-6 and 10^12, all twelve tickers are CRITICAL: the summary
    counts 12 critical, 0 high and 0 normal, and the exit code is 1. *)
Theorem real_run_all_critical (w : World)
    (live : option (gmap string RealPrices.LivePrice)) :
  (forall t q, default ∅ live !! t = Some q -> inPriceRange (RealPrices.p q)) ->
  let out := RealPrices.run w live in
  RealPrices.criticalDislocations (RealPrices.o_summary out.1) = 12%nat /\
  RealPrices.highDislocations (RealPrices.o_summary out.1) = 0%nat /\
  RealPrices.normal (RealPrices.o_summary out.1) = 0%nat /\
  out.2 = 1%Z /\
  forall t r, RealPrices.o_results out.1 !! t = Some r ->
    RealPrices.severity (RealPrices.dislocation r) = CRITICAL.
Proof.
  intros Hlive. cbn zeta. unfold RealPrices.run, RealPrices.analyzeAll.
  cbn [fst snd RealPrices.o_summary RealPrices.o_results].
  set (table := RealPrices.updateWithLivePrices (default ∅ live) RealPrices.STOCK_DATA).
  assert (Hall : Forall (fun e => RealPrices.severity
                     (RealPrices.dislocation (RealPrices.analyzeTicker e.1 e.2))
                   = CRITICAL) table).
  { unfold table, RealPrices.updateWithLivePrices. apply Forall_map.
    eapply Forall_impl; [exact STOCK_DATA_prices_inPriceRange|].
    intros e He. cbn beta in He |- *.
    apply (positive_price_severity (RealPrices.overlay (default ∅ live) e).2).
    apply overlay_price_positive.
    - intros t q Hq. apply inPriceRange_pos. now apply (Hlive t).
    - now apply inPriceRange_pos. }
  destruct (real_loop_all_critical table Hall (RealPrices.initial w))
    as (H1 & H2 & H3). cbn zeta in H1, H2, H3.
  assert (Hlen : length table = 12%nat).
  { unfold table, RealPrices.updateWithLivePrices. rewrite length_map. reflexivity. }
  rewrite H1, H2, H3, Hlen. simpl.
  repeat split.
  intros t r Hr.
  assert (Hnd : NoDup (table.*1)).
  { unfold table. rewrite overlay_keys. apply STOCK_DATA_keys_NoDup. }
  destruct (real_loop_invariant w table Hnd) as [Hinv _]. cbn zeta in Hinv.
  apply Hinv in Hr. destruct Hr as (d & Hin & ->).
  rewrite Forall_forall in Hall. apply (Hall (t, d)). exact Hin.
Qed.

(** X3. The real-prices report covers the twelve tickers.  Whatever the
    snapshot, quotes for unknown tickers included, the results hold exactly
    the twelve tickers of STOCK_DATA, each with the analysis of its entry
    overlaid by its quote, and the three counters add up to 12, the value of
    tickersAnalyzed. *)
Theorem real_run_covers_STOCK_DATA (w : World)
    (live : option (gmap string RealPrices.LivePrice)) :
  let out := (RealPrices.run w live).1 in
  let sm := RealPrices.o_summary out in
  (RealPrices.criticalDislocations sm + RealPrices.highDislocations sm
   + RealPrices.normal sm = 12)%nat /\
  RealPrices.tickersAnalyzed sm = 12%nat /\
  (forall t, is_Some (RealPrices.o_results out !! t) <->
             t ∈ RealPrices.STOCK_DATA.*1) /\
  (forall t data, (t, data) ∈ RealPrices.STOCK_DATA ->
     RealPrices.o_results out !! t
       = Some (RealPrices.analyzeTicker t
                 match default ∅ live !! t with
                 | Some quote =>
                     RealPrices.mkStock (RealPrices.p quote) (RealPrices.pc quote)
                       (RealPrices.priceHistory data)
                 | None => data
                 end)).
Proof.
  cbn zeta. unfold RealPrices.run, RealPrices.analyzeAll.
  cbn [fst RealPrices.o_summary RealPrices.o_results].
  set (table := RealPrices.updateWithLivePrices (default ∅ live) RealPrices.STOCK_DATA).
  assert (Hlen : length table = 12%nat).
  { unfold table, RealPrices.updateWithLivePrices. rewrite length_map. reflexivity. }
  assert (Hnd : NoDup (table.*1)).
  { unfold table. rewrite overlay_keys. apply STOCK_DATA_keys_NoDup. }
  destruct (real_loop_total table (RealPrices.initial w)) as [H1 H2].
  cbn zeta in H1, H2.
  destruct (real_loop_invariant w table Hnd) as [Hinv _]. cbn zeta in Hinv.
  split; [rewrite H1, Hlen; reflexivity|]. split; [rewrite H2; reflexivity|].
  split.
  - intros t. rewrite <- (overlay_keys (default ∅ live)). fold table. split.
    + intros [r Hr]. apply Hinv in Hr. destruct Hr as (d & Hin & _).
      apply list_elem_of_fmap. exists (t, d). split; [reflexivity|exact Hin].
    + intros Hin. apply list_elem_of_fmap in Hin.
      destruct Hin as ([t' d] & -> & Hin). simpl.
      exists (RealPrices.analyzeTicker t' d). apply Hinv. eauto.
  - intros t data Hin. apply Hinv.
    eexists. split; [|reflexivity].
    unfold table, RealPrices.updateWithLivePrices.
    apply list_elem_of_fmap. exists (t, data). split; [|exact Hin].
    unfold RealPrices.overlay. now destruct (default ∅ live !! t).
Qed.

(** ** The simulated runner under draws from [0, 1) *)

Lemma simulatePrices_eq (w : World) (n : nat) :
  Simulated.simulatePrices w n =
    ((100 + randomDraws w n * 200,
      (100 + randomDraws w n * 200) * (1 + (randomDraws w (S n) - 0.5) * 0.1))%Q,
     S (S n)).
Proof. reflexivity. Qed.

Lemma simulated_prices_raw (r r' : Q) :
  (0 <= r)%Q -> (r < 1)%Q -> (0 <= r')%Q -> (r' < 1)%Q ->
  let c := (100 + r * 200)%Q in
  let p := (c * (1 + (r' - 0.5) * 0.1))%Q in
  (100 <= c /\ c < 300)%Q /\ (0.95 * c <= p /\ p < 1.05 * c)%Q.
Proof. intros H0 H1 H0' H1'. cbn zeta. split; [split; lra|]. split; nra. Qed.

(** X4. The simulated prices.  With draws in [0, 1) the simulated current
    price lies between 100 and 300, and the previous price between 0.949 and
    1.051 times the current price: within 5 % of it, up to rounding. *)
Theorem simulated_price_ranges (w : World) (n : nat) :
  validDraws w ->
  let prices := (Simulated.simulatePrices w n).1 in
  (100 <= prices.1 /\ prices.1 <= 300)%Q /\
  (0.949 * prices.1 <= prices.2 /\ prices.2 <= 1.051 * prices.1)%Q.
Proof.
  intros Hw. cbn zeta. rewrite simulatePrices_eq. cbn [fst snd].
  destruct (Hw n) as [H0 H1]. destruct (Hw (S n)) as [H0' H1'].
  destruct (simulated_prices_raw _ _ H0 H1 H0' H1') as [[Hc1 Hc2] [Hp1 Hp2]].
  cbn zeta in Hc1, Hc2, Hp1, Hp2.
  remember (100 + randomDraws w n * 200)%Q as c eqn:Ec.
  remember (c * (1 + (randomDraws w (S n) - 0.5) * 0.1))%Q as p eqn:Ep.
  split; split; lra.
Qed.

Lemma simulated_change_raw (c p : Q) :
  (0 < c)%Q -> (0.95 * c <= p)%Q -> (p < 1.05 * c)%Q ->
  (inject_Z (-477) / inject_Z (JS.pow10 2) <= (c - p) / p * 100)%Q /\
  ((c - p) / p * 100 <= inject_Z 527 / inject_Z (JS.pow10 2))%Q.
Proof.
  intros Hc Hlo Hhi.
  assert (Hp : (0 < p)%Q) by lra.
  assert (E1 : (inject_Z (-477) / inject_Z (JS.pow10 2) == -4.77)%Q)
    by (vm_compute; reflexivity).
  assert (E2 : (inject_Z 527 / inject_Z (JS.pow10 2) == 5.27)%Q)
    by (vm_compute; reflexivity).
  rewrite E1, E2.
  assert (H1 : (-0.0477 <= (c - p) / p)%Q).
  { apply Qle_shift_div_l; [exact Hp|]. lra. }
  assert (H2 : ((c - p) / p <= 0.0527)%Q).
  { apply Qle_shift_div_r; [exact Hp|]. lra. }
  remember ((c - p) / p)%Q as q. split; lra.
Qed.

Lemma simulated_return_range (w : World) (n : nat) :
  validDraws w ->
  (-4.77 <= JS.parseFloat (Simulated.change (Simulated.simulatePrices w n).1)
   /\ JS.parseFloat (Simulated.change (Simulated.simulatePrices w n).1) <= 5.27)%Q.
Proof.
  intros Hw.
  destruct (Hw n) as [H0 H1]. destruct (Hw (S n)) as [H0' H1'].
  destruct (simulated_prices_raw _ _ H0 H1 H0' H1') as [[Hc _] [Hlo Hhi]].
  cbn zeta in Hc, Hlo, Hhi.
  rewrite simulatePrices_eq. cbn [fst].
  remember (100 + randomDraws w n * 200)%Q as c eqn:Ec.
  remember (c * (1 + (randomDraws w (S n) - 0.5) * 0.1))%Q as p eqn:Ep.
  unfold Simulated.change.
  destruct (simulated_change_raw c p) as [R1 R2]; [lra|exact Hlo|exact Hhi|].
  destruct (parseFloat_toFixed_bounds _ 2 (-477) 527 R1 R2) as [B1 B2].
  assert (E1 : (inject_Z (-477) / inject_Z (JS.pow10 2) == -4.77)%Q)
    by (vm_compute; reflexivity).
  assert (E2 : (inject_Z 527 / inject_Z (JS.pow10 2) == 5.27)%Q)
    by (vm_compute; reflexivity).
  rewrite E1 in B1. rewrite E2 in B2. split; assumption.
Qed.

Lemma simulated_result_fields (ticker : string) (w : World) (n : nat) :
  let res := (Simulated.analyzeTicker ticker w n).1 in
  let change := Simulated.change (Simulated.simulatePrices w n).1 in
  Simulated.todayReturn (Simulated.metrics (Simulated.dislocation res))
    = JS.parseFloat change /\
  Simulated.severity (Simulated.dislocation res) = Simulated.classify change /\
  Simulated.primaryHypothesis (Simulated.inference res)
    = match Simulated.classify change with CRITICAL => T2 | _ => T1 end /\
  confidence (wT3 (Simulated.r_weights res))
    = match Simulated.classify change with CRITICAL => C_LOW | _ => C_MEDIUM end.
Proof. repeat split; reflexivity. Qed.

Lemma Qabs_gt_lower (r b lo : Q) :
  (lo <= r)%Q -> (- b < lo)%Q -> (b < Qabs r)%Q -> (b < r)%Q.
Proof.
  intros Hlo Hb H.
  destruct (Qlt_le_dec r 0) as [Hn|Hn].
  - rewrite Qabs_neg in H by lra. lra.
  - rewrite Qabs_pos in H by exact Hn. exact H.
Qed.

Lemma simulated_classify_cases (w : World) (n : nat) :
  validDraws w ->
  let r := JS.parseFloat (Simulated.change (Simulated.simulatePrices w n).1) in
  JS.gtb (JS.Math_abs r) 8 = false /\
  (JS.gtb (JS.Math_abs r) 5 = true -> (5 < r)%Q) /\
  Simulated.classify (Simulated.change (Simulated.simulatePrices w n).1) <> CRITICAL.
Proof.
  intros Hw. cbn zeta.
  pose proof (simulated_return_range w n Hw) as [Hlo Hhi].
  set (r := JS.parseFloat (Simulated.change (Simulated.simulatePrices w n).1)) in *.
  assert (H8 : JS.gtb (JS.Math_abs r) 8 = false).
  { apply not_true_iff_false. rewrite gtb_lt. unfold JS.Math_abs. intros H.
    apply (Qabs_gt_lower r 8 (-4.77)) in H; lra. }
  split; [exact H8|]. split.
  - intros E5. apply gtb_lt in E5. unfold JS.Math_abs in E5.
    apply (Qabs_gt_lower r 5 (-4.77)) in E5; lra.
  - unfold Simulated.classify. fold r. rewrite H8.
    destruct (JS.gtb (JS.Math_abs r) 5); discriminate.
Qed.

(** X5. The simulated runner never reports CRITICAL.  With draws in [0, 1)
    the simulated return lies between -4.77 and 5.27, so the severity is
    never CRITICAL, a HIGH severity always comes from a rise of more than
    5 % (which the runner labels GAP_DOWN), the primary hypothesis is always
    T1 and the confidence of T3 is always MEDIUM. *)
Theorem simulated_never_critical (ticker : string) (w : World) (n : nat) :
  validDraws w ->
  let res := (Simulated.analyzeTicker ticker w n).1 in
  let dis := Simulated.dislocation res in
  let r := Simulated.todayReturn (Simulated.metrics dis) in
  (-4.77 <= r /\ r <= 5.27)%Q /\
  Simulated.severity dis <> CRITICAL /\
  (Simulated.severity dis = HIGH -> (5 < r)%Q /\ Simulated.pattern dis = GAP_DOWN) /\
  Simulated.primaryHypothesis (Simulated.inference res) = T1 /\
  confidence (wT3 (Simulated.r_weights res)) = C_MEDIUM.
Proof.
  intros Hw. cbn zeta.
  destruct (simulated_result_fields ticker w n) as (Er & Es & Ep & Ec).
  cbn zeta in Er, Es, Ep, Ec.
  destruct (simulated_pattern ticker w n) as [Epat _]. cbn zeta in Epat.
  rewrite Ep, Ec, Epat, Es, Er. clear Ep Ec Epat Es Er.
  pose proof (simulated_return_range w n Hw) as [Hlo Hhi].
  destruct (simulated_classify_cases w n Hw) as (H8 & H5 & _). cbn zeta in H8, H5.
  set (r := JS.parseFloat (Simulated.change (Simulated.simulatePrices w n).1)) in *.
  unfold Simulated.classify. fold r. rewrite H8.
  split; [split; assumption|].
  destruct (JS.gtb (JS.Math_abs r) 5) eqn:E5.
  - repeat split; try congruence. now apply H5.
  - repeat split; congruence.
Qed.

(** ** The draws a simulated run consumes *)

Lemma analyzeTicker_draws (ticker : string) (w : World) (n : nat) :
  (Simulated.analyzeTicker ticker w n).2 = (n + 8)%nat.
Proof. replace (n + 8)%nat with (8 + n)%nat by lia. reflexivity. Qed.

Lemma simulated_step_eq (st : Simulated.State) (t : string) (w : World) (n : nat) :
  Simulated.step st t w n =
    (Simulated.mkState
       (Simulated.count
          (Simulated.severity
             (Simulated.dislocation (Simulated.analyzeTicker t w n).1))
          (Simulated.summary st))
       (<[t := (Simulated.analyzeTicker t w n).1]> (Simulated.results st)),
     (n + 8)%nat).
Proof.
  unfold Simulated.step.
  change (Simulated.analyzeTicker t ≫= _)
    with (fun w n => let (a, n') := Simulated.analyzeTicker t w n in
                     (Simulated.mkState
                        (Simulated.count
                           (Simulated.severity (Simulated.dislocation a))
                           (Simulated.summary st))
                        (<[t := a]> (Simulated.results st)), n')).
  cbn beta. pose proof (analyzeTicker_draws t w n) as H.
  destruct (Simulated.analyzeTicker t w n) as [a n']. cbn [fst snd] in *.
  now rewrite H.
Qed.

Lemma simulated_loop_cons (t : string) (ts : list string) (st : Simulated.State)
    (w : World) (n : nat) :
  Simulated.loop (t :: ts) st w n
    = Simulated.loop ts (Simulated.step st t w n).1 w (n + 8)%nat.
Proof.
  change (Simulated.loop (t :: ts) st w n)
    with (let (st', n') := Simulated.step st t w n in Simulated.loop ts st' w n').
  rewrite simulated_step_eq. reflexivity.
Qed.

Lemma simulated_count_total (s : Severity) (sm : Simulated.Summary) :
  (Simulated.criticalDislocations (Simulated.count s sm)
   + Simulated.highDislocations (Simulated.count s sm)
   + Simulated.normal (Simulated.count s sm)
   = S (Simulated.criticalDislocations sm + Simulated.highDislocations sm
        + Simulated.normal sm))%nat.
Proof. destruct s; simpl; lia. Qed.

(** The invariant of the simulated loop started at draw [n]. *)
Lemma simulated_loop_invariant (w : World) (ts : list string) :
  forall (st : Simulated.State) (n : nat),
  NoDup ts ->
  let out := Simulated.loop ts st w n in
  out.2 = (n + 8 * length ts)%nat /\
  (Simulated.criticalDislocations (Simulated.summary out.1)
   + Simulated.highDislocations (Simulated.summary out.1)
   + Simulated.normal (Simulated.summary out.1)
   = Simulated.criticalDislocations (Simulated.summary st)
     + Simulated.highDislocations (Simulated.summary st)
     + Simulated.normal (Simulated.summary st) + length ts)%nat /\
  (forall (i : nat) (t : string), ts !! i = Some t ->
     Simulated.results out.1 !! t
       = Some (Simulated.analyzeTicker t w (n + 8 * i)).1) /\
  (forall t : string, t ∉ ts ->
     Simulated.results out.1 !! t = Simulated.results st !! t).
Proof.
  induction ts as [|t ts IH]; intros st n Hnd; cbn zeta.
  - simpl. repeat split; try lia.
    intros i t H. now rewrite lookup_nil in H.
  - apply NoDup_cons in Hnd. destruct Hnd as [Hfresh Hnd].
    rewrite simulated_loop_cons.
    destruct (IH (Simulated.step st t w n).1 (n + 8)%nat Hnd) as (H1 & H2 & H3 & H4).
    cbn zeta in H1, H2, H3, H4.
    rewrite simulated_step_eq in H1, H2, H3, H4 |- *. cbn [fst] in *.
    cbn [Simulated.summary Simulated.results] in H2, H4.
    split; [rewrite H1; simpl; lia|].
    split; [rewrite H2, simulated_count_total; simpl; lia|].
    split.
    + intros [|i] t' Hi.
      * simpl in Hi. injection Hi as <-.
        rewrite (H4 t Hfresh), lookup_insert_eq.
        now replace (n + 8 * 0)%nat with n by lia.
      * simpl in Hi. rewrite (H3 i t' Hi).
        now replace (n + 8 + 8 * i)%nat with (n + 8 * S i)%nat by lia.
    + intros t' Hnot. apply not_elem_of_cons in Hnot. destruct Hnot as [Hne Hnot].
      rewrite (H4 t' Hnot). now rewrite lookup_insert_ne.
Qed.

Lemma simulated_tickers_NoDup : NoDup Simulated.tickers.
Proof. apply (bool_decide_unpack _). vm_compute. reflexivity. Qed.

(** X6. The simulated report.  A simulated run reports exactly its twelve
    tickers; the i-th ticker (from 0) is computed from the eight draws
    8i .. 8i+7 and nothing else, and the three counters add up to 12. *)
Theorem simulated_run_report (w : World) :
  let out := (Simulated.run w).1 in
  let sm := Simulated.o_summary out in
  (Simulated.criticalDislocations sm + Simulated.highDislocations sm
   + Simulated.normal sm = 12)%nat /\
  (forall (i : nat) (t : string), Simulated.tickers !! i = Some t ->
     Simulated.o_results out !! t
       = Some (Simulated.analyzeTicker t w (8 * i)).1) /\
  (forall t : string, is_Some (Simulated.o_results out !! t) <->
                      t ∈ Simulated.tickers).
Proof.
  cbn zeta. unfold Simulated.run. cbn [fst Simulated.o_summary Simulated.o_results].
  destruct (simulated_loop_invariant w Simulated.tickers (Simulated.initial w) 0
              simulated_tickers_NoDup) as (_ & H2 & H3 & H4).
  cbn zeta in H2, H3, H4.
  split; [rewrite H2; reflexivity|]. split; [exact H3|].
  intros t. split.
  - intros Hs. destruct (decide (t ∈ Simulated.tickers)) as [Hin|Hnot]; [exact Hin|].
    rewrite (H4 t Hnot) in Hs. simpl in Hs. rewrite lookup_empty in Hs.
    now destruct Hs.
  - intros Hin. apply list_elem_of_lookup in Hin. destruct Hin as [i Hi].
    rewrite (H3 i t Hi). eauto.
Qed.

(** The result of a ticker is a function of its eight draws. *)
Lemma analyzeTicker_local (ticker : string) (w1 w2 : World) (n m : nat) :
  (forall k : nat, (k < 8)%nat ->
     randomDraws w1 (n + k) = randomDraws w2 (m + k)) ->
  (Simulated.analyzeTicker ticker w1 n).1 = (Simulated.analyzeTicker ticker w2 m).1.
Proof.
  intros H.
  pose proof (H 0%nat ltac:(lia)) as H0. pose proof (H 1%nat ltac:(lia)) as H1.
  pose proof (H 2%nat ltac:(lia)) as H2. pose proof (H 3%nat ltac:(lia)) as H3.
  pose proof (H 4%nat ltac:(lia)) as H4. pose proof (H 5%nat ltac:(lia)) as H5.
  pose proof (H 6%nat ltac:(lia)) as H6. pose proof (H 7%nat ltac:(lia)) as H7.
  rewrite !Nat.add_0_r in H0.
  replace (n + 1)%nat with (S n) in H1 by lia.
  replace (m + 1)%nat with (S m) in H1 by lia.
  replace (n + 2)%nat with (S (S n)) in H2 by lia.
  replace (m + 2)%nat with (S (S m)) in H2 by lia.
  replace (n + 3)%nat with (S (S (S n))) in H3 by lia.
  replace (m + 3)%nat with (S (S (S m))) in H3 by lia.
  replace (n + 4)%nat with (S (S (S (S n)))) in H4 by lia.
  replace (m + 4)%nat with (S (S (S (S m)))) in H4 by lia.
  replace (n + 5)%nat with (S (S (S (S (S n))))) in H5 by lia.
  replace (m + 5)%nat with (S (S (S (S (S m))))) in H5 by lia.
  replace (n + 6)%nat with (S (S (S (S (S (S n)))))) in H6 by lia.
  replace (m + 6)%nat with (S (S (S (S (S (S m)))))) in H6 by lia.
  replace (n + 7)%nat with (S (S (S (S (S (S (S n))))))) in H7 by lia.
  replace (m + 7)%nat with (S (S (S (S (S (S (S m))))))) in H7 by lia.
  cbv beta iota zeta delta
    [Simulated.analyzeTicker Simulated.resultOf Simulated.simulatePrices
     mbind mret Simulated.Rand_bind Simulated.Rand_ret Simulated.Math_random fst].
  rewrite H0, H1, H2, H3, H4, H5, H6, H7. reflexivity.
Qed.

(** X7. A simulated run with valid draws always exits with code 0.  With
    draws in [0, 1) no ticker is CRITICAL, so criticalDislocations is 0,
    the high and normal counters add up to 12 and the exit code is 0. *)
Theorem simulated_run_exit_zero (w : World) :
  validDraws w ->
  let out := Simulated.run w in
  Simulated.criticalDislocations (Simulated.o_summary out.1) = 0%nat /\
  (Simulated.highDislocations (Simulated.o_summary out.1)
   + Simulated.normal (Simulated.o_summary out.1) = 12)%nat /\
  out.2 = 0%Z.
Proof.
  intros Hw. cbn zeta.
  assert (Hcrit : forall (ts : list string) (st : Simulated.State) (n : nat),
             Simulated.criticalDislocations
               (Simulated.summary (Simulated.loop ts st w n).1)
             = Simulated.criticalDislocations (Simulated.summary st)).
  { induction ts as [|t ts IH]; intros st n; [reflexivity|].
    rewrite simulated_loop_cons, IH, simulated_step_eq.
    cbn [fst Simulated.summary].
    destruct (simulated_classify_cases w n Hw) as (_ & _ & Hs).
    destruct (simulated_result_fields t w n) as (_ & Es & _). cbn zeta in Es.
    rewrite Es.
    destruct (Simulated.classify (Simulated.change (Simulated.simulatePrices w n).1));
      try reflexivity. congruence. }
  destruct (simulated_loop_invariant w Simulated.tickers (Simulated.initial w) 0
              simulated_tickers_NoDup) as (_ & Htot & _).
  cbn zeta in Htot.
  pose proof (Hcrit Simulated.tickers (Simulated.initial w) 0%nat) as Hc.
  unfold Simulated.run. cbn [fst snd Simulated.o_summary].
  remember (Simulated.loop Simulated.tickers (Simulated.initial w) w 0).1 as st eqn:Est.
  clear Est Hcrit.
  change (Simulated.criticalDislocations (Simulated.summary (Simulated.initial w)))
    with 0%nat in Hc, Htot.
  change (Simulated.highDislocations (Simulated.summary (Simulated.initial w)))
    with 0%nat in Htot.
  change (Simulated.normal (Simulated.summary (Simulated.initial w)))
    with 0%nat in Htot.
  change (length Simulated.tickers) with 12%nat in Htot.
  rewrite Hc in Htot |- *. split; [reflexivity|]. split; [lia|reflexivity].
Qed.

(** X8. The draws of one ticker.  Analysing a ticker consumes exactly
    eight draws, and its result depends on those eight draws only: two
    worlds that agree on them give the same result, wherever in the
    sequence they occur. *)
Theorem simulated_ticker_uses_eight_draws (ticker : string) (w1 w2 : World) (n m : nat) :
  (forall k : nat, (k < 8)%nat ->
     randomDraws w1 (n + k) = randomDraws w2 (m + k)) ->
  (Simulated.analyzeTicker ticker w1 n).1 = (Simulated.analyzeTicker ticker w2 m).1 /\
  (Simulated.analyzeTicker ticker w1 n).2 = (n + 8)%nat.
Proof.
  intros H. split; [now apply analyzeTicker_local|apply analyzeTicker_draws].
Qed.

(** ** The simulated metrics and weights *)

Lemma simulated_draw_fields (ticker : string) (w : World) (n : nat) :
  let res := (Simulated.analyzeTicker ticker w n).1 in
  let m := Simulated.metrics (Simulated.dislocation res) in
  Simulated.zScore m = JS.toFixed (randomDraws w (n + 2) * 3) 2 /\
  Simulated.volumeRatio m = JS.toFixed (1 + randomDraws w (n + 3) * 2) 2 /\
  shortTerm (wT1 (Simulated.r_weights res)) = (45 + randomDraws w (n + 4) * 20)%Q /\
  shortTerm (wT2 (Simulated.r_weights res)) = (30 + randomDraws w (n + 5) * 30)%Q /\
  shortTerm (wT3 (Simulated.r_weights res)) = (20 + randomDraws w (n + 6) * 40)%Q /\
  shortTerm (wT4 (Simulated.r_weights res)) = (30 + randomDraws w (n + 7) * 20)%Q.
Proof.
  cbn zeta.
  replace (n + 2)%nat with (2 + n)%nat by lia.
  replace (n + 3)%nat with (3 + n)%nat by lia.
  replace (n + 4)%nat with (4 + n)%nat by lia.
  replace (n + 5)%nat with (5 + n)%nat by lia.
  replace (n + 6)%nat with (6 + n)%nat by lia.
  replace (n + 7)%nat with (7 + n)%nat by lia.
  repeat split; reflexivity.
Qed.

Lemma simulated_fixed_weights (ticker : string) (w : World) (n : nat) :
  let res := (Simulated.analyzeTicker ticker w n).1 in
  (longTerm (wT2 (Simulated.r_weights res)) = 30
   /\ blended (wT2 (Simulated.r_weights res)) = 40)%Q /\
  (longTerm (wT3 (Simulated.r_weights res)) = 20
   /\ blended (wT3 (Simulated.r_weights res)) = 35)%Q /\
  (longTerm (wT4 (Simulated.r_weights res)) = 40
   /\ blended (wT4 (Simulated.r_weights res)) = 38)%Q.
Proof. repeat split; reflexivity. Qed.

(** X9. The simulated metrics.  With draws in [0, 1) the z-score printed
    by the simulated runner lies in [0, 3] and the volume ratio in [1, 3]. *)
Theorem simulated_metric_ranges (ticker : string) (w : World) (n : nat) :
  validDraws w ->
  let m := Simulated.metrics
             (Simulated.dislocation (Simulated.analyzeTicker ticker w n).1) in
  (0 <= JS.parseFloat (Simulated.zScore m)
   /\ JS.parseFloat (Simulated.zScore m) <= 3)%Q /\
  (1 <= JS.parseFloat (Simulated.volumeRatio m)
   /\ JS.parseFloat (Simulated.volumeRatio m) <= 3)%Q.
Proof.
  intros Hw. cbn zeta.
  destruct (simulated_draw_fields ticker w n) as (Ez & Ev & _).
  cbn zeta in Ez, Ev. rewrite Ez, Ev.
  destruct (Hw (n + 2)%nat) as [Hz0 Hz1]. destruct (Hw (n + 3)%nat) as [Hv0 Hv1].
  assert (E0 : (inject_Z 0 / inject_Z (JS.pow10 2) == 0)%Q) by (vm_compute; reflexivity).
  assert (E1 : (inject_Z 100 / inject_Z (JS.pow10 2) == 1)%Q) by (vm_compute; reflexivity).
  assert (E3 : (inject_Z 300 / inject_Z (JS.pow10 2) == 3)%Q) by (vm_compute; reflexivity).
  split.
  - destruct (parseFloat_toFixed_bounds (randomDraws w (n + 2) * 3) 2 0 300)
      as [B1 B2]; [rewrite E0; lra|rewrite E3; lra|].
    rewrite E0 in B1. rewrite E3 in B2. split; assumption.
  - destruct (parseFloat_toFixed_bounds (1 + randomDraws w (n + 3) * 2) 2 100 300)
      as [B1 B2]; [rewrite E1; lra|rewrite E3; lra|].
    rewrite E1 in B1. rewrite E3 in B2. split; assumption.
Qed.

(** X10. The simulated weights.  With draws in [0, 1) the short-term weights
    lie between 45 and 65 for T1, 30 and 60 for T2, 20 and 60 for T3 and 30
    and 50 for T4, and the constant blended weight lies between the
    long-term and short-term weights exactly when shortTerm >= 40 for T2,
    shortTerm >= 35 for T3 and shortTerm <= 38 for T4. *)
Theorem simulated_weight_ranges (ticker : string) (w : World) (n : nat) :
  validDraws w ->
  let ws := Simulated.r_weights (Simulated.analyzeTicker ticker w n).1 in
  (45 <= shortTerm (wT1 ws) /\ shortTerm (wT1 ws) <= 65)%Q /\
  (30 <= shortTerm (wT2 ws) /\ shortTerm (wT2 ws) <= 60)%Q /\
  (20 <= shortTerm (wT3 ws) /\ shortTerm (wT3 ws) <= 60)%Q /\
  (30 <= shortTerm (wT4 ws) /\ shortTerm (wT4 ws) <= 50)%Q /\
  (blendedBetween (wT2 ws) <-> (40 <= shortTerm (wT2 ws))%Q) /\
  (blendedBetween (wT3 ws) <-> (35 <= shortTerm (wT3 ws))%Q) /\
  (blendedBetween (wT4 ws) <-> (shortTerm (wT4 ws) <= 38)%Q).
Proof.
  intros Hw. cbn zeta.
  destruct (simulated_draw_fields ticker w n) as (_ & _ & E1 & E2 & E3 & E4).
  destruct (simulated_fixed_weights ticker w n)
    as ((L2 & B2) & (L3 & B3) & (L4 & B4)).
  cbn zeta in E1, E2, E3, E4, L2, B2, L3, B3, L4, B4.
  unfold blendedBetween. rewrite L2, B2, L3, B3, L4, B4, E1, E2, E3, E4.
  destruct (Hw (n + 4)%nat) as [H10 H11]. destruct (Hw (n + 5)%nat) as [H20 H21].
  destruct (Hw (n + 6)%nat) as [H30 H31]. destruct (Hw (n + 7)%nat) as [H40 H41].
  remember (randomDraws w (n + 4)) as r1. remember (randomDraws w (n + 5)) as r2.
  remember (randomDraws w (n + 6)) as r3. remember (randomDraws w (n + 7)) as r4.
  split; [split; lra|]. split; [split; lra|]. split; [split; lra|].
  split; [split; lra|].
  rewrite !Q.max_le_iff, !Q.min_le_iff.
  split; [|split]; split; intros H; lra.
Qed.

(** ** [buildPriceData] *)

(** X11. The 52-week range.  In the price data the low is at most the
    current price, the current price at most the peak, the high equals the
    peak, and every point of the history lies between low and peak. *)
Theorem buildPriceData_range (live : gmap string Runner.LivePrice) (t : string)
    (sd : Runner.StockData) :
  let pd := Runner.buildPriceData live t sd in
  (Runner.low52Week pd <= Runner.currentPrice pd)%Q /\
  (Runner.currentPrice pd <= Runner.peakPrice pd)%Q /\
  Runner.high52Week pd = Runner.peakPrice pd /\
  forall h : Q, h ∈ default [] (Runner.priceHistory sd) ->
    (Runner.low52Week pd <= h /\ h <= Runner.peakPrice pd)%Q.
Proof.
  cbn zeta. unfold Runner.buildPriceData.
  cbn [Runner.low52Week Runner.currentPrice Runner.peakPrice Runner.high52Week].
  split; [apply Math_min_le_last|]. split; [apply Math_max_ge_last|].
  split; [reflexivity|]. intros h Hh. split.
  - now apply Math_min_le_elem.
  - now apply Math_max_ge_elem.
Qed.




Lemma returnsOf_length (h : list Q) :
  length (Runner.returnsOf h) = (length h - 1)%nat.
Proof.
  induction h as [|a [|b h] IH]; [reflexivity|reflexivity|].
  change (Runner.returnsOf (a :: b :: h))
    with (((b - a) / a)%Q :: Runner.returnsOf (b :: h)).
  simpl length in *. rewrite IH. lia.
Qed.

Lemma returnsOf_lookup (h : list Q) :
  forall (i : nat) (a b : Q),
  h !! i = Some a -> h !! S i = Some b ->
  Runner.returnsOf h !! i = Some ((b - a) / a)%Q.
Proof.
  induction h as [|x [|y h] IH]; intros i a b Ha Hb.
  - now rewrite lookup_nil in Ha.
  - destruct i; simpl in Hb; now rewrite ?lookup_nil in Hb.
  - change (Runner.returnsOf (x :: y :: h))
      with (((y - x) / x)%Q :: Runner.returnsOf (y :: h)).
    destruct i as [|i].
    + simpl in Ha, Hb. injection Ha as <-. injection Hb as <-. reflexivity.
    + simpl in Ha. change ((x :: y :: h) !! S (S i)) with ((y :: h) !! S i) in Hb.
      simpl. now apply IH.
Qed.

(** X13. The historical returns.  A history of at least two points yields
    one return per consecutive pair, (h[i+1] - h[i]) / h[i]; a shorter or
    missing history yields five zero returns; the list is never empty. *)
Theorem buildPriceData_returns (live : gmap string Runner.LivePrice) (t : string)
    (sd : Runner.StockData) :
  let pd := Runner.buildPriceData live t sd in
  let h := default [] (Runner.priceHistory sd) in
  ((2 <= length h)%nat ->
     length (Runner.historicalReturns pd) = (length h - 1)%nat /\
     forall (i : nat) (a b : Q), h !! i = Some a -> h !! S i = Some b ->
       ~ (a == 0)%Q ->
       Runner.historicalReturns pd !! i = Some ((b - a) / a)%Q) /\
  ((length h < 2)%nat -> Runner.historicalReturns pd = [0; 0; 0; 0; 0]%Q) /\
  Runner.historicalReturns pd <> [].
Proof.
  cbn zeta. unfold Runner.buildPriceData. cbn [Runner.historicalReturns].
  set (h := default [] (Runner.priceHistory sd)).
  pose proof (returnsOf_length h) as Hlen.
  split; [|split].
  - intros H2. destruct (Runner.returnsOf h) as [|r rs] eqn:E.
    + simpl in Hlen. lia.
    + split; [exact Hlen|]. intros i a b Ha Hb _. rewrite <- E.
      now apply returnsOf_lookup.
  - intros H2. destruct (Runner.returnsOf h) as [|r rs] eqn:E; [reflexivity|].
    simpl in Hlen. lia.
  - destruct (Runner.returnsOf h); discriminate.
Qed.

Lemma downRun_bound (r : list Q) : (Runner.downRun r <= length r - 1)%nat.
Proof.
  induction r as [|a [|b r] IH]; [simpl; lia|simpl; lia|].
  change (Runner.downRun (a :: b :: r))
    with (if JS.ltb a b then S (Runner.downRun (b :: r)) else O).
  simpl length in *. destruct (JS.ltb a b); lia.
Qed.

Lemma downRun_spec (r : list Q) :
  (forall i : nat, (i < Runner.downRun r)%nat ->
     exists a b : Q, r !! i = Some a /\ r !! S i = Some b /\ (a < b)%Q) /\
  (forall a b : Q, r !! Runner.downRun r = Some a ->
     r !! S (Runner.downRun r) = Some b -> ~ (a < b)%Q).
Proof.
  induction r as [|x [|y r] IH].
  - split; [simpl; lia|]. intros a b H. now rewrite lookup_nil in H.
  - split; [simpl; lia|]. intros a b _ H. simpl in H. discriminate.
  - change (Runner.downRun (x :: y :: r))
      with (if JS.ltb x y then S (Runner.downRun (y :: r)) else O).
    destruct IH as [IH1 IH2].
    destruct (JS.ltb x y) eqn:E.
    + apply ltb_lt in E. split.
      * intros [|i] Hi.
        -- exists x, y. split; [reflexivity|]. split; [reflexivity|exact E].
        -- destruct (IH1 i ltac:(lia)) as (a & b & Ha & Hb & Hab).
           exists a, b. split; [exact Ha|]. split; [exact Hb|exact Hab].
      * intros a b Ha Hb. apply (IH2 a b); assumption.
    + apply not_true_iff_false in E. rewrite ltb_lt in E. split; [lia|].
      intros a b Ha Hb. simpl in Ha, Hb. injection Ha as <-. injection Hb as <-.
      exact E.
Qed.

(** X14. The consecutive down days.  Reading the history from its last
    point backwards, consecutiveDownDays is the length of the longest run
    of days each lower than the day before it: every day of the run is
    lower than its predecessor, the day after the run is not, and the count
    is at most the number of points minus one (0 for an empty history). *)
Theorem buildPriceData_downDays (live : gmap string Runner.LivePrice) (t : string)
    (sd : Runner.StockData) :
  let k := Runner.consecutiveDownDays (Runner.buildPriceData live t sd) in
  let r := rev (default [] (Runner.priceHistory sd)) in
  (k <= length r - 1)%nat /\
  (forall i : nat, (i < k)%nat ->
     exists a b : Q, r !! i = Some a /\ r !! S i = Some b /\ (a < b)%Q) /\
  (forall a b : Q, r !! k = Some a -> r !! S k = Some b -> ~ (a < b)%Q).
Proof.
  cbn zeta. unfold Runner.buildPriceData. cbn [Runner.consecutiveDownDays].
  split; [apply downRun_bound|apply downRun_spec].
Qed.

(** ** The commentary threshold *)

Lemma SEVERITY_LEVELS_range (name : string) (l : Z) :
  Runner.SEVERITY_LEVELS name = Runner.Own l -> (0 <= l <= 3)%Z.
Proof.
  unfold Runner.SEVERITY_LEVELS.
  repeat case_decide; try case_bool_decide; intros [= <-]; lia.
Qed.

Lemma SEVERITY_LEVELS_inherited (name : string) :
  name ∈ Runner.Object_prototype ->
  Runner.SEVERITY_LEVELS name = Runner.Inherited.
Proof.
  intros Hin. unfold Runner.SEVERITY_LEVELS.
  rewrite (bool_decide_eq_true_2 _ Hin).
  repeat case_decide; try reflexivity; subst name;
    unfold Runner.Object_prototype in Hin;
    rewrite !elem_of_cons, elem_of_nil in Hin;
    exfalso; intuition discriminate.
Qed.

Lemma SEVERITY_LEVELS_not_inherited (name : string) :
  name ∉ Runner.Object_prototype ->
  Runner.SEVERITY_LEVELS name <> Runner.Inherited.
Proof.
  intros Hin. unfold Runner.SEVERITY_LEVELS.
  rewrite (bool_decide_eq_false_2 _ Hin).
  repeat case_decide; discriminate.
Qed.

Lemma thresholdLevel_range (name : string) (l : Z) :
  Runner.thresholdLevel name = Runner.Level l -> (1 <= l <= 3)%Z.
Proof.
  unfold Runner.thresholdLevel.
  destruct (Runner.SEVERITY_LEVELS name) as [l'| |] eqn:E.
  - apply SEVERITY_LEVELS_range in E.
    destruct (l' =? 0)%Z eqn:E0; intros [= <-]; lia.
  - discriminate.
  - intros [= <-]. lia.
Qed.

Lemma thresholdLevel_inherited (name : string) :
  name ∈ Runner.Object_prototype ->
  Runner.thresholdLevel name = Runner.NotANumber.
Proof.
  intros Hin. unfold Runner.thresholdLevel.
  now rewrite (SEVERITY_LEVELS_inherited name Hin).
Qed.

Lemma thresholdLevel_own (name : string) :
  name ∉ Runner.Object_prototype ->
  exists l : Z, Runner.thresholdLevel name = Runner.Level l /\ (1 <= l <= 3)%Z.
Proof.
  intros Hin. pose proof (SEVERITY_LEVELS_not_inherited name Hin) as Hne.
  pose proof (thresholdLevel_range name) as Hrange.
  unfold Runner.thresholdLevel in *.
  destruct (Runner.SEVERITY_LEVELS name) as [l'| |]; [|congruence|].
  - destruct (l' =? 0)%Z; eexists; (split; [reflexivity|]);
      apply Hrange; reflexivity.
  - exists 1%Z. split; [reflexivity|lia].
Qed.

Lemma reachesThreshold_NotANumber (s : Severity) :
  Runner.reachesThreshold s Runner.NotANumber = false.
Proof. now destruct s. Qed.

(** X15. The threshold level.  The level the runner compares severities
    with is 2 for HIGH and 3 for CRITICAL.  For a name that every object
    inherits from Object.prototype (constructor, toString, valueOf, ...) the
    lookup finds a function or an object, so the level is not a number and
    no severity reaches it.  For every other name the level is 1: NORMAL and
    unknown names count as MODERATE.  A level that is a number lies between
    1 and 3. *)
Theorem thresholdLevel_values (name : string) :
  (forall l : Z, Runner.thresholdLevel name = Runner.Level l -> (1 <= l <= 3)%Z) /\
  Runner.thresholdLevel "NORMAL" = Runner.Level 1 /\
  Runner.thresholdLevel "MODERATE" = Runner.Level 1 /\
  Runner.thresholdLevel "HIGH" = Runner.Level 2 /\
  Runner.thresholdLevel "CRITICAL" = Runner.Level 3 /\
  Runner.thresholdLevel "constructor" = Runner.NotANumber /\
  (name ∈ Runner.Object_prototype ->
   Runner.thresholdLevel name = Runner.NotANumber /\
   forall s : Severity,
     Runner.reachesThreshold s (Runner.thresholdLevel name) = false) /\
  (name ∉ Runner.Object_prototype ->
   name <> "HIGH"%string -> name <> "CRITICAL"%string ->
   Runner.thresholdLevel name = Runner.Level 1).
Proof.
  split; [apply thresholdLevel_range|].
  do 5 (split; [reflexivity|]). split.
  - intros Hin. rewrite (thresholdLevel_inherited name Hin).
    split; [reflexivity|]. apply reachesThreshold_NotANumber.
  - intros Hin H1 H2. unfold Runner.thresholdLevel, Runner.SEVERITY_LEVELS.
    rewrite (bool_decide_eq_false_2 _ Hin).
    repeat case_decide; try reflexivity; congruence.
Qed.

(** ** Commentaries and the summary of a batch *)

Section BatchFacts.

Variable Commentary : Type.
Variable analyze :
  string -> Runner.StockData -> Runner.PriceData ->
  Runner.Throws (Runner.Analysis Commentary).
Variable generateReport :
  string -> Runner.StockData -> Runner.PriceData -> Weights ->
  Runner.Dislocation -> Runner.Inference -> Runner.Throws Commentary.
Variable STOCK_DATA : gmap string Runner.StockData.
Variable livePrices : gmap string Runner.LivePrice.
Variable THRESHOLD : string.

Local Abbreviation step :=
  (Runner.step Commentary analyze generateReport STOCK_DATA livePrices THRESHOLD).
Local Abbreviation outcome :=
  (Runner.outcome Commentary analyze generateReport STOCK_DATA livePrices THRESHOLD).
Local Abbreviation analyzeTicker :=
  (Runner.analyzeTicker Commentary analyze generateReport livePrices THRESHOLD).
Local Abbreviation analyzeAll :=
  (Runner.analyzeAll Commentary analyze generateReport STOCK_DATA livePrices THRESHOLD).
Local Abbreviation analysed s :=
  (analysedWith Commentary analyze generateReport STOCK_DATA livePrices THRESHOLD s).
Local Abbreviation errorOf' :=
  (errorOf Commentary analyze generateReport STOCK_DATA livePrices THRESHOLD).

(** X16. When a commentary is asked for.  If the engine throws, the ticker
    fails without the report generator being consulted.  A NORMAL analysis
    that does not ask for an update is stored as it is, whatever the
    threshold (NORMAL included) and whatever the report generator would do.
    An analysis that asks for an update, or a CRITICAL one under a threshold
    that is not a name inherited from Object.prototype, always goes through
    the report generator: its report is attached and nothing else changes,
    and if the generator throws the ticker fails although it was analysed.
    Under a threshold that is an inherited name (constructor, toString, ...)
    no severity reaches the level: an analysis that does not ask for an
    update is stored as it is, a CRITICAL one included. *)
Theorem commentary_rule (t : string) (sd : Runner.StockData) :
  let pd := Runner.buildPriceData livePrices t sd in
  (forall message : string,
     analyze t sd pd = Runner.Threw message ->
     analyzeTicker t sd = Runner.Threw message) /\
  (forall a : Runner.Analysis Commentary,
     analyze t sd pd = Runner.Returned a ->
     Runner.severity (Runner.dislocation a) = NORMAL ->
     Runner.shouldUpdate a = false ->
     analyzeTicker t sd = Runner.Returned a) /\
  (forall a : Runner.Analysis Commentary,
     analyze t sd pd = Runner.Returned a ->
     Runner.shouldUpdate a = true \/
     (Runner.severity (Runner.dislocation a) = CRITICAL /\
      THRESHOLD ∉ Runner.Object_prototype) ->
     analyzeTicker t sd =
       match generateReport t sd pd (Runner.weights a) (Runner.dislocation a)
               (Runner.inference a) with
       | Runner.Threw message => Runner.Threw message
       | Runner.Returned report =>
           Runner.Returned
             (Runner.mkAnalysis (Runner.shouldUpdate a) (Runner.dislocation a)
                (Runner.weights a) (Runner.inference a) (Some report))
       end) /\
  (forall a : Runner.Analysis Commentary,
     analyze t sd pd = Runner.Returned a ->
     THRESHOLD ∈ Runner.Object_prototype ->
     Runner.shouldUpdate a = false ->
     analyzeTicker t sd = Runner.Returned a).
Proof.
  cbn zeta. unfold Runner.analyzeTicker.
  split; [|split; [|split]].
  - intros message H. rewrite H. reflexivity.
  - intros a H Hs Hu. rewrite H.
    cbn [mbind Runner.Throws_bind]. rewrite Hs, Hu. cbn [orb].
    assert (Hcond : Runner.reachesThreshold NORMAL (Runner.thresholdLevel THRESHOLD)
                    = false).
    { destruct (Runner.thresholdLevel THRESHOLD) as [l|] eqn:E; [|reflexivity].
      apply thresholdLevel_range in E.
      change (Runner.reachesThreshold NORMAL (Runner.Level l)) with (l <=? 0)%Z.
      apply Z.leb_gt. lia. }
    rewrite Hcond. reflexivity.
  - intros a H Hc. rewrite H. cbn [mbind Runner.Throws_bind].
    assert (Hcond : Runner.shouldUpdate a
                    || Runner.reachesThreshold
                         (Runner.severity (Runner.dislocation a))
                         (Runner.thresholdLevel THRESHOLD)
                    = true).
    { destruct Hc as [Hc|[Hc Hown]]; [now rewrite Hc|].
      rewrite Hc. apply orb_true_iff. right.
      destruct (thresholdLevel_own THRESHOLD Hown) as (l & -> & Hl).
      change (Runner.reachesThreshold CRITICAL (Runner.Level l)) with (l <=? 3)%Z.
      apply Z.leb_le. lia. }
    rewrite Hcond.
    destruct (generateReport t sd (Runner.buildPriceData livePrices t sd)
                (Runner.weights a) (Runner.dislocation a) (Runner.inference a));
      reflexivity.
  - intros a H Hin Hu. rewrite H. cbn [mbind Runner.Throws_bind].
    rewrite Hu, (thresholdLevel_inherited THRESHOLD Hin),
      reachesThreshold_NotANumber.
    reflexivity.
Qed.

Lemma count_counters (s : Severity) (sm : Runner.Summary) :
  Runner.criticalDislocations (Runner.count s sm)
    = (Runner.criticalDislocations sm + if bool_decide (s = CRITICAL) then 1 else 0)%nat /\
  Runner.highDislocations (Runner.count s sm)
    = (Runner.highDislocations sm + if bool_decide (s = HIGH) then 1 else 0)%nat /\
  Runner.moderateDislocations (Runner.count s sm)
    = (Runner.moderateDislocations sm + if bool_decide (s = MODERATE) then 1 else 0)%nat /\
  Runner.normal (Runner.count s sm)
    = (Runner.normal sm + if bool_decide (s = NORMAL) then 1 else 0)%nat /\
  Runner.errors (Runner.count s sm) = Runner.errors sm /\
  Runner.tickersAnalyzed (Runner.count s sm) = Runner.tickersAnalyzed sm /\
  Runner.runAt (Runner.count s sm) = Runner.runAt sm.
Proof.
  destruct s; unfold Runner.count;
    cbn [Runner.criticalDislocations Runner.highDislocations
         Runner.moderateDislocations Runner.normal Runner.errors
         Runner.tickersAnalyzed Runner.runAt];
    repeat split; repeat case_bool_decide; try congruence; lia.
Qed.

Lemma filter_analysed_cons (s : Severity) (t : string) (l : list string) :
  length (filter (fun t => analysed s t) (t :: l))
    = ((if analysed s t then 1 else 0) + length (filter (fun t => analysed s t) l))%nat.
Proof.
  rewrite filter_cons. destruct (analysed s t) eqn:E.
  - rewrite decide_True by exact I. reflexivity.
  - rewrite decide_False by (intros H; exact H). reflexivity.
Qed.

(** The summary after the tickers [l], from any state. *)
Lemma loop_summary (l : list string) :
  forall st : Runner.State Commentary,
  let sm := Runner.summary _ st in
  let sm' := Runner.summary _ (foldl step st l) in
  Runner.criticalDislocations sm'
    = (Runner.criticalDislocations sm
       + length (filter (fun t => analysed CRITICAL t) l))%nat /\
  Runner.highDislocations sm'
    = (Runner.highDislocations sm + length (filter (fun t => analysed HIGH t) l))%nat /\
  Runner.moderateDislocations sm'
    = (Runner.moderateDislocations sm
       + length (filter (fun t => analysed MODERATE t) l))%nat /\
  Runner.normal sm'
    = (Runner.normal sm + length (filter (fun t => analysed NORMAL t) l))%nat /\
  Runner.errors sm' = Runner.errors sm ++ omap errorOf' l /\
  Runner.tickersAnalyzed sm' = Runner.tickersAnalyzed sm /\
  Runner.runAt sm' = Runner.runAt sm.
Proof.
  induction l as [|t l IH]; intros st; cbn zeta.
  - cbn [foldl omap list_omap]. rewrite !filter_nil, app_nil_r. cbn [length].
    repeat split; lia.
  - cbn [foldl]. destruct (IH (step st t)) as (H1 & H2 & H3 & H4 & H5 & H6 & H7).
    cbn zeta in H1, H2, H3, H4, H5, H6, H7.
    rewrite H1, H2, H3, H4, H5, H6, H7. clear H1 H2 H3 H4 H5 H6 H7 IH.
    rewrite !filter_analysed_cons.
    change (omap errorOf' (t :: l))
      with (match errorOf' t with
            | Some e => e :: omap errorOf' l
            | None => omap errorOf' l
            end).
    unfold analysedWith, errorOf.
    destruct (outcome t) as [|message|a] eqn:E.
    + rewrite (step_NoData _ _ _ _ _ _ st t E). cbn. rewrite <- app_assoc.
      repeat split; lia.
    + rewrite (step_Failed _ _ _ _ _ _ st t message E). cbn. rewrite <- app_assoc.
      repeat split; lia.
    + rewrite (step_Analysed _ _ _ _ _ _ st t a E). cbn [Runner.summary].
      destruct (count_counters (Runner.severity (Runner.dislocation a))
                  (Runner.summary _ st)) as (C1 & C2 & C3 & C4 & C5 & C6 & C7).
      rewrite C1, C2, C3, C4, C5, C6, C7.
      repeat split; try reflexivity;
        destruct (bool_decide _); lia.
Qed.

(** X17. The summary of a batch.  Each of the four counters is the number
    of tickers of the list, repetitions included, analysed with that
    severity; the errors are the entries of the failing tickers in the order
    of the list; tickersAnalyzed is the length of the list, failures
    included. *)
Theorem batch_summary (w : World) (TICKERS : list string) :
  let sm := Runner.summary _ (analyzeAll w TICKERS) in
  Runner.criticalDislocations sm
    = length (filter (fun t => analysed CRITICAL t) TICKERS) /\
  Runner.highDislocations sm = length (filter (fun t => analysed HIGH t) TICKERS) /\
  Runner.moderateDislocations sm
    = length (filter (fun t => analysed MODERATE t) TICKERS) /\
  Runner.normal sm = length (filter (fun t => analysed NORMAL t) TICKERS) /\
  Runner.errors sm = omap errorOf' TICKERS /\
  Runner.tickersAnalyzed sm = length TICKERS.
Proof.
  cbn zeta. unfold Runner.analyzeAll.
  destruct (loop_summary TICKERS (Runner.initial Commentary w TICKERS))
    as (H1 & H2 & H3 & H4 & H5 & H6 & _).
  cbn zeta in H1, H2, H3, H4, H5, H6.
  rewrite H1, H2, H3, H4, H5, H6. repeat split.
Qed.

(** X18. Which tickers have a result.  After a batch a ticker has a result
    only if it is in the list, has a STOCK_DATA entry and its analysis
    returned: a ticker that was not requested, has no data or failed has
    none. *)
Theorem batch_results_only_analysed (w : World) (TICKERS : list string) (t : string) :
  let res := Runner.results _ (analyzeAll w TICKERS) in
  (t ∉ TICKERS -> res !! t = None) /\
  (STOCK_DATA !! t = None -> res !! t = None) /\
  (forall (sd : Runner.StockData) (message : string),
     STOCK_DATA !! t = Some sd ->
     analyzeTicker t sd = Runner.Threw message -> res !! t = None) /\
  (forall a : Runner.Analysis Commentary,
     res !! t = Some a ->
     exists sd, STOCK_DATA !! t = Some sd /\ analyzeTicker t sd = Runner.Returned a).
Proof.
  cbn zeta. unfold Runner.analyzeAll.
  destruct (loop_invariant Commentary analyze generateReport STOCK_DATA livePrices
              THRESHOLD w TICKERS TICKERS) as (Hr & _).
  cbn zeta in Hr.
  set (res := Runner.results _ (foldl step (Runner.initial Commentary w TICKERS) TICKERS)) in *.
  assert (Hnone : (forall a, ~ (t ∈ TICKERS /\ outcome t = Runner.Analysed _ a)) ->
                  res !! t = None).
  { intros H. destruct (res !! t) as [a|] eqn:E; [|reflexivity].
    apply Hr in E. now apply H in E. }
  split; [|split; [|split]].
  - intros Hnot. apply Hnone. intros a [Hin _]. contradiction.
  - intros Hn. apply Hnone. intros a [_ Ho].
    apply (outcome_Analysed Commentary analyze generateReport STOCK_DATA) in Ho.
    destruct Ho as (sd & Hsd & _). congruence.
  - intros sd message Hsd Hth. apply Hnone. intros a [_ Ho].
    apply (outcome_Analysed Commentary analyze generateReport STOCK_DATA) in Ho.
    destruct Ho as (sd' & Hsd' & Hret). congruence.
  - intros a Ha. apply Hr in Ha. destruct Ha as [_ Ho].
    now apply (outcome_Analysed Commentary analyze generateReport STOCK_DATA) in Ho.
Qed.

Lemma results_determined (w w' : World) (l TICKERS l' TICKERS' : list string) :
  (forall t, t ∈ l <-> t ∈ l') ->
  Runner.results _ (foldl step (Runner.initial Commentary w TICKERS) l)
    = Runner.results _ (foldl step (Runner.initial Commentary w' TICKERS') l').
Proof.
  intros Hmem. apply map_eq. intros t. apply option_eq. intros a.
  destruct (loop_invariant Commentary analyze generateReport STOCK_DATA livePrices
              THRESHOLD w TICKERS l) as (Hr & _).
  destruct (loop_invariant Commentary analyze generateReport STOCK_DATA livePrices
              THRESHOLD w' TICKERS' l') as (Hr' & _).
  cbn zeta in Hr, Hr'. rewrite Hr, Hr', Hmem. reflexivity.
Qed.

(** X19. The order of the tickers.  Two lists that are permutations of each
    other give the same results and the same four counters; the error
    entries are the same up to their order. *)
Theorem batch_order_irrelevant (w : World) (TICKERS TICKERS' : list string) :
  TICKERS ≡ₚ TICKERS' ->
  let st := analyzeAll w TICKERS in
  let st' := analyzeAll w TICKERS' in
  Runner.results _ st = Runner.results _ st' /\
  Runner.criticalDislocations (Runner.summary _ st)
    = Runner.criticalDislocations (Runner.summary _ st') /\
  Runner.highDislocations (Runner.summary _ st)
    = Runner.highDislocations (Runner.summary _ st') /\
  Runner.moderateDislocations (Runner.summary _ st)
    = Runner.moderateDislocations (Runner.summary _ st') /\
  Runner.normal (Runner.summary _ st) = Runner.normal (Runner.summary _ st') /\
  Runner.errors (Runner.summary _ st) ≡ₚ Runner.errors (Runner.summary _ st').
Proof.
  intros Hp. cbn zeta. unfold Runner.analyzeAll.
  destruct (loop_summary TICKERS (Runner.initial Commentary w TICKERS))
    as (H1 & H2 & H3 & H4 & H5 & _).
  destruct (loop_summary TICKERS' (Runner.initial Commentary w TICKERS'))
    as (H1' & H2' & H3' & H4' & H5' & _).
  cbn zeta in *.
  cbn [Runner.initial Runner.summary Runner.criticalDislocations
       Runner.highDislocations Runner.moderateDislocations Runner.normal
       Runner.errors] in H1, H2, H3, H4, H5, H1', H2', H3', H4', H5'.
  rewrite H1, H2, H3, H4, H5, H1', H2', H3', H4', H5'.
  split.
  - apply results_determined. intros t. now rewrite Hp.
  - rewrite !Hp. repeat split; reflexivity.
Qed.

(** X20. A list given twice.  Running a list followed by itself stores the
    same results as running it once but doubles the four counters and
    repeats the error entries: the counters count repetitions, the results
    do not. *)
Theorem batch_repeated (w : World) (TICKERS : list string) :
  let st := analyzeAll w TICKERS in
  let st2 := analyzeAll w (TICKERS ++ TICKERS) in
  Runner.results _ st2 = Runner.results _ st /\
  Runner.criticalDislocations (Runner.summary _ st2)
    = (2 * Runner.criticalDislocations (Runner.summary _ st))%nat /\
  Runner.highDislocations (Runner.summary _ st2)
    = (2 * Runner.highDislocations (Runner.summary _ st))%nat /\
  Runner.moderateDislocations (Runner.summary _ st2)
    = (2 * Runner.moderateDislocations (Runner.summary _ st))%nat /\
  Runner.normal (Runner.summary _ st2)
    = (2 * Runner.normal (Runner.summary _ st))%nat /\
  Runner.errors (Runner.summary _ st2)
    = Runner.errors (Runner.summary _ st) ++ Runner.errors (Runner.summary _ st).
Proof.
  cbn zeta. unfold Runner.analyzeAll.
  destruct (loop_summary TICKERS (Runner.initial Commentary w TICKERS))
    as (H1 & H2 & H3 & H4 & H5 & _).
  destruct (loop_summary (TICKERS ++ TICKERS)
              (Runner.initial Commentary w (TICKERS ++ TICKERS)))
    as (H1' & H2' & H3' & H4' & H5' & _).
  cbn zeta in *.
  cbn [Runner.initial Runner.summary Runner.criticalDislocations
       Runner.highDislocations Runner.moderateDislocations Runner.normal
       Runner.errors] in H1, H2, H3, H4, H5, H1', H2', H3', H4', H5'.
  rewrite H1, H2, H3, H4, H5, H1', H2', H3', H4', H5'.
  split.
  - apply results_determined. intros t. rewrite elem_of_app. tauto.
  - rewrite !filter_app, !length_app, omap_app. cbn [app]. repeat split; lia.
Qed.

End BatchFacts.

(** ** The command line *)

Lemma split_no_sep (sep : ascii) (s : string) :
  Cli.contains sep s = false -> Cli.split sep s = [s].
Proof.
  induction s as [|c s IH]; [reflexivity|].
  simpl. intros H. apply orb_false_iff in H.
  destruct H as [Hc Hs]. apply bool_decide_eq_false in Hc.
  destruct (decide (c = sep)); [congruence|]. now rewrite (IH Hs).
Qed.

Lemma split_app_sep (sep : ascii) (a b : string) :
  Cli.contains sep a = false ->
  Cli.split sep (a +:+ String sep b) = a :: Cli.split sep b.
Proof.
  induction a as [|c a IH]; intros H.
  - simpl. destruct (decide (sep = sep)); [reflexivity|congruence].
  - cbn [Cli.contains] in H. apply orb_false_iff in H. destruct H as [Hc Ha].
    apply bool_decide_eq_false in Hc.
    simpl. destruct (decide (c = sep)); [congruence|].
    now rewrite (IH Ha).
Qed.

Lemma split_pieces (sep : ascii) (s : string) :
  Forall (fun piece => Cli.contains sep piece = false) (Cli.split sep s).
Proof.
  induction s as [|c s IH]; cbn [Cli.split].
  - repeat constructor.
  - destruct (decide (c = sep)) as [->|Hne].
    + constructor; [reflexivity|exact IH].
    + destruct (Cli.split sep s) as [|piece pieces]; [repeat constructor|].
      * cbn [Cli.contains]. now rewrite bool_decide_eq_false_2.
      * inversion IH as [|? ? Hp Hps]; subst. constructor; [|exact Hps].
        cbn [Cli.contains]. rewrite Hp. now rewrite bool_decide_eq_false_2.
Qed.

Lemma parseArg_values (args : gmap string string) (arg : string) :
  (forall k v, args !! k = Some v ->
     Cli.nonEmpty v = true /\ Cli.contains "=" v = false) ->
  forall k v, Cli.parseArg args arg !! k = Some v ->
    Cli.nonEmpty v = true /\ Cli.contains "=" v = false.
Proof.
  intros Hargs k v. unfold Cli.parseArg.
  pose proof (split_pieces "=" arg) as Hp.
  destruct (Cli.split "=" arg) as [|key [|value rest]]; try apply Hargs.
  destruct (Cli.nonEmpty key && Cli.nonEmpty value) eqn:E; [|apply Hargs].
  apply andb_true_iff in E. destruct E as [_ Ev].
  destruct (decide (Cli.stripDashes key = k)) as [<-|Hne].
  - rewrite lookup_insert_eq. intros [= <-]. split; [exact Ev|].
    inversion Hp as [|? ? _ Hp']; subst. now inversion Hp'.
  - rewrite lookup_insert_ne by exact Hne. apply Hargs.
Qed.

Lemma parseArgs_stored (argv : list string) (k v : string) :
  Cli.parseArgs argv !! k = Some v ->
  Cli.nonEmpty v = true /\ Cli.contains "=" v = false.
Proof.
  unfold Cli.parseArgs.
  assert (H : forall (l : list string) (args : gmap string string),
             (forall k v, args !! k = Some v ->
                Cli.nonEmpty v = true /\ Cli.contains "=" v = false) ->
             forall k v, foldl Cli.parseArg args l !! k = Some v ->
               Cli.nonEmpty v = true /\ Cli.contains "=" v = false).
  { induction l as [|arg l IH]; intros args Hargs; [exact Hargs|].
    cbn [foldl]. apply IH. now apply parseArg_values. }
  apply H. intros k' v' Hk. now rewrite lookup_empty in Hk.
Qed.

(** X21. The values of parsed arguments.  Every value parseArgs stores is
    non-empty and contains no '='.  An argument without '=' changes
    nothing, and the first two entries of argv are never read. *)
Theorem parseArgs_values (argv : list string) :
  (forall k v, Cli.parseArgs argv !! k = Some v ->
     Cli.nonEmpty v = true /\ Cli.contains "=" v = false) /\
  (forall args arg, Cli.contains "=" arg = false -> Cli.parseArg args arg = args) /\
  (forall a b a' b' rest,
     Cli.parseArgs (a :: b :: rest) = Cli.parseArgs (a' :: b' :: rest)).
Proof.
  split; [|split].
  - intros k v. apply parseArgs_stored.
  - intros args arg H. unfold Cli.parseArg. now rewrite (split_no_sep _ _ H).
  - reflexivity.
Qed.

Lemma parseArg_key_value (args : gmap string string) (k v tail : string) :
  Cli.contains "=" k = false ->
  Cli.contains "=" v = false ->
  Cli.nonEmpty v = true ->
  tail = EmptyString \/ (exists r, tail = String "=" r) ->
  Cli.parseArg args ("--" +:+ k +:+ String "=" (v +:+ tail)) = <[k := v]> args.
Proof.
  intros Hk Hv Hne Htail. unfold Cli.parseArg.
  change ("--" +:+ k +:+ String "=" (v +:+ tail))
    with (String "-" (String "-" k) +:+ String "=" (v +:+ tail)).
  rewrite split_app_sep by exact Hk.
  destruct Htail as [->|[r ->]].
  - replace (v +:+ EmptyString) with v.
    2:{ clear. induction v as [|c v IH]; [reflexivity|].
        change (String c v +:+ EmptyString) with (String c (v +:+ EmptyString)).
        now rewrite <- IH. }
    rewrite (split_no_sep _ _ Hv). cbn [Cli.nonEmpty andb]. rewrite Hne.
    reflexivity.
  - rewrite split_app_sep by exact Hv. cbn [Cli.nonEmpty andb]. rewrite Hne.
    reflexivity.
Qed.

(** X22. The last argument wins.  After at least the two leading entries of
    argv, a final argument --key=value (key and value without '=', value not
    empty, key other than __proto__) makes parseArgs map key to value,
    whatever was given for that key before; if the argument goes on with a
    second '=', what follows it is dropped. *)
Theorem parseArgs_last_wins (argv : list string) (k v tail : string) :
  (2 <= length argv)%nat ->
  k <> "__proto__"%string ->
  Cli.contains "=" k = false ->
  Cli.contains "=" v = false ->
  Cli.nonEmpty v = true ->
  tail = EmptyString \/ (exists r, tail = String "=" r) ->
  Cli.parseArgs (argv ++ ["--" +:+ k +:+ String "=" (v +:+ tail)])
    = <[k := v]> (Cli.parseArgs argv).
Proof.
  intros Hlen _ Hk Hv Hne Htail. unfold Cli.parseArgs.
  rewrite drop_app_le by exact Hlen. rewrite foldl_app. cbn [foldl].
  now apply parseArg_key_value.
Qed.

(** X23. The threshold from the command line.  Without a threshold
    argument the threshold is MODERATE; with one it is the given value as it
    is.  Unless the value is a name inherited from Object.prototype
    (constructor, toString, ...), the level compared with severities is a
    number between 1 and 3; for an inherited name it is not a number. *)
Theorem threshold_from_argv (argv : list string) :
  let args := Cli.parseArgs argv in
  (args !! "threshold"%string = None -> Cli.THRESHOLD args = "MODERATE"%string) /\
  (forall v, args !! "threshold"%string = Some v -> Cli.THRESHOLD args = v) /\
  (Cli.THRESHOLD args ∉ Runner.Object_prototype ->
   exists l : Z,
     Runner.thresholdLevel (Cli.THRESHOLD args) = Runner.Level l /\
     (1 <= l <= 3)%Z) /\
  (Cli.THRESHOLD args ∈ Runner.Object_prototype ->
   Runner.thresholdLevel (Cli.THRESHOLD args) = Runner.NotANumber).
Proof.
  cbn zeta. split; [|split; [|split]].
  - intros H. unfold Cli.THRESHOLD. now rewrite H.
  - intros v H. unfold Cli.THRESHOLD. rewrite H.
    destruct (parseArgs_stored argv _ _ H) as [Hne _]. now rewrite Hne.
  - apply thresholdLevel_own.
  - apply thresholdLevel_inherited.
Qed.

(** ** The brace matcher of the STOCK_DATA loader *)

Lemma scanFrom_shape (text : list ascii) :
  forall (i : nat) (prev : option ascii) (braceCount : Z)
         (stringChar : option ascii) (e : nat),
  Loader.scanFrom text i prev braceCount stringChar = Some e ->
  exists m : nat, e = (i + S m)%nat /\ text !! m = Some "}"%char.
Proof.
  induction text as [|char rest IH]; intros i prev bc sc e H; [discriminate|].
  cbn [Loader.scanFrom] in H.
  assert (Hrec : forall prev' bc' sc',
             Loader.scanFrom rest (S i) prev' bc' sc' = Some e ->
             exists m : nat, e = (i + S m)%nat /\ (char :: rest) !! m = Some "}"%char).
  { intros prev' bc' sc' H'. destruct (IH _ _ _ _ _ H') as (m & -> & Hm).
    exists (S m). split; [lia|exact Hm]. }
  destruct sc as [quote|].
  - destruct (bool_decide (char = quote) && negb (bool_decide (prev = Some "\"%char)));
      eapply Hrec; exact H.
  - destruct (Loader.isQuote char); [eapply Hrec; exact H|].
    destruct (bool_decide (char = "{"%char)); [eapply Hrec; exact H|].
    destruct (bool_decide (char = "}"%char)) eqn:E; [|eapply Hrec; exact H].
    apply bool_decide_eq_true in E. subst char.
    destruct (bc - 1 =? 0)%Z; [|eapply Hrec; exact H].
    injection H as <-. exists 0%nat. split; [lia|reflexivity].
Qed.

(** X24. What the loader extracts.  The extracted text is either empty (no
    closing brace brought the count back to zero) or a piece of the content
    that starts at startIdx and ends with a closing brace. *)
Theorem objectStr_shape (indexContent : list ascii) (startIdx : nat) :
  let s := Loader.objectStr indexContent startIdx in
  (s = [] /\ Loader.endIdx indexContent startIdx = startIdx) \/
  ((startIdx < Loader.endIdx indexContent startIdx <= length indexContent)%nat /\
   last s = Some "}"%char /\
   forall j : nat, (j < length s)%nat -> s !! j = indexContent !! (startIdx + j)%nat).
Proof.
  cbn zeta. unfold Loader.objectStr, Loader.endIdx.
  destruct (Loader.scanFrom (drop startIdx indexContent) startIdx
              (Loader.charBefore indexContent startIdx) 0 None) as [e|] eqn:E.
  - right. cbn [default]. unfold id.
    destruct (scanFrom_shape _ _ _ _ _ _ E) as (m & -> & Hm).
    pose proof (lookup_lt_Some _ _ _ Hm) as Hlt. rewrite length_drop in Hlt.
    replace (startIdx + S m - startIdx)%nat with (S m) by lia.
    split; [lia|]. split.
    + rewrite last_lookup. rewrite length_take, length_drop.
      replace (Init.Nat.pred (S m `min` (length indexContent - startIdx)))%nat
        with m by lia.
      rewrite lookup_take_lt by lia. exact Hm.
    + intros j Hj. rewrite length_take, length_drop in Hj.
      rewrite lookup_take_lt by lia. now rewrite lookup_drop.
  - left. cbn [default]. rewrite Nat.sub_diag. split; reflexivity.
Qed.

Lemma braceBalance_cons (char : ascii) (text : list ascii) :
  Loader.braceBalance (char :: text)
    = ((if bool_decide (char = "{"%char) then 1
        else if bool_decide (char = "}"%char) then -1 else 0)
       + Loader.braceBalance text)%Z.
Proof. reflexivity. Qed.

(** Outside strings and without quotes ahead, the loop stops at the first
    closing brace that brings the count to zero. *)
Lemma scanFrom_quote_free (text : list ascii) :
  Forall (fun c => Loader.isQuote c = false) text ->
  forall (i : nat) (prev : option ascii) (braceCount : Z),
  match Loader.scanFrom text i prev braceCount None with
  | Some e =>
      exists m : nat,
        e = (i + S m)%nat /\ text !! m = Some "}"%char /\
        (braceCount + Loader.braceBalance (take (S m) text) = 0)%Z /\
        forall j : nat, (j < m)%nat -> text !! j = Some "}"%char ->
          (braceCount + Loader.braceBalance (take (S j) text) <> 0)%Z
  | None =>
      forall j : nat, text !! j = Some "}"%char ->
        (braceCount + Loader.braceBalance (take (S j) text) <> 0)%Z
  end.
Proof.
  induction 1 as [|char rest Hq _ IH]; intros i prev bc.
  - cbn [Loader.scanFrom]. intros j Hj. now rewrite lookup_nil in Hj.
  - cbn [Loader.scanFrom]. rewrite Hq.
    assert (Hrec : forall (prev' : option ascii) (d : Z),
               (d = if bool_decide (char = "{"%char) then 1
                    else if bool_decide (char = "}"%char) then -1 else 0)%Z ->
               (char = "}"%char -> bc + d <> 0)%Z ->
               match Loader.scanFrom rest (S i) prev' (bc + d)%Z None with
               | Some e =>
                   exists m : nat,
                     e = (i + S m)%nat /\ (char :: rest) !! m = Some "}"%char /\
                     (bc + Loader.braceBalance (take (S m) (char :: rest)) = 0)%Z /\
                     forall j : nat, (j < m)%nat ->
                       (char :: rest) !! j = Some "}"%char ->
                       (bc + Loader.braceBalance (take (S j) (char :: rest)) <> 0)%Z
               | None =>
                   forall j : nat, (char :: rest) !! j = Some "}"%char ->
                     (bc + Loader.braceBalance (take (S j) (char :: rest)) <> 0)%Z
               end).
    { intros prev' d Hd Hclose. specialize (IH (S i) prev' (bc + d)%Z).
      destruct (Loader.scanFrom rest (S i) prev' (bc + d)%Z None) as [e|].
      - destruct IH as (m & -> & Hm & Hbal & Hmin).
        exists (S m). split; [lia|]. split; [exact Hm|]. split.
        + change (take (S (S m)) (char :: rest)) with (char :: take (S m) rest).
          rewrite braceBalance_cons, <- Hd. lia.
        + intros [|j] Hj Hc.
          * simpl in Hc. injection Hc as ->. cbn [take].
            rewrite braceBalance_cons, <- Hd, take_0. cbn [Loader.braceBalance].
            specialize (Hclose eq_refl). lia.
          * change (take (S (S j)) (char :: rest)) with (char :: take (S j) rest).
            rewrite braceBalance_cons, <- Hd.
            specialize (Hmin j ltac:(lia) Hc). lia.
      - intros [|j] Hc.
        + simpl in Hc. injection Hc as ->. cbn [take].
          rewrite braceBalance_cons, <- Hd, take_0. cbn [Loader.braceBalance].
          specialize (Hclose eq_refl). lia.
        + change (take (S (S j)) (char :: rest)) with (char :: take (S j) rest).
          rewrite braceBalance_cons, <- Hd.
          specialize (IH j Hc). lia. }
    destruct (bool_decide (char = "{"%char)) eqn:Eo.
    + apply bool_decide_eq_true in Eo.
      apply (Hrec (Some char) 1%Z); [reflexivity|]. intros ->. discriminate.
    + destruct (bool_decide (char = "}"%char)) eqn:Ec.
      * apply bool_decide_eq_true in Ec. subst char.
        destruct (bc - 1 =? 0)%Z eqn:Ez.
        -- apply Z.eqb_eq in Ez. exists 0%nat.
           split; [lia|]. split; [reflexivity|]. split.
           ++ cbn [take]. rewrite braceBalance_cons, take_0.
              rewrite bool_decide_eq_false_2 by discriminate.
              rewrite bool_decide_eq_true_2 by reflexivity.
              cbn [Loader.braceBalance]. lia.
           ++ intros j Hj. lia.
        -- apply Z.eqb_neq in Ez.
           replace (bc - 1)%Z with (bc + -1)%Z by lia.
           apply (Hrec (Some "}"%char) (-1)%Z); [reflexivity|]. intros _. lia.
      * apply bool_decide_eq_false in Ec.
        assert (Hz : (char = "}"%char -> bc + 0 <> 0)%Z) by (intros ->; congruence).
        pose proof (Hrec (Some char) 0%Z eq_refl Hz) as H0.
        replace (bc + 0)%Z with bc in H0 by lia. exact H0.
Qed.

(** X25. Brace matching without quotes.  When the content from startIdx on
    holds no quote character, the loader extracts the text up to the first
    closing brace at which opening and closing braces balance, and nothing
    when there is no such brace. *)
Theorem objectStr_quote_free (indexContent : list ascii) (startIdx : nat) :
  let text := drop startIdx indexContent in
  Forall (fun c => Loader.isQuote c = false) text ->
  (forall m : nat,
     text !! m = Some "}"%char ->
     Loader.braceBalance (take (S m) text) = 0%Z ->
     (forall j : nat, (j < m)%nat -> text !! j = Some "}"%char ->
        Loader.braceBalance (take (S j) text) <> 0%Z) ->
     Loader.objectStr indexContent startIdx = take (S m) text) /\
  ((forall j : nat, text !! j = Some "}"%char ->
      Loader.braceBalance (take (S j) text) <> 0%Z) ->
   Loader.objectStr indexContent startIdx = []).
Proof.
  cbn zeta. intros Hq.
  pose proof (scanFrom_quote_free _ Hq startIdx
                (Loader.charBefore indexContent startIdx) 0%Z) as H.
  unfold Loader.objectStr, Loader.endIdx.
  destruct (Loader.scanFrom (drop startIdx indexContent) startIdx
              (Loader.charBefore indexContent startIdx) 0 None) as [e|].
  - destruct H as (m' & -> & Hm' & Hbal' & Hmin'). cbn [default]. unfold id.
    replace (startIdx + S m' - startIdx)%nat with (S m') by lia.
    split.
    + intros m Hm Hbal Hmin.
      destruct (Nat.lt_trichotomy m m') as [Hlt|[->|Hgt]]; [|reflexivity|].
      * exfalso. apply (Hmin' m Hlt Hm). lia.
      * exfalso. apply (Hmin m' Hgt Hm'). lia.
    + intros Hnone. exfalso. apply (Hnone m' Hm'). lia.
  - cbn [default]. rewrite Nat.sub_diag. split.
    + intros m Hm Hbal _. exfalso. apply (H m Hm). lia.
    + intros _. reflexivity.
Qed.

Lemma scanFrom_in_string (body : list ascii) :
  forall (post : list ascii) (quote : ascii) (i : nat) (prev : option ascii)
         (braceCount : Z),
  quote ∉ body ->
  last (option_list prev ++ body) <> Some "\"%char ->
  Loader.scanFrom (body ++ quote :: post) i prev braceCount (Some quote)
    = Loader.scanFrom post (i + length body + 1) (Some quote) braceCount None.
Proof.
  induction body as [|c body IH]; intros post quote i prev bc Hnot Hlast.
  - cbn [app Loader.scanFrom length]. rewrite bool_decide_eq_true_2 by reflexivity.
    assert (Hp : prev <> Some "\"%char).
    { destruct prev as [p|]; [|discriminate]. exact Hlast. }
    rewrite bool_decide_eq_false_2 by exact Hp. cbn [negb andb].
    f_equal. lia.
  - apply not_elem_of_cons in Hnot. destruct Hnot as [Hne Hnot].
    cbn [app Loader.scanFrom length].
    rewrite (bool_decide_eq_false_2 (c = quote)) by congruence. cbn [andb].
    rewrite (IH post quote (S i) (Some c) bc Hnot).
    + f_equal. lia.
    + change (option_list (Some c) ++ body) with (c :: body).
      destruct prev as [p|].
      * change (option_list (Some p) ++ c :: body) with (p :: c :: body) in Hlast.
        now rewrite last_cons_cons in Hlast.
      * exact Hlast.
Qed.

(** X26. String literals are skipped.  Outside a string, a quote character
    opens a string that runs to the next occurrence of the same quote
    character not preceded by a backslash; whatever the string holds, braces
    and other quote characters included, leaves the brace count as it
    was. *)
Theorem scanFrom_skips_string (body post : list ascii) (quote : ascii) (i : nat)
    (prev : option ascii) (braceCount : Z) :
  Loader.isQuote quote = true ->
  quote ∉ body ->
  last body <> Some "\"%char ->
  Loader.scanFrom (quote :: body ++ quote :: post) i prev braceCount None
    = Loader.scanFrom post (i + length body + 2) (Some quote) braceCount None.
Proof.
  intros Hq Hnot Hlast. cbn [Loader.scanFrom]. rewrite Hq.
  rewrite scanFrom_in_string; [f_equal; lia|exact Hnot|].
  change (option_list (Some quote) ++ body) with (quote :: body).
  destruct body as [|c body].
  - cbn [last]. intros [= ->]. discriminate.
  - now rewrite last_cons_cons.
Qed.

(** X27. A string ending in a backslash is not closed.  Inside a string, a
    quote that directly follows a backslash never ends the string, also when
    that backslash is itself escaped: the loop goes on inside the string
    with the same brace count. *)
Theorem scanFrom_backslash_quote (body post : list ascii) (quote : ascii) (i : nat)
    (prev : option ascii) (braceCount : Z) :
  quote ∉ body ->
  quote <> "\"%char ->
  Loader.scanFrom (body ++ "\"%char :: quote :: post) i prev braceCount (Some quote)
    = Loader.scanFrom post (i + length body + 2) (Some quote) braceCount (Some quote).
Proof.
  revert i prev. induction body as [|c body IH]; intros i prev Hnot Hq.
  - cbn [app Loader.scanFrom length].
    rewrite (bool_decide_eq_false_2 ("\"%char = quote)) by congruence. cbn [andb].
    rewrite (bool_decide_eq_true_2 (quote = quote)) by reflexivity.
    rewrite (bool_decide_eq_true_2 (Some "\"%char = Some "\"%char)) by reflexivity.
    cbn [negb andb]. f_equal. lia.
  - apply not_elem_of_cons in Hnot. destruct Hnot as [Hne Hnot].
    cbn [app Loader.scanFrom length].
    rewrite (bool_decide_eq_false_2 (c = quote)) by congruence. cbn [andb].
    rewrite (IH (S i) (Some c) Hnot Hq). f_equal. lia.
Qed.

(** ** The further properties at sample inputs *)

Lemma sampleWorld_valid : validDraws sampleWorld.
Proof.
  intros n. unfold sampleWorld, worldWithDraws. cbn [randomDraws].
  do 9 (destruct n as [|n]; [cbn [nth]; lra|]). cbn [nth]. lra.
Qed.

Lemma real_positive_price_is_critical_witness :
  RealPrices.severity
    (RealPrices.dislocation
       (RealPrices.analyzeTicker "XRO"
          (RealPrices.mkStock 73.49 (Some 80%Q) [100; 120]%Q))) = CRITICAL.
Proof.
  apply (real_positive_price_is_critical "XRO"
           (RealPrices.mkStock 73.49 (Some 80%Q) [100; 120]%Q)).
  unfold inPriceRange. cbn [RealPrices.price]. lra.
Defined.

Lemma real_run_all_critical_witness :
  (RealPrices.run sampleWorld (Some sampleLive)).2 = 1%Z.
Proof.
  apply (real_run_all_critical sampleWorld (Some sampleLive)).
  intros t q H. change (default ∅ (Some sampleLive)) with sampleLive in H.
  unfold sampleLive in H. apply lookup_singleton_Some in H. destruct H as [_ <-].
  unfold inPriceRange. cbn [RealPrices.p]. lra.
Defined.

Lemma real_run_covers_STOCK_DATA_witness :
  RealPrices.o_results (RealPrices.run sampleWorld (Some sampleLive)).1 !! "XRO"%string
    = Some (RealPrices.analyzeTicker "XRO" (RealPrices.mkStock 70 (Some 71%Q) [])).
Proof.
  apply (proj2 (proj2 (proj2 (real_run_covers_STOCK_DATA sampleWorld (Some sampleLive))))
           "XRO"%string (RealPrices.mkStock 73.49 None [])).
  unfold RealPrices.STOCK_DATA. rewrite !elem_of_cons. tauto.
Defined.

Lemma simulated_price_ranges_witness :
  (100 <= (Simulated.simulatePrices sampleWorld 0%nat).1.1)%Q.
Proof. apply (simulated_price_ranges sampleWorld 0 sampleWorld_valid). Defined.

Lemma simulated_never_critical_witness :
  Simulated.severity
    (Simulated.dislocation (Simulated.analyzeTicker "PME" sampleWorld 0).1)
    <> CRITICAL.
Proof. apply (simulated_never_critical "PME" sampleWorld 0 sampleWorld_valid). Defined.

Lemma simulated_run_report_witness :
  Simulated.o_results (Simulated.run sampleWorld).1 !! "XRO"%string
    = Some (Simulated.analyzeTicker "XRO" sampleWorld 8).1.
Proof.
  apply (proj1 (proj2 (simulated_run_report sampleWorld)) 1%nat "XRO"%string).
  reflexivity.
Defined.

Lemma simulated_ticker_uses_eight_draws_witness :
  (Simulated.analyzeTicker "PME" sampleWorld 0).1
    = (Simulated.analyzeTicker "PME" shiftedWorld 1).1.
Proof.
  apply (simulated_ticker_uses_eight_draws "PME" sampleWorld shiftedWorld 0 1).
  intros k Hk. do 8 (destruct k as [|k]; [reflexivity|]). lia.
Defined.

Lemma simulated_run_exit_zero_witness : (Simulated.run sampleWorld).2 = 0%Z.
Proof. apply (simulated_run_exit_zero sampleWorld sampleWorld_valid). Defined.

Lemma simulated_metric_ranges_witness :
  (JS.parseFloat
     (Simulated.zScore
        (Simulated.metrics
           (Simulated.dislocation
              (Simulated.analyzeTicker "PME" sampleWorld 0%nat).1)))
   <= 3)%Q.
Proof. apply (simulated_metric_ranges "PME" sampleWorld 0 sampleWorld_valid). Defined.

Lemma simulated_weight_ranges_witness :
  (shortTerm
     (wT4 (Simulated.r_weights (Simulated.analyzeTicker "PME" sampleWorld 0%nat).1))
   <= 50)%Q.
Proof.
  exact (proj2 (proj1 (proj2 (proj2 (proj2
           (simulated_weight_ranges "PME" sampleWorld 0 sampleWorld_valid)))))).
Defined.

Lemma buildPriceData_range_witness :
  (10 <= Runner.peakPrice (Runner.buildPriceData ∅ "DRO" sampleHistoryData))%Q.
Proof.
  apply (proj2 (proj2 (proj2 (buildPriceData_range ∅ "DRO" sampleHistoryData))) 10%Q).
  change (10%Q ∈ [8; 10; 9.5; 9]%Q). rewrite !elem_of_cons. tauto.
Defined.


Lemma buildPriceData_returns_witness :
  Runner.historicalReturns (Runner.buildPriceData ∅ "DRO" sampleHistoryData) !! 0%nat
    = Some ((10 - 8) / 8)%Q.
Proof.
  apply (proj1 (buildPriceData_returns ∅ "DRO" sampleHistoryData)).
  - cbn. lia.
  - reflexivity.
  - reflexivity.
  - vm_compute. discriminate.
Defined.

Lemma buildPriceData_downDays_witness :
  exists a b : Q,
    rev (default [] (Runner.priceHistory sampleHistoryData)) !! 1%nat = Some a /\
    rev (default [] (Runner.priceHistory sampleHistoryData)) !! 2%nat = Some b /\
    (a < b)%Q.
Proof.
  apply (proj1 (proj2 (buildPriceData_downDays ∅ "DRO" sampleHistoryData)) 1%nat).
  vm_compute. lia.
Defined.

Lemma thresholdLevel_values_witness :
  Runner.thresholdLevel "LOW" = Runner.Level 1 /\
  Runner.thresholdLevel "toString" = Runner.NotANumber.
Proof.
  split.
  - apply (thresholdLevel_values "LOW"); [|discriminate|discriminate].
    unfold Runner.Object_prototype. rewrite !elem_of_cons, elem_of_nil.
    intros H. repeat (destruct H as [H|H]; [discriminate H|]). exact H.
  - apply (thresholdLevel_values "toString").
    unfold Runner.Object_prototype. rewrite !elem_of_cons. tauto.
Defined.

Lemma commentary_rule_witness :
  Runner.analyzeTicker unit sampleAnalyze sampleReport ∅ "NORMAL" "XRO"
    (Runner.mkStock (Some 73.49%Q) (Some []))
  = sampleAnalyze "XRO" (Runner.mkStock (Some 73.49%Q) (Some []))
      (Runner.buildPriceData ∅ "XRO" (Runner.mkStock (Some 73.49%Q) (Some []))).
Proof.
  eapply (proj1 (proj2 (commentary_rule unit sampleAnalyze sampleReport ∅ "NORMAL"
                           "XRO" (Runner.mkStock (Some 73.49%Q) (Some []))))).
  - vm_compute. reflexivity.
  - vm_compute. reflexivity.
  - vm_compute. reflexivity.
Defined.

Lemma batch_results_only_analysed_witness :
  Runner.results _
    (Runner.analyzeAll unit sampleAnalyze sampleReport sampleStockData ∅ "MODERATE"
       sampleWorld sampleTickers) !! "BAD"%string = None.
Proof.
  apply (proj1 (proj2 (proj2
           (batch_results_only_analysed unit sampleAnalyze sampleReport
              sampleStockData ∅ "MODERATE" sampleWorld sampleTickers "BAD")))
           (Runner.mkStock None None) "engine failure"%string).
  - vm_compute. reflexivity.
  - vm_compute. reflexivity.
Defined.

Lemma batch_order_irrelevant_witness :
  Runner.results _
    (Runner.analyzeAll unit sampleAnalyze sampleReport sampleStockData ∅ "MODERATE"
       sampleWorld sampleTickers)
  = Runner.results _
      (Runner.analyzeAll unit sampleAnalyze sampleReport sampleStockData ∅ "MODERATE"
         sampleWorld (reverse sampleTickers)).
Proof.
  apply (batch_order_irrelevant unit sampleAnalyze sampleReport sampleStockData ∅
           "MODERATE" sampleWorld sampleTickers (reverse sampleTickers)).
  symmetry. apply reverse_Permutation.
Defined.

Lemma parseArgs_values_witness :
  Cli.parseArg ∅ "verbose" = ∅.
Proof.
  apply (proj1 (proj2 (parseArgs_values sampleArgv))). reflexivity.
Defined.

Lemma parseArgs_last_wins_witness :
  Cli.parseArgs (sampleArgv ++ ["--threshold=CRITICAL"%string])
    = <["threshold"%string := "CRITICAL"%string]> (Cli.parseArgs sampleArgv).
Proof.
  apply (parseArgs_last_wins sampleArgv "threshold" "CRITICAL" EmptyString).
  - cbn. lia.
  - discriminate.
  - reflexivity.
  - reflexivity.
  - reflexivity.
  - left. reflexivity.
Defined.

Lemma threshold_from_argv_witness :
  Cli.THRESHOLD (Cli.parseArgs sampleArgv) = "HIGH"%string /\
  exists l : Z,
    Runner.thresholdLevel (Cli.THRESHOLD (Cli.parseArgs sampleArgv)) = Runner.Level l /\
    (1 <= l <= 3)%Z.
Proof.
  split.
  - apply (proj1 (proj2 (threshold_from_argv sampleArgv))).
    vm_compute. reflexivity.
  - apply (proj1 (proj2 (proj2 (threshold_from_argv sampleArgv)))).
    assert (E : Cli.THRESHOLD (Cli.parseArgs sampleArgv) = "HIGH"%string)
      by (vm_compute; reflexivity).
    rewrite E. unfold Runner.Object_prototype. rewrite !elem_of_cons, elem_of_nil.
    intros H. repeat (destruct H as [H|H]; [discriminate H|]). exact H.
Defined.

Lemma objectStr_quote_free_witness :
  Loader.objectStr sampleObject 0 = take 6 sampleObject.
Proof.
  apply (proj1 (objectStr_quote_free sampleObject 0
                  ltac:(unfold sampleObject; cbn [drop]; repeat constructor)) 5%nat).
  - reflexivity.
  - reflexivity.
  - intros j Hj Hc.
    do 5 (destruct j as [|j]; [vm_compute in Hc |- *; congruence|]). lia.
Defined.

Lemma scanFrom_skips_string_witness :
  Loader.scanFrom ("'" :: ["}"; "{"] ++ "'" :: ["}"])%char 0 None 1 None
    = Loader.scanFrom ["}"%char] 4 (Some "'"%char) 1 None.
Proof.
  apply (scanFrom_skips_string ["}"; "{"]%char ["}"%char] "'"%char 0 None 1).
  - reflexivity.
  - rewrite !elem_of_cons, elem_of_nil. intros [H|[H|H]]; [discriminate..|exact H].
  - discriminate.
Defined.

Lemma scanFrom_backslash_quote_witness :
  Loader.scanFrom (["C"; ":"] ++ "\" :: "'" :: ["}"])%char 1 (Some "'"%char) 1
    (Some "'"%char)
  = Loader.scanFrom ["}"%char] 5 (Some "'"%char) 1 (Some "'"%char).
Proof.
  apply (scanFrom_backslash_quote ["C"; ":"]%char ["}"%char] "'"%char 1
           (Some "'"%char) 1).
  - rewrite !elem_of_cons, elem_of_nil. intros [H|[H|H]]; [discriminate..|exact H].
  - discriminate.
Defined.
